(** * Administrative command executor (server/lib/firebase-admin.ts)

    A shallow embedding of [FirebaseAdminService]: the Firestore documents
    it reads and writes, the module-level handles [adminDb] and [adminAuth],
    and its commands as computations over an explicit world, followed by
    the properties of the specification that concern them. *)

From Stdlib Require Import ZArith String Ascii List QArith PrimFloat.
From stdpp Require Import base option gmap strings list fin_maps pretty infinite
  sorting.

Set Warnings "-register-all".

Local Open Scope string_scope.
Local Open Scope Z_scope.

(** ** JavaScript values and Firestore document data *)

(** The values the service stores or passes around.  [VNum] holds the
    whole numbers these commands compute with (limits, counts, days) and
    [VFloat] any other number, as the double it is (the temperature of the
    AI configuration); a Firestore [Timestamp] obtained from a millisecond
    clock is kept as that number of milliseconds, which orders timestamps
    the way Firestore does. *)
Inductive value : Type :=
  | VUndefined
  | VNull
  | VBool (b : bool)
  | VNum (n : Z)
  | VFloat (x : float)
  | VStr (s : string)
  | VTimestamp (millis : Z)
  | VArray (items : list value)
  | VObject (props : list (string * value)).

(** A JavaScript number as an argument: a whole number or any other
    double. *)
Inductive number : Type :=
  | Whole (n : Z)
  | Double (x : float).

Definition of_number (x : number) : value :=
  match x with
  | Whole n => VNum n
  | Double x => VFloat x
  end.

(** An object literal, and the data of a document: its properties in
    order. *)
Abbreviation DocumentData := (list (string * value)).

(** [o.k] is the first binding of [k]; a missing property reads as
    [undefined]. *)
Fixpoint lookup_prop (k : string) (o : DocumentData) : option value :=
  match o with
  | [] => None
  | (k', v) :: o' => if decide (k = k') then Some v else lookup_prop k o'
  end.

Definition prop (k : string) (o : DocumentData) : value :=
  default VUndefined (lookup_prop k o).

(** [o.k = v]: replaces the binding in place, or adds one at the end. *)
Fixpoint set_prop (k : string) (v : value) (o : DocumentData) : DocumentData :=
  match o with
  | [] => [(k, v)]
  | (k', v') :: o' =>
      if decide (k = k') then (k, v) :: o' else (k', v') :: set_prop k v o'
  end.

(** [{...o, ...src}], and the effect of [update(src)] on the fields of a
    document: every property of [src] is assigned to [o].  The binding that
    counts for a name is the first one, as in [lookup_prop]. *)
Definition assign (o src : DocumentData) : DocumentData :=
  foldr (λ kv acc, set_prop kv.1 kv.2 acc) o src.

(** JavaScript truthiness, as used by [if (x)], [!x] and [x || y]. *)
Definition truthy (v : value) : bool :=
  match v with
  | VUndefined | VNull => false
  | VBool b => b
  | VNum n => negb (n =? 0)
  | VFloat x => negb (PrimFloat.is_nan x || PrimFloat.is_zero x)
  | VStr s => negb (String.eqb s "")
  | VTimestamp _ | VArray _ | VObject _ => true
  end.

(** [a || b] *)
Definition js_or (a b : value) : value := if truthy a then a else b.

(** [v !== false] *)
Definition not_false (v : value) : bool :=
  match v with
  | VBool false => false
  | _ => true
  end.

(** An optional string argument ([message?: string]) as a value, and
    [message || fallback]. *)
Definition of_optional (m : option string) : value :=
  match m with
  | Some s => VStr s
  | None => VUndefined
  end.

Definition or_string (m : option string) (fallback : string) : string :=
  match m with
  | Some s => if String.eqb s "" then fallback else s
  | None => fallback
  end.

(** The Firestore client refuses to serialise [undefined] anywhere in the
    data of a write ([ignoreUndefinedProperties] is not set by
    [getFirestore(app)]). *)
Fixpoint has_undefined (v : value) : bool :=
  match v with
  | VUndefined => true
  | VArray items =>
      (fix any (l : list value) : bool :=
         match l with
         | [] => false
         | x :: l' => has_undefined x || any l'
         end) items
  | VObject props =>
      (fix any (l : list (string * value)) : bool :=
         match l with
         | [] => false
         | (_, x) :: l' => has_undefined x || any l'
         end) props
  | _ => false
  end.

(** [set(data, {merge: true})]: the maps of [data] are merged into the maps
    already stored, field by field; any other value replaces the stored
    one. *)
Fixpoint merge_value (new old : value) {struct new} : value :=
  match new, old with
  | VObject upd, VObject cur =>
      VObject
        ((fix merge_into (upd cur : list (string * value)) {struct upd}
            : list (string * value) :=
            match upd with
            | [] => cur
            | (k, v) :: upd' =>
                merge_into upd'
                  (set_prop k
                     (match lookup_prop k cur with
                      | Some old => merge_value v old
                      | None => v
                      end) cur)
            end) upd cur)
  | _, _ => new
  end.

Fixpoint merge_props (upd cur : DocumentData) {struct upd} : DocumentData :=
  match upd with
  | [] => cur
  | (k, v) :: upd' =>
      merge_props upd'
        (set_prop k
           (match lookup_prop k cur with
            | Some old => merge_value v old
            | None => v
            end) cur)
  end.

Definition has_undefined_props (o : DocumentData) : bool :=
  has_undefined (VObject o).

(** ** The world the service runs in *)

(** A Firestore database: collection name to document id to data. *)
Abbreviation Collection := (gmap string DocumentData).
Abbreviation Firestore := (gmap string (gmap string DocumentData)).

(** The identity provider behind [getAuth(app)]: the id tokens it would
    verify, with their subject, and the custom claims of its accounts. *)
Record Auth : Type := MkAuth {
  id_tokens : gmap string string;
  accounts : gmap string DocumentData;
}.

(** [adminDb] and [adminAuth] are the module-level handles ([None] for
    [null]); the host clock counts milliseconds since the epoch and moves on
    by the next of [ticks] after each reading; [entropy] holds the coming
    results of [Math.random()], each as the base-36 fraction digits that
    [toString(36)] prints for it; [console] collects what is reported with
    [console.error] and [console.warn]; [LocalTZA] is the time zone of the
    host as ECMAScript has it: [LocalTZA t true] is the offset of local time
    from UTC, in milliseconds, at the instant [t], and [LocalTZA t false]
    the offset at the local time [t]. *)
Record World : Type := MkWorld {
  adminDb : option Firestore;
  adminAuth : option Auth;
  clock : N;
  ticks : list N;
  entropy : list (list nat);
  console : list string;
  LocalTZA : Z → bool → Z;
}.

Definition with_db (db : Firestore) (w : World) : World :=
  MkWorld (Some db) (adminAuth w) (clock w) (ticks w) (entropy w) (console w)
    (LocalTZA w).

Definition with_auth (a : Auth) (w : World) : World :=
  MkWorld (adminDb w) (Some a) (clock w) (ticks w) (entropy w) (console w)
    (LocalTZA w).

Definition after_tick (w : World) : World :=
  MkWorld (adminDb w) (adminAuth w) (clock w + hd 0%N (ticks w))%N
    (tl (ticks w)) (entropy w) (console w) (LocalTZA w).

Definition after_draw (w : World) : World :=
  MkWorld (adminDb w) (adminAuth w) (clock w) (ticks w) (tl (entropy w))
    (console w) (LocalTZA w).

Definition with_report (line : string) (w : World) : World :=
  MkWorld (adminDb w) (adminAuth w) (clock w) (ticks w) (entropy w)
    (console w ++ [line]) (LocalTZA w).

(** ** Computations that may throw *)

Inductive exn : Type :=
  | Error (message : string)        (* [new Error(message)] of the service *)
  | FirebaseError (code : string)   (* a rejection by the Admin SDK *)
  | TypeError (message : string).

Inductive completion (A : Type) : Type :=
  | Ok (a : A)
  | Throw (e : exn).
Arguments Ok {A} a.
Arguments Throw {A} e.

Definition M (A : Type) : Type := World → completion A * World.

Definition ret {A} (a : A) : M A := λ w, (Ok a, w).

Definition bind {A B} (m : M A) (k : A → M B) : M B := λ w,
  match m w with
  | (Ok a, w') => k a w'
  | (Throw e, w') => (Throw e, w')
  end.

Declare Scope command_scope.
Delimit Scope command_scope with command.
Bind Scope command_scope with M.
Notation "x ← y ; z" := (bind y (λ x, z))
  (at level 20, y at level 100, z at level 200, only parsing) : command_scope.
Notation "x ;; z" := (bind x (λ _, z))
  (at level 100, z at level 200, only parsing, right associativity)
  : command_scope.
Local Open Scope command_scope.

Definition throw {A} (e : exn) : M A := λ w, (Throw e, w).

(** [try { body } catch (error) { handler }] *)
Definition try_catch {A} (body : M A) (handler : exn → M A) : M A := λ w,
  match body w with
  | (Ok a, w') => (Ok a, w')
  | (Throw e, w') => handler e w'
  end.

Definition exn_text (e : exn) : string :=
  match e with
  | Error m => m
  | FirebaseError c => c
  | TypeError m => m
  end.

Definition console_error (line : string) : M unit := λ w,
  (Ok tt, with_report line w).

(** *** Clock and randomness *)

Definition Date_now : M Z := λ w, (Ok (Z.of_N (clock w)), after_tick w).

(** [Timestamp.now()] *)
Definition Timestamp_now : M value := t ← Date_now; ret (VTimestamp t).

(** [Math.random()], as the fraction digits of its base-36 rendering. *)
Definition Math_random : M (list nat) := λ w,
  (Ok (hd [] (entropy w)), after_draw w).

Definition msPerDay : Z := 86400000.

(** [TimeClip]: a time value more than 8.64e15 ms away from the epoch is
    [NaN], the time value of an invalid date ([None]). *)
Definition TimeClip (t : Z) : option Z :=
  if Z.abs t <=? 8640000000000000 then Some t else None.

(** [d.setDate(d.getDate() - days)] on a date of time value [t], for a
    whole number [days]: [setDate] takes the local time of [t]
    ([LocalTime]), moves the day of the month back by [days] and keeps the
    time within the day ([MakeDay], [MakeDate]), reads the result as a local
    time ([UTC]) and clips it.  In a zone with one offset throughout that is
    [days] times 24 hours earlier; across a change of the offset it is not.
    (For a fractional [days], [MakeDay] would truncate the day of the
    month; the commands are modelled for whole numbers of days.) *)
Definition setDate_back (tza : Z → bool → Z) (t days : Z) : option Z :=
  let local := t + tza t true in
  let moved := local - days * msPerDay in
  TimeClip (moved - tza moved false).

(** [d.setDate(d.getDate() - days)] on the host *)
Definition Date_setDate_back (t days : Z) : M (option Z) := λ w,
  (Ok (setDate_back (LocalTZA w) t days), w).

(** [Timestamp.fromDate(date)] holds the seconds and nanoseconds of the
    date's milliseconds; the constructor of [Timestamp] refuses seconds
    outside the years 1 to 9999, and so the time value of an invalid
    date. *)
Definition Timestamp_range (t : Z) : bool :=
  (-62135596800 <=? t / 1000) && (t / 1000 <=? 253402300799).

Definition Timestamp_fromDate (date : option Z) : M Z :=
  match date with
  | Some t =>
      if Timestamp_range t then ret t
      else throw (FirebaseError "invalid-argument")
  | None => throw (FirebaseError "invalid-argument")
  end.

(** *** Strings *)

Definition digit36 (d : nat) : ascii :=
  nth (d mod 36)
    (list_ascii_of_string "0123456789abcdefghijklmnopqrstuvwxyz") "0"%char.

(** [x.toString(36)] for [0 <= x < 1], from the fraction digits. *)
Definition toString36 (digits : list nat) : string :=
  match digits with
  | [] => "0"
  | _ => "0." +:+ string_of_list_ascii (map digit36 digits)
  end.

(** [s.substr(start, length)] *)
Definition substr (start len : nat) (s : string) : string :=
  substring start len s.

Definition upper (c : ascii) : ascii :=
  let n := nat_of_ascii c in
  if ((97 <=? n) && (n <=? 122))%nat then ascii_of_nat (n - 32) else c.

Fixpoint toUpperCase (s : string) : string :=
  match s with
  | EmptyString => EmptyString
  | String c s' => String (upper c) (toUpperCase s')
  end.

(** ** The Admin SDK calls the service makes *)

Definition collection (name : string) (db : Firestore) : Collection :=
  default ∅ (db !! name).

(** The database behind the [adminDb] handle.  Every use in the service
    follows a null check; dereferencing [null] is a [TypeError]. *)
Definition firestore : M Firestore := λ w,
  match adminDb w with
  | Some db => (Ok db, w)
  | None => (Throw (TypeError "Cannot read properties of null"), w)
  end.

Definition put_firestore (db : Firestore) : M unit := λ w,
  (Ok tt, with_db db w).

Definition auth : M Auth := λ w,
  match adminAuth w with
  | Some a => (Ok a, w)
  | None => (Throw (TypeError "Cannot read properties of null"), w)
  end.

(** The check the client runs on the data of every write. *)
Definition validate (data : DocumentData) : M unit :=
  if has_undefined_props data then throw (FirebaseError "invalid-argument")
  else ret tt.

(** The strings that [doc(id)] takes as the id of a document of the
    collection: the client throws on the empty string, and takes a string
    with a slash as a path, which leads to no document or to a document of
    another collection.  The store holds documents under such ids only, and
    the calls below are modelled for them. *)
Definition document_id (id : string) : bool :=
  negb (String.eqb id "")
  && negb (existsb (Ascii.eqb "/") (list_ascii_of_string id)).

(** [collection(c).doc(id).get()]: the data, [None] when [!doc.exists]. *)
Definition doc_get (c id : string) : M (option DocumentData) :=
  db ← firestore; ret (collection c db !! id).

(** [collection(c).doc(id).set(data)] replaces the document. *)
Definition doc_set (c id : string) (data : DocumentData) : M unit :=
  db ← firestore;
  validate data;;
  put_firestore (<[c := <[id := data]> (collection c db)]> db).

(** [collection(c).doc(id).set(data, {merge: true})] *)
Definition doc_set_merge (c id : string) (data : DocumentData) : M unit :=
  db ← firestore;
  validate data;;
  let merged :=
    match collection c db !! id with
    | Some cur => merge_props data cur
    | None => data
    end in
  put_firestore (<[c := <[id := merged]> (collection c db)]> db).

(** [collection(c).doc(id).update(data)] rejects when the document does not
    exist, and otherwise replaces the fields named in [data]. *)
Definition doc_update (c id : string) (data : DocumentData) : M unit :=
  db ← firestore;
  validate data;;
  match collection c db !! id with
  | Some cur =>
      put_firestore (<[c := <[id := assign cur data]> (collection c db)]> db)
  | None => throw (FirebaseError "not-found")
  end.

(** [collection(c).doc(id).delete()] *)
Definition doc_delete (c id : string) : M unit :=
  db ← firestore;
  put_firestore (<[c := delete id (collection c db)]> db).

(** [collection(c).add(data)] stores the data under an id of the store's
    choosing, one that no document of the collection has. *)
Definition coll_add (c : string) (data : DocumentData) : M string :=
  db ← firestore;
  validate data;;
  let id := fresh (dom (collection c db)) in
  put_firestore (<[c := <[id := data]> (collection c db)]> db);;
  ret id.

(** A query snapshot: the documents, as id and data, in the store's
    order. *)
Abbreviation QuerySnapshot := (list (string * DocumentData)).

(** A query without [orderBy] returns the documents by ascending id, the
    ids compared byte by byte. *)
Definition by_id (a b : string * DocumentData) : Prop :=
  String.leb a.1 b.1 = true.

Definition by_id_dec (a b : string * DocumentData) : Decision (by_id a b) :=
  decide (String.leb a.1 b.1 = true).

Definition in_id_order (docs : QuerySnapshot) : QuerySnapshot :=
  @merge_sort _ by_id by_id_dec docs.

(** [collection(c).get()], whose snapshot the service only counts, and
    [collection(c).limit(n).get()], which keeps the first [n] documents in
    id order. *)
Definition coll_get (c : string) : M QuerySnapshot :=
  db ← firestore; ret (map_to_list (collection c db)).

Definition coll_limit_get (c : string) (n : nat) : M QuerySnapshot :=
  db ← firestore;
  ret (take n (in_id_order (map_to_list (collection c db)))).

(** [collection(c).where(...).get()] with the filter as a test on the
    data. *)
Definition coll_where_get (c : string) (test : DocumentData → bool)
  : M QuerySnapshot :=
  db ← firestore;
  ret (filter (λ d, test d.2 = true) (map_to_list (collection c db))).

(** [where(field, "==", false)] matches the documents whose field is the
    boolean [false]. *)
Definition field_is_false (field : string) (d : DocumentData) : bool :=
  match lookup_prop field d with
  | Some (VBool false) => true
  | _ => false
  end.

(** [where(field, "==", true)] *)
Definition field_is_true (field : string) (d : DocumentData) : bool :=
  match lookup_prop field d with
  | Some (VBool true) => true
  | _ => false
  end.

(** [where(field, "<", Timestamp.fromDate(date))] matches the documents
    whose field is a timestamp before that of the date. *)
Definition field_before (field : string) (t : Z) (d : DocumentData) : bool :=
  match lookup_prop field d with
  | Some (VTimestamp m) => m <? t
  | _ => false
  end.

(** A write batch holds the references passed to [batch.delete(doc.ref)];
    [batch.commit()] applies them as one write. *)
Definition batch_delete_all (c : string) (docs : QuerySnapshot)
  : list (string * string) :=
  map (λ d, (c, d.1)) docs.

Definition apply_delete (db : Firestore) (ref : string * string) : Firestore :=
  <[ref.1 := delete ref.2 (collection ref.1 db)]> db.

Definition batch_commit (batch : list (string * string)) : M unit :=
  db ← firestore;
  put_firestore (fold_left apply_delete batch db).

(** [adminAuth.verifyIdToken(idToken)] resolves to the decoded token, of
    which the service uses the [uid], and rejects an invalid token. *)
Definition verifyIdToken (idToken : string) : M string :=
  a ← auth;
  match id_tokens a !! idToken with
  | Some uid => ret uid
  | None => throw (FirebaseError "auth/argument-error")
  end.

Definition put_auth (a : Auth) : M unit := λ w, (Ok tt, with_auth a w).

(** [adminAuth.deleteUser(uid)] and [adminAuth.setCustomUserClaims(uid,
    claims)] reject when the provider has no such account. *)
Definition auth_deleteUser (uid : string) : M unit :=
  a ← auth;
  match accounts a !! uid with
  | Some _ => put_auth (MkAuth (id_tokens a) (delete uid (accounts a)))
  | None => throw (FirebaseError "auth/user-not-found")
  end.

Definition auth_setCustomUserClaims (uid : string) (claims : DocumentData)
  : M unit :=
  a ← auth;
  match accounts a !! uid with
  | Some _ => put_auth (MkAuth (id_tokens a) (<[uid := claims]> (accounts a)))
  | None => throw (FirebaseError "auth/user-not-found")
  end.

(** ** The service *)

(** [adminDb !== null && adminAuth !== null] *)
Definition isAdminInitialized : M bool := λ w,
  (Ok (match adminDb w, adminAuth w with
       | Some _, Some _ => true
       | _, _ => false
       end), w).

Module FirebaseAdminService.

(** [!adminDb] and [!adminDb || !adminAuth] *)
Definition db_is_null : M bool := λ w,
  (Ok (match adminDb w with Some _ => false | None => true end), w).

Definition auth_is_null : M bool := λ w,
  (Ok (match adminAuth w with Some _ => false | None => true end), w).

(** [logAdminAction], over the call [add] that hands the entry to the
    store. *)
Definition logAdminAction_via (add : DocumentData → M string)
  (adminUid action : string) (data : DocumentData) : M unit :=
  null ← db_is_null;
  if null then ret tt
  else
    try_catch
      (now ← Timestamp_now;
       add
         [("adminUid", VStr adminUid);
          ("action", VStr action);
          ("data", VObject data);
          ("timestamp", now);
          ("ipAddress", js_or (prop "ipAddress" data) (VStr "unknown"))];;
       ret tt)
      (λ error,
         console_error ("Failed to log admin action: " +:+ exn_text error)).

(** In the service that call is [adminDb.collection("admin_logs").add]. *)
Definition logAdminAction : string → string → DocumentData → M unit :=
  logAdminAction_via (coll_add "admin_logs").

Definition verifyAdmin (idToken : string) : M string :=
  no_auth ← auth_is_null;
  no_db ← db_is_null;
  if no_auth || no_db then throw (Error "Firebase Admin SDK not initialized")
  else
    uid ← verifyIdToken idToken;
    userDoc ← doc_get "users" uid;
    let isAdmin :=
      match userDoc with
      | Some data => prop "isAdmin" data
      | None => VUndefined
      end in
    if negb (bool_decide (is_Some userDoc)) || negb (truthy isAdmin) then
      logAdminAction uid "UNAUTHORIZED_ADMIN_ACCESS"
        [("reason", VStr "Not an admin")];;
      throw (Error "Unauthorized: Not an admin")
    else ret uid.

(** [null] when the document does not exist, else
    [{ uid: doc.id, ...doc.data() }]. *)
Definition getUser (userId : string) : M (option DocumentData) :=
  null ← db_is_null;
  if null then throw (Error "Database not initialized")
  else
    doc ← doc_get "users" userId;
    match doc with
    | None => ret None
    | Some data => ret (Some (assign [("uid", VStr userId)] data))
    end.

Inductive Plan : Type := Free | Classic | Pro.

Definition plan_name (p : Plan) : string :=
  match p with
  | Free => "Free"
  | Classic => "Classic"
  | Pro => "Pro"
  end.

Definition planLimits : DocumentData :=
  [("Free", VNum 10); ("Classic", VNum 100); ("Pro", VNum 1000)].

Definition updateUserPlan (adminUid userId : string) (plan : Plan) : M unit :=
  null ← db_is_null;
  if null then throw (Error "Database not initialized")
  else
    user ← getUser userId;
    match user with
    | None => throw (Error "User not found")
    | Some _ =>
        doc_update "users" userId
          [("plan", VStr (plan_name plan));
           ("messagesLimit", prop (plan_name plan) planLimits)];;
        logAdminAction adminUid "UPDATE_USER_PLAN"
          [("targetUser", VStr userId); ("newPlan", VStr (plan_name plan))]
    end.

Definition banUser (adminUid userId reason : string) : M unit :=
  null ← db_is_null;
  if null then throw (Error "Database not initialized")
  else
    user ← getUser userId;
    match user with
    | None => throw (Error "User not found")
    | Some user =>
        if truthy (prop "isAdmin" user) then
          throw (Error "Cannot ban admin users")
        else
          now ← Timestamp_now;
          doc_update "users" userId
            [("isBanned", VBool true);
             ("bannedAt", now);
             ("bannedBy", VStr adminUid);
             ("banReason", VStr reason)];;
          logAdminAction adminUid "BAN_USER"
            [("targetUser", VStr userId); ("reason", VStr reason)]
    end.

Definition unbanUser (adminUid userId : string) : M unit :=
  null ← db_is_null;
  if null then throw (Error "Database not initialized")
  else
    user ← getUser userId;
    match user with
    | None => throw (Error "User not found")
    | Some _ =>
        doc_update "users" userId
          [("isBanned", VBool false);
           ("bannedAt", VNull);
           ("bannedBy", VNull);
           ("banReason", VNull)];;
        logAdminAction adminUid "UNBAN_USER" [("targetUser", VStr userId)]
    end.

Definition resetUserMessages (adminUid userId : string) : M unit :=
  null ← db_is_null;
  if null then throw (Error "Database not initialized")
  else
    user ← getUser userId;
    match user with
    | None => throw (Error "User not found")
    | Some _ =>
        now ← Timestamp_now;
        doc_update "users" userId
          [("messagesUsed", VNum 0); ("lastMessageReset", now)];;
        logAdminAction adminUid "RESET_USER_MESSAGES"
          [("targetUser", VStr userId)]
    end.

Definition deleteUser (adminUid userId : string) : M unit :=
  no_db ← db_is_null;
  no_auth ← auth_is_null;
  if no_db || no_auth then throw (Error "Firebase not initialized")
  else
    user ← getUser userId;
    match user with
    | None => throw (Error "User not found")
    | Some user =>
        if truthy (prop "isAdmin" user) then
          throw (Error "Cannot delete admin users")
        else
          doc_delete "users" userId;;
          try_catch (auth_deleteUser userId)
            (λ e, console_error "User not in Auth, continuing...");;
          logAdminAction adminUid "DELETE_USER"
            [("targetUser", VStr userId); ("userEmail", prop "email" user)]
    end.

Definition promoteUser (adminUid userId : string) : M unit :=
  no_db ← db_is_null;
  no_auth ← auth_is_null;
  if no_db || no_auth then throw (Error "Firebase not initialized")
  else
    user ← getUser userId;
    match user with
    | None => throw (Error "User not found")
    | Some _ =>
        doc_update "users" userId [("isAdmin", VBool true)];;
        try_catch
          (auth_setCustomUserClaims userId [("admin", VBool true)])
          (λ e, console_error
                  ("Could not set custom claims: " +:+ exn_text e));;
        logAdminAction adminUid "PROMOTE_USER" [("targetUser", VStr userId)]
    end.

Definition demoteUser (adminUid userId : string) : M unit :=
  no_db ← db_is_null;
  no_auth ← auth_is_null;
  if no_db || no_auth then throw (Error "Firebase not initialized")
  else
    user ← getUser userId;
    match user with
    | None => throw (Error "User not found")
    | Some _ =>
        doc_update "users" userId [("isAdmin", VBool false)];;
        try_catch (auth_setCustomUserClaims userId [])
          (λ e, console_error
                  ("Could not clear custom claims: " +:+ exn_text e));;
        logAdminAction adminUid "DEMOTE_USER" [("targetUser", VStr userId)]
    end.

(** The object that [getAllLicenses] builds for one document of the
    snapshot. *)
Definition license_view (doc : string * DocumentData) : DocumentData :=
  [("key", VStr doc.1);
   ("plan", js_or (prop "plan" doc.2) (VStr "Free"));
   ("valid", VBool (not_false (prop "valid" doc.2)));
   ("usedBy", js_or (prop "usedBy" doc.2) VNull);
   ("usedAt", prop "usedAt" doc.2);
   ("createdAt", prop "createdAt" doc.2);
   ("createdBy", prop "createdBy" doc.2);
   ("validityDays", prop "validityDays" doc.2)].

Definition getAllLicenses (limit : nat) : M (list DocumentData) :=
  null ← db_is_null;
  if null then throw (Error "Database not initialized")
  else
    snapshot ← coll_limit_get "licenses" limit;
    ret (map license_view snapshot).

(** [Math.random().toString(36).substr(2, 9).toUpperCase()] *)
Definition key_suffix (random : list nat) : string :=
  toUpperCase (substr 2 9 (toString36 random)).

Definition make_key (now : Z) (random : list nat) : string :=
  "LIC-" +:+ pretty now +:+ "-" +:+ key_suffix random.

Definition createLicense (adminUid : string) (plan : Plan)
  (validityDays : Z) : M string :=
  null ← db_is_null;
  if null then throw (Error "Database not initialized")
  else
    now ← Date_now;
    random ← Math_random;
    let licenseKey := make_key now random in
    createdAt ← Timestamp_now;
    doc_set "licenses" licenseKey
      [("plan", VStr (plan_name plan));
       ("valid", VBool true);
       ("createdAt", createdAt);
       ("createdBy", VStr adminUid);
       ("validityDays", VNum validityDays)];;
    logAdminAction adminUid "CREATE_LICENSE"
      [("licenseKey", VStr licenseKey);
       ("plan", VStr (plan_name plan));
       ("validityDays", VNum validityDays)];;
    ret licenseKey.

Definition invalidateLicense (adminUid licenseKey : string) : M unit :=
  null ← db_is_null;
  if null then throw (Error "Database not initialized")
  else
    licenseDoc ← doc_get "licenses" licenseKey;
    match licenseDoc with
    | None => throw (Error "License not found")
    | Some _ =>
        doc_update "licenses" licenseKey [("valid", VBool false)];;
        logAdminAction adminUid "INVALIDATE_LICENSE"
          [("licenseKey", VStr licenseKey)]
    end.

Definition deleteLicense (adminUid licenseKey : string) : M unit :=
  null ← db_is_null;
  if null then throw (Error "Database not initialized")
  else
    licenseDoc ← doc_get "licenses" licenseKey;
    match licenseDoc with
    | None => throw (Error "License not found")
    | Some _ =>
        doc_delete "licenses" licenseKey;;
        logAdminAction adminUid "DELETE_LICENSE"
          [("licenseKey", VStr licenseKey)]
    end.

(** The statistics object.  [totalMessages] is summed by the source but
    is not part of what it returns. *)
Record SystemStats : Type := MkSystemStats {
  totalUsers : nat;
  totalAdmins : nat;
  bannedUsers : nat;
  activeLicenses : nat;
  systemHealth : string;
  uptime : Q;
  avgLatency : Z;
  storage_used : Q;
  storage_total : Z;
}.

Definition count_if (test : DocumentData → bool) (docs : QuerySnapshot)
  : nat :=
  fold_left (λ n (doc : string * DocumentData),
               if test doc.2 then S n else n) docs 0%nat.

Definition getSystemStats : M SystemStats :=
  null ← db_is_null;
  if null then throw (Error "Database not initialized")
  else
    usersSnapshot ← coll_get "users";
    licenseSnapshot ← coll_get "licenses";
    logsSnapshot ← coll_get "admin_logs";
    let totalAdmins :=
      count_if (λ data, truthy (prop "isAdmin" data)) usersSnapshot in
    let bannedUsers :=
      count_if (λ data, truthy (prop "isBanned" data)) usersSnapshot in
    let activeLicenses :=
      count_if (λ data, not_false (prop "valid" data)) licenseSnapshot in
    ret (MkSystemStats (length usersSnapshot) totalAdmins bannedUsers
           activeLicenses "Optimal" 99.95%Q 45 2.5%Q 100).

Definition purgeInvalidLicenses (adminUid : string) : M nat :=
  null ← db_is_null;
  if null then throw (Error "Database not initialized")
  else
    snapshot ← coll_where_get "licenses" (field_is_false "valid");
    batch_commit (batch_delete_all "licenses" snapshot);;
    logAdminAction adminUid "PURGE_LICENSES"
      [("count", VNum (Z.of_nat (length snapshot)))];;
    ret (length snapshot).

Definition clearOldLogs (adminUid : string) (daysOld : Z) : M nat :=
  null ← db_is_null;
  if null then throw (Error "Database not initialized")
  else
    now ← Date_now;
    cutoffDate ← Date_setDate_back now daysOld;
    cutoff ← Timestamp_fromDate cutoffDate;
    snapshot ← coll_where_get "admin_logs" (field_before "timestamp" cutoff);
    batch_commit (batch_delete_all "admin_logs" snapshot);;
    logAdminAction adminUid "CLEAR_OLD_LOGS"
      [("daysOld", VNum daysOld);
       ("count", VNum (Z.of_nat (length snapshot)))];;
    ret (length snapshot).

(** The object that [getBannedUsers] builds for one document of the
    snapshot. *)
Definition banned_view (doc : string * DocumentData) : DocumentData :=
  [("uid", VStr doc.1);
   ("email", prop "email" doc.2);
   ("displayName", prop "displayName" doc.2);
   ("bannedAt", prop "bannedAt" doc.2);
   ("bannedBy", prop "bannedBy" doc.2);
   ("banReason", prop "banReason" doc.2)].

Definition getBannedUsers : M (list DocumentData) :=
  null ← db_is_null;
  if null then throw (Error "Database not initialized")
  else
    snapshot ← coll_where_get "users" (field_is_true "isBanned");
    ret (map banned_view snapshot).

(** The default temperature, 0.7, is the double nearest to it. *)
Definition getAIConfig : M DocumentData :=
  null ← db_is_null;
  if null then throw (Error "Database not initialized")
  else
    doc ← doc_get "config" "ai";
    match doc with
    | None =>
        ret [("model", VStr "gpt-4o-mini");
             ("temperature", VFloat 0x1.6666666666666p-1%float);
             ("maxTokens", VNum 2000);
             ("systemPrompt", VStr "You are a helpful AI assistant.")]
    | Some data => ret data
    end.

(** The configuration that [updateAIConfig] takes, with the fields of its
    signature, and the object it is at run time. *)
Record AIConfig : Type := MkAIConfig {
  model : string;
  temperature : number;
  maxTokens : number;
  systemPrompt : string;
}.

Definition config_object (config : AIConfig) : DocumentData :=
  [("model", VStr (model config));
   ("temperature", of_number (temperature config));
   ("maxTokens", of_number (maxTokens config));
   ("systemPrompt", VStr (systemPrompt config))].

Definition updateAIConfig (adminUid : string) (config : AIConfig) : M unit :=
  null ← db_is_null;
  if null then throw (Error "Database not initialized")
  else
    doc_set_merge "config" "ai" (config_object config);;
    logAdminAction adminUid "UPDATE_AI_CONFIG"
      [("config", VObject (config_object config))].

Definition getMaintenanceStatus : M DocumentData :=
  null ← db_is_null;
  if null then throw (Error "Database not initialized")
  else
    doc ← doc_get "config" "maintenance";
    match doc with
    | None =>
        ret [("isGlobalMaintenance", VBool false);
             ("partialServices", VArray []);
             ("plannedMaintenance", VNull)]
    | Some data => ret data
    end.

Definition enableGlobalMaintenance (adminUid : string)
  (message : option string) : M unit :=
  null ← db_is_null;
  if null then throw (Error "Database not initialized")
  else
    now ← Timestamp_now;
    doc_set_merge "config" "maintenance"
      [("isGlobalMaintenance", VBool true);
       ("message", VStr (or_string message "System maintenance in progress"));
       ("enabledAt", now);
       ("enabledBy", VStr adminUid)];;
    logAdminAction adminUid "ENABLE_GLOBAL_MAINTENANCE"
      [("message", of_optional message)].

Definition disableGlobalMaintenance (adminUid : string) : M unit :=
  null ← db_is_null;
  if null then throw (Error "Database not initialized")
  else
    doc_set_merge "config" "maintenance"
      [("isGlobalMaintenance", VBool false)];;
    logAdminAction adminUid "DISABLE_GLOBAL_MAINTENANCE" [].

Definition enablePartialMaintenance (adminUid : string)
  (services : list string) (message : option string) : M unit :=
  null ← db_is_null;
  if null then throw (Error "Database not initialized")
  else
    now ← Timestamp_now;
    doc_set_merge "config" "maintenance"
      [("partialServices", VArray (map VStr services));
       ("message",
        VStr (or_string message "Some services are under maintenance"));
       ("enabledAt", now);
       ("enabledBy", VStr adminUid)];;
    logAdminAction adminUid "ENABLE_PARTIAL_MAINTENANCE"
      [("services", VArray (map VStr services));
       ("message", of_optional message)].

Definition disablePartialMaintenance (adminUid : string) : M unit :=
  null ← db_is_null;
  if null then throw (Error "Database not initialized")
  else
    doc_set_merge "config" "maintenance" [("partialServices", VArray [])];;
    logAdminAction adminUid "DISABLE_PARTIAL_MAINTENANCE" [].

Definition enableIAMaintenance (adminUid : string) (message : option string)
  : M unit :=
  null ← db_is_null;
  if null then throw (Error "Database not initialized")
  else
    now ← Timestamp_now;
    doc_set_merge "config" "maintenance"
      [("iaService",
        VObject
          [("enabled", VBool false);
           ("message",
            VStr (or_string message "AI service is under maintenance"));
           ("enabledAt", now);
           ("enabledBy", VStr adminUid)])];;
    logAdminAction adminUid "ENABLE_IA_MAINTENANCE"
      [("message", of_optional message)].

Definition disableIAMaintenance (adminUid : string) : M unit :=
  null ← db_is_null;
  if null then throw (Error "Database not initialized")
  else
    doc_set_merge "config" "maintenance"
      [("iaService", VObject [("enabled", VBool true)])];;
    logAdminAction adminUid "DISABLE_IA_MAINTENANCE" [].

Definition enableLicenseMaintenance (adminUid : string)
  (message : option string) : M unit :=
  null ← db_is_null;
  if null then throw (Error "Database not initialized")
  else
    now ← Timestamp_now;
    doc_set_merge "config" "maintenance"
      [("licenseService",
        VObject
          [("enabled", VBool false);
           ("message",
            VStr (or_string message "License service is under maintenance"));
           ("enabledAt", now);
           ("enabledBy", VStr adminUid)])];;
    logAdminAction adminUid "ENABLE_LICENSE_MAINTENANCE"
      [("message", of_optional message)].

Definition disableLicenseMaintenance (adminUid : string) : M unit :=
  null ← db_is_null;
  if null then throw (Error "Database not initialized")
  else
    doc_set_merge "config" "maintenance"
      [("licenseService", VObject [("enabled", VBool true)])];;
    logAdminAction adminUid "DISABLE_LICENSE_MAINTENANCE" [].

Definition enablePlannedMaintenance (adminUid plannedTime : string)
  (message : option string) : M unit :=
  null ← db_is_null;
  if null then throw (Error "Database not initialized")
  else
    doc_set_merge "config" "maintenance"
      [("plannedMaintenance",
        VObject
          [("enabled", VBool true);
           ("scheduledAt", VStr plannedTime);
           ("message",
            VStr (or_string message "Planned maintenance scheduled"));
           ("scheduledBy", VStr adminUid)])];;
    logAdminAction adminUid "ENABLE_PLANNED_MAINTENANCE"
      [("plannedTime", VStr plannedTime); ("message", of_optional message)].

Definition disablePlannedMaintenance (adminUid : string) : M unit :=
  null ← db_is_null;
  if null then throw (Error "Database not initialized")
  else
    doc_set_merge "config" "maintenance"
      [("plannedMaintenance", VObject [("enabled", VBool false)])];;
    logAdminAction adminUid "DISABLE_PLANNED_MAINTENANCE" [].

End FirebaseAdminService.

Import FirebaseAdminService.

(** ** Vocabulary of the properties *)

(** The documents of a collection as the service would find them: none when
    the database handle is [null]. *)
Definition stored (c : string) (w : World) : Collection :=
  match adminDb w with
  | Some db => collection c db
  | None => ∅
  end.

(** The world with [doc] stored under [id] in collection [c] of [db]. *)
Definition stored_as (c id : string) (doc : DocumentData) (db : Firestore)
  (w : World) : World :=
  with_db (<[c := <[id := doc]> (collection c db)]> db) w.

(** The audit entry that [logAdminAction] hands to the store at time
    [now]. *)
Definition log_entry (adminUid action : string) (data : DocumentData)
  (now : Z) : DocumentData :=
  [("adminUid", VStr adminUid);
   ("action", VStr action);
   ("data", VObject data);
   ("timestamp", VTimestamp now);
   ("ipAddress", js_or (prop "ipAddress" data) (VStr "unknown"))].

(** The world after [logAdminAction] ran against database [db]: one clock
    reading, then either the entry under a new id or, when the store
    refuses the entry, a line on the console. *)
Definition logged (adminUid action : string) (data : DocumentData)
  (db : Firestore) (w : World) : World :=
  let entry := log_entry adminUid action data (Z.of_N (clock w)) in
  if has_undefined_props entry then
    with_report ("Failed to log admin action: " +:+ "invalid-argument")
      (after_tick w)
  else
    with_db
      (<["admin_logs" :=
           <[fresh (dom (collection "admin_logs" db)) := entry]>
             (collection "admin_logs" db)]> db)
      (after_tick w).

(** The plan-to-limit table of the specification. *)
Definition documented_limit (p : Plan) : Z :=
  match p with
  | Free => 10
  | Classic => 100
  | Pro => 1000
  end.

(** The maintenance document, with no fields when there is none yet, and
    the [enabled] flag nested under one of its services. *)
Definition maintenance_doc (w : World) : DocumentData :=
  default [] (stored "config" w !! "maintenance").

Definition service_enabled (service : string) (w : World) : value :=
  match prop service (maintenance_doc w) with
  | VObject flags => prop "enabled" flags
  | _ => VUndefined
  end.

(** [v.k] for a value that may or may not be an object: the field [k]
    nested under a field of a document. *)
Definition nested_prop (k : string) (v : value) : option value :=
  match v with
  | VObject fields => lookup_prop k fields
  | _ => None
  end.

(** The maintenance document that [set(data, {merge: true})] leaves in
    database [db]. *)
Definition merged_maintenance (db : Firestore) (data : DocumentData)
  : DocumentData :=
  match collection "config" db !! "maintenance" with
  | Some cur => merge_props data cur
  | None => data
  end.

(** The documents of a collection that pass a test, and those that do
    not. *)
Definition matching (test : DocumentData → bool) (docs : Collection)
  : Collection :=
  filter (λ d, test d.2 = true) docs.

Definition without (test : DocumentData → bool) (docs : Collection)
  : Collection :=
  filter (λ d, test d.2 = false) docs.

(** [n] successive calls of [createLicense], with the keys they return. *)
Fixpoint createLicenses (n : nat) (adminUid : string) (plan : Plan)
  (validityDays : Z) : M (list string) :=
  match n with
  | O => ret []
  | S n' =>
      key ← createLicense adminUid plan validityDays;
      keys ← createLicenses n' adminUid plan validityDays;
      ret (key :: keys)
  end.

(** What the keys of [n] successive calls are made from: the clock reading
    and the random draw of each call.  A call reads the clock three times
    (for the key, for [createdAt] and in the audit) and draws once. *)
Fixpoint key_inputs (n : nat) (clock : N) (ticks : list N)
  (entropy : list (list nat)) : list (N * list nat) :=
  match n with
  | O => []
  | S n' =>
      (clock, hd [] entropy)
      :: key_inputs n'
           (clock + hd 0 ticks + hd 0 (tl ticks) + hd 0 (tl (tl ticks)))%N
           (tl (tl (tl ticks))) (tl entropy)
  end.

(** Recognisers for the shape of a license key:
    [LIC-], decimal digits, [-], then between [lo] and [hi] characters out
    of [0-9A-Z]. *)
Definition is_digit (c : ascii) : bool :=
  let n := nat_of_ascii c in ((48 <=? n) && (n <=? 57))%nat.

Definition is_upper_alnum (c : ascii) : bool :=
  let n := nat_of_ascii c in
  (((48 <=? n) && (n <=? 57)) || ((65 <=? n) && (n <=? 90)))%nat.

Fixpoint span_digits (l : list ascii) : list ascii * list ascii :=
  match l with
  | c :: l' =>
      if is_digit c then
        let (ds, rest) := span_digits l' in (c :: ds, rest)
      else ([], l)
  | [] => ([], [])
  end.

Definition key_shape (lo hi : nat) (key : string) : bool :=
  match list_ascii_of_string key with
  | "L" :: "I" :: "C" :: "-" :: rest =>
      match span_digits rest with
      | (_ :: _, "-" :: suffix) =>
          forallb is_upper_alnum suffix
          && (lo <=? length suffix)%nat && (length suffix <=? hi)%nat
      | _ => false
      end
  | _ => false
  end%char.

(** The format of the specification: a suffix of exactly nine
    characters. *)
Definition documented_format (key : string) : bool := key_shape 9 9 key.

(** The commands that write, as one type: what an admin can ask the
    service to do (every method of the service but the guard, the logger
    and the queries), with the audit tag each one logs and the collection
    each one writes besides [admin_logs]. *)
Inductive Command : Type :=
  | UpdateUserPlan (userId : string) (plan : Plan)
  | BanUser (userId reason : string)
  | UnbanUser (userId : string)
  | ResetUserMessages (userId : string)
  | DeleteUser (userId : string)
  | PromoteUser (userId : string)
  | DemoteUser (userId : string)
  | CreateLicense (plan : Plan) (validityDays : Z)
  | InvalidateLicense (licenseKey : string)
  | DeleteLicense (licenseKey : string)
  | UpdateAIConfig (config : AIConfig)
  | PurgeInvalidLicenses
  | ClearOldLogs (daysOld : Z)
  | EnableGlobalMaintenance (message : option string)
  | DisableGlobalMaintenance
  | EnablePartialMaintenance (services : list string) (message : option string)
  | DisablePartialMaintenance
  | EnableIAMaintenance (message : option string)
  | DisableIAMaintenance
  | EnableLicenseMaintenance (message : option string)
  | DisableLicenseMaintenance
  | EnablePlannedMaintenance (plannedTime : string) (message : option string)
  | DisablePlannedMaintenance.

Definition run (adminUid : string) (c : Command) : M unit :=
  match c with
  | UpdateUserPlan userId plan => updateUserPlan adminUid userId plan
  | BanUser userId reason => banUser adminUid userId reason
  | UnbanUser userId => unbanUser adminUid userId
  | ResetUserMessages userId => resetUserMessages adminUid userId
  | DeleteUser userId => deleteUser adminUid userId
  | PromoteUser userId => promoteUser adminUid userId
  | DemoteUser userId => demoteUser adminUid userId
  | CreateLicense plan days => createLicense adminUid plan days;; ret tt
  | InvalidateLicense key => invalidateLicense adminUid key
  | DeleteLicense key => deleteLicense adminUid key
  | UpdateAIConfig config => updateAIConfig adminUid config
  | PurgeInvalidLicenses => purgeInvalidLicenses adminUid;; ret tt
  | ClearOldLogs days => clearOldLogs adminUid days;; ret tt
  | EnableGlobalMaintenance message => enableGlobalMaintenance adminUid message
  | DisableGlobalMaintenance => disableGlobalMaintenance adminUid
  | EnablePartialMaintenance services message =>
      enablePartialMaintenance adminUid services message
  | DisablePartialMaintenance => disablePartialMaintenance adminUid
  | EnableIAMaintenance message => enableIAMaintenance adminUid message
  | DisableIAMaintenance => disableIAMaintenance adminUid
  | EnableLicenseMaintenance message =>
      enableLicenseMaintenance adminUid message
  | DisableLicenseMaintenance => disableLicenseMaintenance adminUid
  | EnablePlannedMaintenance plannedTime message =>
      enablePlannedMaintenance adminUid plannedTime message
  | DisablePlannedMaintenance => disablePlannedMaintenance adminUid
  end.

Definition audit_tag (c : Command) : string :=
  match c with
  | UpdateUserPlan _ _ => "UPDATE_USER_PLAN"
  | BanUser _ _ => "BAN_USER"
  | UnbanUser _ => "UNBAN_USER"
  | ResetUserMessages _ => "RESET_USER_MESSAGES"
  | DeleteUser _ => "DELETE_USER"
  | PromoteUser _ => "PROMOTE_USER"
  | DemoteUser _ => "DEMOTE_USER"
  | CreateLicense _ _ => "CREATE_LICENSE"
  | InvalidateLicense _ => "INVALIDATE_LICENSE"
  | DeleteLicense _ => "DELETE_LICENSE"
  | UpdateAIConfig _ => "UPDATE_AI_CONFIG"
  | PurgeInvalidLicenses => "PURGE_LICENSES"
  | ClearOldLogs _ => "CLEAR_OLD_LOGS"
  | EnableGlobalMaintenance _ => "ENABLE_GLOBAL_MAINTENANCE"
  | DisableGlobalMaintenance => "DISABLE_GLOBAL_MAINTENANCE"
  | EnablePartialMaintenance _ _ => "ENABLE_PARTIAL_MAINTENANCE"
  | DisablePartialMaintenance => "DISABLE_PARTIAL_MAINTENANCE"
  | EnableIAMaintenance _ => "ENABLE_IA_MAINTENANCE"
  | DisableIAMaintenance => "DISABLE_IA_MAINTENANCE"
  | EnableLicenseMaintenance _ => "ENABLE_LICENSE_MAINTENANCE"
  | DisableLicenseMaintenance => "DISABLE_LICENSE_MAINTENANCE"
  | EnablePlannedMaintenance _ _ => "ENABLE_PLANNED_MAINTENANCE"
  | DisablePlannedMaintenance => "DISABLE_PLANNED_MAINTENANCE"
  end.

Definition written_collection (c : Command) : string :=
  match c with
  | UpdateUserPlan _ _ | BanUser _ _ | UnbanUser _ | ResetUserMessages _
  | DeleteUser _ | PromoteUser _ | DemoteUser _ => "users"
  | CreateLicense _ _ | InvalidateLicense _ | DeleteLicense _
  | PurgeInvalidLicenses => "licenses"
  | ClearOldLogs _ => "admin_logs"
  | _ => "config"
  end.

(** The one document a command writes, for the commands whose argument
    names it or that have one fixed document, and the top-level fields of
    the maintenance document that each maintenance command passes to
    [set]. *)
Definition written_document (c : Command) : option string :=
  match c with
  | UpdateUserPlan userId _ | BanUser userId _ | UnbanUser userId
  | ResetUserMessages userId | DeleteUser userId | PromoteUser userId
  | DemoteUser userId => Some userId
  | InvalidateLicense key | DeleteLicense key => Some key
  | UpdateAIConfig _ => Some "ai"
  | CreateLicense _ _ | PurgeInvalidLicenses | ClearOldLogs _ => None
  | _ => Some "maintenance"
  end.

Definition maintenance_fields (c : Command) : list string :=
  match c with
  | EnableGlobalMaintenance _ =>
      ["isGlobalMaintenance"; "message"; "enabledAt"; "enabledBy"]
  | DisableGlobalMaintenance => ["isGlobalMaintenance"]
  | EnablePartialMaintenance _ _ =>
      ["partialServices"; "message"; "enabledAt"; "enabledBy"]
  | DisablePartialMaintenance => ["partialServices"]
  | EnableIAMaintenance _ | DisableIAMaintenance => ["iaService"]
  | EnableLicenseMaintenance _ | DisableLicenseMaintenance =>
      ["licenseService"]
  | EnablePlannedMaintenance _ _ | DisablePlannedMaintenance =>
      ["plannedMaintenance"]
  | _ => []
  end.

(** The commands that also call the identity provider. *)
Definition calls_provider (c : Command) : bool :=
  match c with
  | DeleteUser _ | PromoteUser _ | DemoteUser _ => true
  | _ => false
  end.

(** The errors of the commands: the six that they throw themselves, and
    the client's refusal of an argument (a cutoff of [clearOldLogs] that no
    timestamp holds). *)
Definition command_errors : list exn :=
  [Error "Database not initialized"; Error "Firebase not initialized";
   Error "User not found"; Error "Cannot ban admin users";
   Error "Cannot delete admin users"; Error "License not found";
   FirebaseError "invalid-argument"].

(** ** Example worlds *)

(** Two users, of which [root] is an admin; three licenses, one without a
    [valid] field and one invalidated; a maintenance document; three audit
    entries, written 31 days, exactly 30 days and one millisecond before
    the clock. *)
Definition demo_users : Collection :=
  {[ "root" := [("email", VStr "root@example.org"); ("isAdmin", VBool true)];
     "u1" := [("email", VStr "u1@example.org"); ("plan", VStr "Free");
              ("isAdmin", VBool false); ("messagesLimit", VNum 10)] ]}.

Definition demo_licenses : Collection :=
  {[ "LIC-1-AAAAAAAAA" := [("plan", VStr "Pro"); ("valid", VBool true)];
     "LIC-2-BBBBBBBBB" := [("plan", VStr "Classic"); ("valid", VBool false)];
     "LIC-3-CCCCCCCCC" := [("plan", VStr "Free")] ]}.

Definition demo_config : Collection :=
  {[ "maintenance" :=
       [("isGlobalMaintenance", VBool true);
        ("message", VStr "Back soon");
        ("enabledAt", VTimestamp 1699999000000);
        ("enabledBy", VStr "root");
        ("partialServices", VArray [VStr "chat"]);
        ("iaService", VObject [("enabled", VBool true)])] ]}.

Definition demo_now : N := 1700000000000.

(** A host on UTC, and a host on New York time around the end of daylight
    saving time in 2023 (5 November, 06:00 UTC): four hours behind UTC
    before the change, five after it; a local time that occurs twice is
    taken as the earlier instant. *)
Definition utc (t : Z) (isUTC : bool) : Z := 0.

Definition new_york (t : Z) (isUTC : bool) : Z :=
  let change := 1699164000000 in
  let hour := 3600000 in
  if isUTC then (if t <? change then -4 * hour else -5 * hour)
  else (if t <? change - 4 * hour then -4 * hour else -5 * hour).

Definition demo_logs : Collection :=
  {[ "0" := log_entry "root" "BAN_USER" [] (Z.of_N demo_now - 31 * msPerDay);
     "1" := log_entry "root" "UNBAN_USER" [] (Z.of_N demo_now - 30 * msPerDay);
     "2" := log_entry "root" "CREATE_LICENSE" [] (Z.of_N demo_now - 1) ]}.

Definition demo_db : Firestore :=
  {[ "users" := demo_users; "licenses" := demo_licenses;
     "config" := demo_config; "admin_logs" := demo_logs ]}.

Definition demo_auth : Auth :=
  MkAuth {[ "token-root" := "root"; "token-u1" := "u1";
            "token-ghost" := "ghost" ]} ∅.

Definition demo_world : World :=
  MkWorld (Some demo_db) (Some demo_auth) demo_now [2; 5; 1; 3]%N
    [[18]; [20; 2; 3; 4; 5; 6; 7; 8; 9; 10]]%nat [] utc.

(** The demo world on a host in New York, with one more audit entry,
    dated thirty days and thirty minutes before the clock reading. *)
Definition new_york_world : World :=
  MkWorld
    (Some (<["admin_logs" :=
               <["recent" := log_entry "root" "BAN_USER" []
                               (Z.of_N demo_now - 30 * msPerDay - 1800000)]>
                 demo_logs]> demo_db))
    (Some demo_auth) demo_now [2; 5; 1; 3]%N [] [] new_york.

(** The same world with a provider that holds an account for [u1]. *)
Definition provider_world : World :=
  MkWorld (Some demo_db)
    (Some (MkAuth (id_tokens demo_auth) {[ "u1" := [] ]}))
    demo_now [2; 5; 1; 3]%N [] [] utc.

(** A world for a run of [n] calls of [createLicense]: each call but the
    last two starts in a millisecond of its own, the last two start within
    the same one; the draws are ten digits long and differ in their first
    nine, except those of the last two calls, which differ in the tenth
    only. *)
Definition busy_draw (i last : nat) : list nat :=
  [18 + i mod 18; (i / 18) mod 36; (i / 648) mod 36; 7; 7; 7; 7; 7; 7; last]%nat.

Definition busy_world (n : nat) : World :=
  MkWorld (Some demo_db) (Some demo_auth) demo_now
    (concat (replicate (n - 2) [1; 0; 0]%N))
    (map (λ i, busy_draw i 7) (seq 0 (n - 1)) ++ [busy_draw (n - 2) 8])
    [] utc.

(** ** Properties of the model *)

(** Closes [k ∉ l] for a literal list of names. *)
Ltac not_among :=
  cbn; repeat (apply not_elem_of_cons; split; [discriminate|]);
  apply not_elem_of_nil.

(** *** The model at work *)

Example toString36_half : toString36 [18%nat] = "0.i".
Proof. reflexivity. Qed.

Example key_suffix_half : key_suffix [18%nat] = "I".
Proof. reflexivity. Qed.

Example key_suffix_ten_digits :
  key_suffix [20; 2; 3; 4; 5; 6; 7; 8; 9; 10]%nat = "K23456789".
Proof. reflexivity. Qed.

Example key_suffix_zero : key_suffix [] = "".
Proof. reflexivity. Qed.

Example merge_keeps_nested_fields :
  merge_props [("iaService", VObject [("enabled", VBool true)])]
    [("isGlobalMaintenance", VBool false);
     ("iaService", VObject [("enabled", VBool false); ("message", VStr "m")])]
  = [("isGlobalMaintenance", VBool false);
     ("iaService", VObject [("enabled", VBool true); ("message", VStr "m")])].
Proof. reflexivity. Qed.

Example update_replaces_named_fields :
  assign [("plan", VStr "Free"); ("email", VStr "a@b")]
    [("plan", VStr "Pro"); ("messagesLimit", VNum 1000)]
  = [("plan", VStr "Pro"); ("email", VStr "a@b"); ("messagesLimit", VNum 1000)].
Proof. reflexivity. Qed.

Example enable_then_disable_global :
  match
    (enableGlobalMaintenance "root" (Some "Upgrade");;
     disableGlobalMaintenance "root") demo_world
  with
  | (Ok _, w') =>
      (prop "isGlobalMaintenance" (maintenance_doc w'),
       prop "message" (maintenance_doc w'),
       prop "enabledAt" (maintenance_doc w'),
       prop "enabledBy" (maintenance_doc w'),
       prop "partialServices" (maintenance_doc w'))
      = (VBool false, VStr "Upgrade", VTimestamp 1700000000000, VStr "root",
         VArray [VStr "chat"])
  | (Throw _, _) => False
  end.
Proof. by vm_compute. Qed.

Example banUser_on_a_null_handle :
  (banUser "root" "u1" "spam"
     (MkWorld None None demo_now [] [] [] utc)).1
  = Throw (Error "Database not initialized").
Proof. reflexivity. Qed.

Section Props.
Implicit Types (k j : string) (v : value) (o src : DocumentData).

Lemma lookup_set_prop j k v o :
  lookup_prop j (set_prop k v o) =
    if decide (j = k) then Some v else lookup_prop j o.
Proof.
  induction o as [|[k' v'] o IH]; simpl.
  - destruct (decide (j = k)); reflexivity.
  - destruct (decide (k = k')) as [->|Hk]; simpl.
    + destruct (decide (j = k')); reflexivity.
    + rewrite IH. destruct (decide (j = k')) as [->|]; [|reflexivity].
      destruct (decide (k' = k)); congruence.
Qed.

Lemma prop_set_prop_eq k v o : prop k (set_prop k v o) = v.
Proof. unfold prop. rewrite lookup_set_prop, decide_True; done. Qed.

Lemma prop_set_prop_ne j k v o :
  j ≠ k → prop j (set_prop k v o) = prop j o.
Proof. intros. unfold prop. rewrite lookup_set_prop, decide_False; done. Qed.

Lemma lookup_assign j o src :
  lookup_prop j (assign o src) =
    match lookup_prop j src with
    | Some v => Some v
    | None => lookup_prop j o
    end.
Proof.
  induction src as [|[k v] src IH]; simpl; [reflexivity|].
  rewrite lookup_set_prop. destruct (decide (j = k)); [reflexivity|apply IH].
Qed.
End Props.

Section Running.
Context (w : World) (db : Firestore) (Hdb : adminDb w = Some db).

Lemma db_is_null_run : db_is_null w = (Ok false, w).
Proof using Hdb. unfold db_is_null. by rewrite Hdb. Qed.

Lemma firestore_run : firestore w = (Ok db, w).
Proof using Hdb. unfold firestore. by rewrite Hdb. Qed.

Lemma logAdminAction_run adminUid action data :
  logAdminAction adminUid action data w
  = (Ok tt, logged adminUid action data db w).
Proof using Hdb.
  unfold logAdminAction, logAdminAction_via, bind at 1.
  rewrite db_is_null_run.
  unfold try_catch, bind, Timestamp_now, bind, Date_now, ret, coll_add, bind, firestore.
  simpl. rewrite Hdb. unfold validate, logged, log_entry.
  destruct (has_undefined_props _); reflexivity.
Qed.
End Running.

Lemma logAdminAction_null w adminUid action data :
  adminDb w = None → logAdminAction adminUid action data w = (Ok tt, w).
Proof.
  intros H. unfold logAdminAction, logAdminAction_via, bind, db_is_null.
  by rewrite H.
Qed.

Lemma stored_Some c w id doc :
  stored c w !! id = Some doc →
  ∃ db, adminDb w = Some db ∧ collection c db !! id = Some doc.
Proof.
  unfold stored. destruct (adminDb w) as [db|]; [eauto|].
  by rewrite lookup_empty.
Qed.

Lemma lookup_prop_None k (o : DocumentData) :
  k ∉ o.*1 → lookup_prop k o = None.
Proof.
  induction o as [|[k' v] o IH]; simpl; [done|].
  intros [Hk Ho]%not_elem_of_cons. rewrite decide_False by done. by apply IH.
Qed.

Lemma collection_insert_eq c docs (db : Firestore) :
  collection c (<[c := docs]> db) = docs.
Proof. unfold collection. by rewrite lookup_insert_eq. Qed.

Lemma collection_insert_ne c c' docs (db : Firestore) :
  c' ≠ c → collection c (<[c' := docs]> db) = collection c db.
Proof. intros. unfold collection. by rewrite lookup_insert_ne. Qed.

(** The audit touches no collection but [admin_logs]. *)
Lemma stored_logged c adminUid action data db w :
  adminDb w = Some db → c ≠ "admin_logs" →
  stored c (logged adminUid action data db w) = collection c db.
Proof.
  intros Hdb Hc. unfold logged, stored.
  destruct (has_undefined_props _); simpl.
  - by rewrite Hdb.
  - by rewrite collection_insert_ne.
Qed.

Section UserCommands.
Context (w : World) (db : Firestore) (Hdb : adminDb w = Some db).
Context (userId : string) (target : DocumentData).
Context (Htarget : collection "users" db !! userId = Some target).

Lemma getUser_run :
  getUser userId w = (Ok (Some (assign [("uid", VStr userId)] target)), w).
Proof using Hdb Htarget.
  unfold getUser, bind at 1. rewrite (db_is_null_run w db Hdb).
  unfold doc_get, bind. rewrite (firestore_run w db Hdb).
  unfold ret. by rewrite Htarget.
Qed.

Lemma user_isAdmin :
  prop "isAdmin" (assign [("uid", VStr userId)] target) = prop "isAdmin" target.
Proof.
  unfold prop. rewrite lookup_assign. simpl.
  by destruct (lookup_prop "isAdmin" target).
Qed.

Lemma doc_update_run data w0 :
  adminDb w0 = Some db → has_undefined_props data = false →
  doc_update "users" userId data w0
  = (Ok tt, stored_as "users" userId (assign target data) db w0).
Proof using Htarget.
  intros H0 Hv. unfold doc_update, bind. rewrite (firestore_run w0 db H0).
  unfold validate. rewrite Hv. unfold ret. by rewrite Htarget.
Qed.

Lemma banUser_run adminUid reason :
  banUser adminUid userId reason w =
    if truthy (prop "isAdmin" target) then
      (Throw (Error "Cannot ban admin users"), w)
    else
      let data :=
        [("isBanned", VBool true);
         ("bannedAt", VTimestamp (Z.of_N (clock w)));
         ("bannedBy", VStr adminUid);
         ("banReason", VStr reason)] in
      logAdminAction adminUid "BAN_USER"
        [("targetUser", VStr userId); ("reason", VStr reason)]
        (stored_as "users" userId (assign target data) db (after_tick w)).
Proof using Hdb Htarget.
  unfold banUser, bind at 1. rewrite (db_is_null_run w db Hdb).
  unfold bind at 1. rewrite getUser_run, user_isAdmin.
  destruct (truthy (prop "isAdmin" target)); [reflexivity|].
  unfold bind at 1. unfold Timestamp_now, Date_now, bind at 1, ret.
  unfold bind at 1. by rewrite doc_update_run.
Qed.
End UserCommands.

(** C1. [banUser] on a target whose [isAdmin] is set fails with
    "Cannot ban admin users" and changes nothing; on any other existing
    target it succeeds and leaves the target with [isBanned = true],
    [bannedAt] the time of the call, [bannedBy] the acting admin and
    [banReason] the reason given, every other field as it was. *)
Theorem banUser_spares_admins (w : World) (adminUid userId reason : string)
  (target : DocumentData) :
  stored "users" w !! userId = Some target →
  if truthy (prop "isAdmin" target) then
    banUser adminUid userId reason w
    = (Throw (Error "Cannot ban admin users"), w)
  else
    ∃ w' banned,
      banUser adminUid userId reason w = (Ok tt, w') ∧
      stored "users" w' !! userId = Some banned ∧
      prop "isBanned" banned = VBool true ∧
      prop "bannedAt" banned = VTimestamp (Z.of_N (clock w)) ∧
      prop "bannedAt" banned ≠ VNull ∧
      prop "bannedBy" banned = VStr adminUid ∧
      prop "banReason" banned = VStr reason ∧
      ∀ k, k ∉ ["isBanned"; "bannedAt"; "bannedBy"; "banReason"] →
           lookup_prop k banned = lookup_prop k target.
Proof.
  intros (db & Hdb & Htarget)%stored_Some.
  rewrite (banUser_run w db Hdb userId target Htarget).
  destruct (truthy (prop "isAdmin" target)); [reflexivity|].
  cbv zeta. eexists _, _. split.
  { eapply logAdminAction_run. reflexivity. }
  rewrite stored_logged by done.
  rewrite collection_insert_eq, lookup_insert_eq.
  split; [reflexivity|].
  repeat split; try (unfold prop; by rewrite lookup_assign).
  intros k Hk. by rewrite lookup_assign, lookup_prop_None.
Qed.

Lemma banUser_spares_admins_witness :
  banUser "root" "root" "spam" demo_world
  = (Throw (Error "Cannot ban admin users"), demo_world)
  ∧ ∃ w' banned,
      banUser "root" "u1" "spam" demo_world = (Ok tt, w') ∧
      stored "users" w' !! "u1" = Some banned ∧
      prop "isBanned" banned = VBool true ∧
      prop "bannedAt" banned = VTimestamp 1700000000000 ∧
      prop "bannedAt" banned ≠ VNull ∧
      prop "bannedBy" banned = VStr "root" ∧
      prop "banReason" banned = VStr "spam" ∧
      ∀ k, k ∉ ["isBanned"; "bannedAt"; "bannedBy"; "banReason"] →
           lookup_prop k banned
           = lookup_prop k
               [("email", VStr "u1@example.org"); ("plan", VStr "Free");
                ("isAdmin", VBool false); ("messagesLimit", VNum 10)].
Proof.
  split.
  - apply (banUser_spares_admins demo_world "root" "root" "spam"
             [("email", VStr "root@example.org"); ("isAdmin", VBool true)]).
    reflexivity.
  - apply (banUser_spares_admins demo_world "root" "u1" "spam"
             [("email", VStr "u1@example.org"); ("plan", VStr "Free");
              ("isAdmin", VBool false); ("messagesLimit", VNum 10)]).
    reflexivity.
Defined.

Section PlanCommand.
Context (w : World) (db : Firestore) (Hdb : adminDb w = Some db).
Context (userId : string) (target : DocumentData).
Context (Htarget : collection "users" db !! userId = Some target).

Lemma updateUserPlan_run adminUid plan :
  updateUserPlan adminUid userId plan w =
    logAdminAction adminUid "UPDATE_USER_PLAN"
      [("targetUser", VStr userId); ("newPlan", VStr (plan_name plan))]
      (stored_as "users" userId
         (assign target
            [("plan", VStr (plan_name plan));
             ("messagesLimit", prop (plan_name plan) planLimits)]) db w).
Proof using Hdb Htarget.
  unfold updateUserPlan, bind at 1. rewrite (db_is_null_run w db Hdb).
  unfold bind at 1. rewrite (getUser_run w db Hdb userId target Htarget).
  unfold bind at 1. rewrite (doc_update_run db userId target Htarget); try done.
  by destruct plan.
Qed.
End PlanCommand.

(** C5. For an existing user and each plan, [updateUserPlan] stores the
    plan and the limit 10, 100 or 1000 that belongs to it, and leaves the
    other fields of the user alone. *)
Theorem updateUserPlan_sets_limit (w : World) (adminUid userId : string)
  (plan : Plan) (target : DocumentData) :
  stored "users" w !! userId = Some target →
  ∃ w' updated,
    updateUserPlan adminUid userId plan w = (Ok tt, w') ∧
    stored "users" w' !! userId = Some updated ∧
    prop "plan" updated = VStr (plan_name plan) ∧
    prop "messagesLimit" updated = VNum (documented_limit plan) ∧
    ∀ k, k ∉ ["plan"; "messagesLimit"] →
         lookup_prop k updated = lookup_prop k target.
Proof.
  intros (db & Hdb & Htarget)%stored_Some.
  rewrite (updateUserPlan_run w db Hdb userId target Htarget).
  eexists _, _. split.
  { eapply logAdminAction_run. reflexivity. }
  rewrite stored_logged by done.
  rewrite collection_insert_eq, lookup_insert_eq.
  split; [reflexivity|].
  repeat split.
  - unfold prop. by rewrite lookup_assign.
  - unfold prop. rewrite lookup_assign. by destruct plan.
  - intros k Hk. by rewrite lookup_assign, lookup_prop_None.
Qed.

Lemma updateUserPlan_sets_limit_witness :
  ∃ w' updated,
    updateUserPlan "root" "u1" Pro demo_world = (Ok tt, w') ∧
    stored "users" w' !! "u1" = Some updated ∧
    prop "plan" updated = VStr "Pro" ∧
    prop "messagesLimit" updated = VNum 1000 ∧
    ∀ k, k ∉ ["plan"; "messagesLimit"] →
         lookup_prop k updated
         = lookup_prop k
             [("email", VStr "u1@example.org"); ("plan", VStr "Free");
              ("isAdmin", VBool false); ("messagesLimit", VNum 10)].
Proof.
  apply (updateUserPlan_sets_limit demo_world "root" "u1" Pro
           [("email", VStr "u1@example.org"); ("plan", VStr "Free");
            ("isAdmin", VBool false); ("messagesLimit", VNum 10)]).
  reflexivity.
Defined.

(** *** The authorization guard *)

Lemma fresh_id_unused (docs : Collection) : docs !! fresh (dom docs) = None.
Proof. apply not_elem_of_dom, is_fresh. Qed.

(** What [logged] does to the audit collection when the store takes the
    entry. *)
Lemma logged_appends adminUid action data db w :
  adminDb w = Some db →
  has_undefined_props (log_entry adminUid action data (Z.of_N (clock w))) = false →
  ∃ id,
    stored "admin_logs" w !! id = None ∧
    stored "admin_logs" (logged adminUid action data db w)
    = <[id := log_entry adminUid action data (Z.of_N (clock w))]>
        (stored "admin_logs" w).
Proof.
  intros Hdb Hv. exists (fresh (dom (collection "admin_logs" db))).
  unfold logged, stored. rewrite Hv, Hdb. simpl.
  split; [apply fresh_id_unused|apply collection_insert_eq].
Qed.

Lemma stored_logged_frame c adminUid action data db w :
  adminDb w = Some db → c ≠ "admin_logs" →
  stored c (logged adminUid action data db w) = stored c w.
Proof.
  intros Hdb Hc. rewrite stored_logged by done. unfold stored. by rewrite Hdb.
Qed.

Section Guard.
Context (w : World) (db : Firestore) (a : Auth).
Context (Hdb : adminDb w = Some db) (Hauth : adminAuth w = Some a).
Context (idToken uid : string) (Htoken : id_tokens a !! idToken = Some uid).

Lemma verifyAdmin_run :
  verifyAdmin idToken w =
    match collection "users" db !! uid with
    | Some user =>
        if truthy (prop "isAdmin" user) then (Ok uid, w)
        else
          (Throw (Error "Unauthorized: Not an admin"),
           logged uid "UNAUTHORIZED_ADMIN_ACCESS"
             [("reason", VStr "Not an admin")] db w)
    | None =>
        (Throw (Error "Unauthorized: Not an admin"),
         logged uid "UNAUTHORIZED_ADMIN_ACCESS"
           [("reason", VStr "Not an admin")] db w)
    end.
Proof using Hdb Hauth Htoken.
  unfold verifyAdmin, bind at 1, auth_is_null. rewrite Hauth.
  unfold bind at 1. rewrite (db_is_null_run w db Hdb). simpl.
  unfold bind at 1, verifyIdToken, bind at 1, auth. rewrite Hauth, Htoken.
  unfold ret at 1. unfold bind at 1, doc_get, bind at 1.
  rewrite (firestore_run w db Hdb). unfold ret at 1.
  destruct (collection "users" db !! uid) as [user|]; simpl.
  - destruct (truthy (prop "isAdmin" user)); simpl; [reflexivity|].
    unfold bind. by rewrite (logAdminAction_run w db Hdb).
  - unfold bind. by rewrite (logAdminAction_run w db Hdb).
Qed.
End Guard.

(** C2. With a valid credential whose subject has a user record that is
    not an admin, [verifyAdmin] fails with "Unauthorized: Not an admin",
    and the world it leaves has exactly one more audit entry, the
    UNAUTHORIZED_ADMIN_ACCESS entry of that subject; nothing else in the
    store changed. *)
Theorem verifyAdmin_rejects_non_admin (w : World) (a : Auth)
  (idToken uid : string) (user : DocumentData) :
  adminAuth w = Some a →
  id_tokens a !! idToken = Some uid →
  stored "users" w !! uid = Some user →
  truthy (prop "isAdmin" user) = false →
  ∃ w' id,
    verifyAdmin idToken w
    = (Throw (Error "Unauthorized: Not an admin"), w') ∧
    stored "admin_logs" w !! id = None ∧
    stored "admin_logs" w'
    = <[id := log_entry uid "UNAUTHORIZED_ADMIN_ACCESS"
                [("reason", VStr "Not an admin")] (Z.of_N (clock w))]>
        (stored "admin_logs" w) ∧
    size (stored "admin_logs" w') = S (size (stored "admin_logs" w)) ∧
    ∀ c, c ≠ "admin_logs" → stored c w' = stored c w.
Proof.
  intros Hauth Htoken (db & Hdb & Huser)%stored_Some Hadmin.
  rewrite (verifyAdmin_run w db a Hdb Hauth idToken uid Htoken), Huser, Hadmin.
  destruct (logged_appends uid "UNAUTHORIZED_ADMIN_ACCESS"
              [("reason", VStr "Not an admin")] db w Hdb eq_refl)
    as (id & Hfresh & Hlogs).
  exists (logged uid "UNAUTHORIZED_ADMIN_ACCESS"
            [("reason", VStr "Not an admin")] db w), id.
  split; [reflexivity|]. split; [done|]. split; [done|]. split.
  - rewrite Hlogs. by apply map_size_insert_None.
  - intros c Hc. by apply stored_logged_frame.
Qed.

Lemma verifyAdmin_rejects_non_admin_witness :
  ∃ w' id,
    verifyAdmin "token-u1" demo_world
    = (Throw (Error "Unauthorized: Not an admin"), w') ∧
    stored "admin_logs" demo_world !! id = None ∧
    stored "admin_logs" w'
    = <[id := log_entry "u1" "UNAUTHORIZED_ADMIN_ACCESS"
                [("reason", VStr "Not an admin")] 1700000000000]>
        (stored "admin_logs" demo_world) ∧
    size (stored "admin_logs" w') = S (size (stored "admin_logs" demo_world)) ∧
    ∀ c, c ≠ "admin_logs" → stored c w' = stored c demo_world.
Proof.
  apply (verifyAdmin_rejects_non_admin demo_world demo_auth "token-u1" "u1"
           [("email", VStr "u1@example.org"); ("plan", VStr "Free");
            ("isAdmin", VBool false); ("messagesLimit", VNum 10)]);
    reflexivity.
Defined.




(** *** Maintenance flags *)

Lemma prop_head k v (o : DocumentData) : prop k ((k, v) :: o) = v.
Proof. unfold prop. simpl. by rewrite decide_True. Qed.

Lemma lookup_merge_props_other k (upd cur : DocumentData) :
  k ∉ upd.*1 → lookup_prop k (merge_props upd cur) = lookup_prop k cur.
Proof.
  revert cur. induction upd as [|[k' v] upd IH]; intros cur; simpl; [done|].
  intros [Hk Hupd]%not_elem_of_cons.
  rewrite IH by done. rewrite lookup_set_prop. by rewrite decide_False.
Qed.

Lemma lookup_merge_props_head k v (upd cur : DocumentData) :
  k ∉ upd.*1 →
  lookup_prop k (merge_props ((k, v) :: upd) cur)
  = Some (match lookup_prop k cur with
          | Some old => merge_value v old
          | None => v
          end).
Proof.
  intros Hk. simpl. rewrite lookup_merge_props_other by done.
  rewrite lookup_set_prop. by rewrite decide_True.
Qed.

Lemma merge_value_object upd cur :
  merge_value (VObject upd) (VObject cur) = VObject (merge_props upd cur).
Proof.
  reflexivity.
Qed.

(** A nested [{enabled: b, ...}] merged into a document under [service]
    reads back [b], whatever was stored there before. *)
Lemma merged_flag service (b : bool) (more cur : DocumentData) :
  "enabled" ∉ more.*1 →
  match prop service
          (merge_props [(service, VObject (("enabled", VBool b) :: more))] cur)
  with
  | VObject flags => prop "enabled" flags
  | _ => VUndefined
  end = VBool b.
Proof.
  intros Hmore. unfold prop at 1. rewrite lookup_merge_props_head by apply not_elem_of_nil.
  cbn [from_option id].
  assert (∀ flags, prop "enabled"
            (merge_props (("enabled", VBool b) :: more) flags) = VBool b) as Hin.
  { intros flags. unfold prop. rewrite lookup_merge_props_head by done.
    by destruct (lookup_prop "enabled" flags). }
  destruct (lookup_prop service cur) as [old|].
  - destruct old; try apply prop_head.
    rewrite merge_value_object. apply Hin.
  - apply prop_head.
Qed.

Section Maintenance.
Context (w : World) (db : Firestore) (Hdb : adminDb w = Some db).

Lemma doc_set_merge_run data w0 :
  adminDb w0 = Some db → has_undefined_props data = false →
  doc_set_merge "config" "maintenance" data w0
  = (Ok tt, stored_as "config" "maintenance" (merged_maintenance db data) db w0).
Proof.
  intros H0 Hv. unfold doc_set_merge, bind. rewrite (firestore_run w0 db H0).
  unfold validate. by rewrite Hv.
Qed.

(** Every maintenance command is such a merge followed by the audit. *)
Lemma merge_then_log data adminUid action payload w0 :
  adminDb w0 = Some db → has_undefined_props data = false →
  ∃ w',
    (doc_set_merge "config" "maintenance" data;;
     logAdminAction adminUid action payload) w0 = (Ok tt, w') ∧
    maintenance_doc w' = merged_maintenance db data ∧
    ∀ id, id ≠ "maintenance" →
          stored "config" w' !! id = collection "config" db !! id.
Proof.
  intros H0 Hv. eexists. split.
  { unfold bind. rewrite doc_set_merge_run by done.
    eapply logAdminAction_run. reflexivity. }
  unfold maintenance_doc. rewrite stored_logged by done.
  unfold stored_as. rewrite collection_insert_eq. split.
  - by rewrite lookup_insert_eq.
  - intros id Hid. by rewrite lookup_insert_ne.
Qed.

Lemma maintenance_doc_now :
  maintenance_doc w = default [] (collection "config" db !! "maintenance").
Proof using Hdb. unfold maintenance_doc, stored. by rewrite Hdb. Qed.

(** Merging one top-level field sets it and keeps the others. *)
Lemma merged_field k v :
  lookup_prop k (merged_maintenance db [(k, v)])
  = Some (match lookup_prop k (maintenance_doc w) with
          | Some old => merge_value v old
          | None => v
          end)
  ∧ ∀ j, j ≠ k →
         lookup_prop j (merged_maintenance db [(k, v)]) = lookup_prop j (maintenance_doc w).
Proof using Hdb.
  rewrite maintenance_doc_now. unfold merged_maintenance.
  destruct (collection "config" db !! "maintenance") as [cur|]; simpl.
  - split; [|intros j Hj]; rewrite lookup_set_prop;
      [by rewrite decide_True|by rewrite decide_False].
  - split; [|intros j Hj]; [by rewrite decide_True|by rewrite decide_False].
Qed.

Lemma merged_service_flag service (b : bool) (more : DocumentData) :
  "enabled" ∉ more.*1 →
  match prop service
          (merged_maintenance db
             [(service, VObject (("enabled", VBool b) :: more))])
  with
  | VObject flags => prop "enabled" flags
  | _ => VUndefined
  end = VBool b.
Proof.
  intros Hmore. unfold merged_maintenance.
  destruct (collection "config" db !! "maintenance") as [cur|].
  - by apply merged_flag.
  - rewrite prop_head. apply prop_head.
Qed.
End Maintenance.

(** C6. Enabling maintenance of the AI service leaves the nested
    [iaService.enabled] flag [false] and disabling it leaves the flag
    [true]; the license service behaves the same under [licenseService]. *)
Theorem subservice_maintenance_polarity (w : World) (db : Firestore)
  (adminUid : string) (message : option string) :
  adminDb w = Some db →
  (∃ w', enableIAMaintenance adminUid message w = (Ok tt, w') ∧
         service_enabled "iaService" w' = VBool false) ∧
  (∃ w', disableIAMaintenance adminUid w = (Ok tt, w') ∧
         service_enabled "iaService" w' = VBool true) ∧
  (∃ w', enableLicenseMaintenance adminUid message w = (Ok tt, w') ∧
         service_enabled "licenseService" w' = VBool false) ∧
  (∃ w', disableLicenseMaintenance adminUid w = (Ok tt, w') ∧
         service_enabled "licenseService" w' = VBool true).
Proof.
  intros Hdb.
  repeat split.
  - unfold enableIAMaintenance, bind at 1. rewrite (db_is_null_run w db Hdb).
    unfold bind at 1, Timestamp_now, bind at 1, Date_now, ret.
    edestruct (merge_then_log db) as (w' & Hrun & Hdoc & _);
      [| |exists w'; split; [apply Hrun|]]; [done..|].
    unfold service_enabled. rewrite Hdoc. apply merged_service_flag. not_among.
  - unfold disableIAMaintenance, bind at 1. rewrite (db_is_null_run w db Hdb).
    edestruct (merge_then_log db) as (w' & Hrun & Hdoc & _);
      [| |exists w'; split; [apply Hrun|]]; [done..|].
    unfold service_enabled. rewrite Hdoc. apply merged_service_flag. not_among.
  - unfold enableLicenseMaintenance, bind at 1. rewrite (db_is_null_run w db Hdb).
    unfold bind at 1, Timestamp_now, bind at 1, Date_now, ret.
    edestruct (merge_then_log db) as (w' & Hrun & Hdoc & _);
      [| |exists w'; split; [apply Hrun|]]; [done..|].
    unfold service_enabled. rewrite Hdoc. apply merged_service_flag. not_among.
  - unfold disableLicenseMaintenance, bind at 1. rewrite (db_is_null_run w db Hdb).
    edestruct (merge_then_log db) as (w' & Hrun & Hdoc & _);
      [| |exists w'; split; [apply Hrun|]]; [done..|].
    unfold service_enabled. rewrite Hdoc. apply merged_service_flag. not_among.
Qed.

Lemma subservice_maintenance_polarity_witness :
  (∃ w', enableIAMaintenance "root" (Some "Model upgrade") demo_world
         = (Ok tt, w') ∧
         service_enabled "iaService" w' = VBool false) ∧
  (∃ w', disableIAMaintenance "root" demo_world = (Ok tt, w') ∧
         service_enabled "iaService" w' = VBool true) ∧
  (∃ w', enableLicenseMaintenance "root" (Some "Model upgrade") demo_world
         = (Ok tt, w') ∧
         service_enabled "licenseService" w' = VBool false) ∧
  (∃ w', disableLicenseMaintenance "root" demo_world = (Ok tt, w') ∧
         service_enabled "licenseService" w' = VBool true).
Proof.
  apply (subservice_maintenance_polarity demo_world demo_db "root"
           (Some "Model upgrade")).
  reflexivity.
Defined.

(** C10. [disableGlobalMaintenance] sets [isGlobalMaintenance] to [false]
    and [disablePartialMaintenance] sets [partialServices] to the empty
    list; every other field of the maintenance document reads as before,
    and so does every other config document. *)
Theorem disable_maintenance_keeps_other_fields (w : World) (db : Firestore)
  (adminUid : string) :
  adminDb w = Some db →
  (∃ w',
     disableGlobalMaintenance adminUid w = (Ok tt, w') ∧
     lookup_prop "isGlobalMaintenance" (maintenance_doc w')
     = Some (VBool false) ∧
     (∀ k, k ≠ "isGlobalMaintenance" →
           lookup_prop k (maintenance_doc w')
           = lookup_prop k (maintenance_doc w)) ∧
     (∀ id, id ≠ "maintenance" →
            stored "config" w' !! id = stored "config" w !! id)) ∧
  (∃ w',
     disablePartialMaintenance adminUid w = (Ok tt, w') ∧
     lookup_prop "partialServices" (maintenance_doc w')
     = Some (VArray []) ∧
     (∀ k, k ≠ "partialServices" →
           lookup_prop k (maintenance_doc w')
           = lookup_prop k (maintenance_doc w)) ∧
     (∀ id, id ≠ "maintenance" →
            stored "config" w' !! id = stored "config" w !! id)).
Proof.
  intros Hdb.
  assert (Hconfig : stored "config" w = collection "config" db).
  { unfold stored. by rewrite Hdb. }
  split.
  - unfold disableGlobalMaintenance, bind at 1.
    rewrite (db_is_null_run w db Hdb).
    destruct (merge_then_log db [("isGlobalMaintenance", VBool false)]
                adminUid "DISABLE_GLOBAL_MAINTENANCE" [] w Hdb eq_refl)
      as (w' & Hrun & Hdoc & Hothers).
    destruct (merged_field w db Hdb "isGlobalMaintenance" (VBool false))
      as [Hset Hkeep].
    exists w'. rewrite Hdoc, Hconfig. split; [done|]. split; [|done].
    rewrite Hset.
    destruct (lookup_prop _ (maintenance_doc w)) as [old|]; [|done].
    by destruct old.
  - unfold disablePartialMaintenance, bind at 1.
    rewrite (db_is_null_run w db Hdb).
    destruct (merge_then_log db [("partialServices", VArray [])]
                adminUid "DISABLE_PARTIAL_MAINTENANCE" [] w Hdb eq_refl)
      as (w' & Hrun & Hdoc & Hothers).
    destruct (merged_field w db Hdb "partialServices" (VArray []))
      as [Hset Hkeep].
    exists w'. rewrite Hdoc, Hconfig. split; [done|]. split; [|done].
    rewrite Hset.
    destruct (lookup_prop _ (maintenance_doc w)) as [old|]; [|done].
    by destruct old.
Qed.

Lemma disable_maintenance_keeps_other_fields_witness :
  (∃ w',
     disableGlobalMaintenance "root" demo_world = (Ok tt, w') ∧
     lookup_prop "isGlobalMaintenance" (maintenance_doc w')
     = Some (VBool false) ∧
     lookup_prop "message" (maintenance_doc w') = Some (VStr "Back soon") ∧
     lookup_prop "enabledBy" (maintenance_doc w') = Some (VStr "root")) ∧
  (∃ w',
     disablePartialMaintenance "root" demo_world = (Ok tt, w') ∧
     lookup_prop "partialServices" (maintenance_doc w')
     = Some (VArray []) ∧
     lookup_prop "message" (maintenance_doc w') = Some (VStr "Back soon") ∧
     lookup_prop "isGlobalMaintenance" (maintenance_doc w')
     = Some (VBool true)).
Proof.
  destruct (disable_maintenance_keeps_other_fields demo_world demo_db "root"
              eq_refl)
    as [(w1 & Hrun1 & Hset1 & Hkeep1 & _) (w2 & Hrun2 & Hset2 & Hkeep2 & _)].
  split.
  - exists w1. repeat split; [done..| |].
    + by rewrite (Hkeep1 "message").
    + by rewrite (Hkeep1 "enabledBy").
  - exists w2. repeat split; [done..| |].
    + by rewrite (Hkeep2 "message").
    + by rewrite (Hkeep2 "isGlobalMaintenance").
Defined.

(** *** Bulk deletion *)

Section Batch.
Context (c : string) (test : DocumentData → bool).
Implicit Types (docs : QuerySnapshot) (db : Firestore) (m : Collection).

Lemma collection_after_batch c' docs db :
  collection c' (fold_left apply_delete (batch_delete_all c docs) db)
  = if decide (c' = c)
    then fold_left (λ m d, delete d.1 m) docs (collection c db)
    else collection c' db.
Proof.
  revert db. induction docs as [|d docs IH]; intros db; simpl.
  - by destruct (decide (c' = c)) as [->|].
  - rewrite IH. unfold apply_delete; simpl.
    destruct (decide (c' = c)) as [->|Hc].
    + by rewrite collection_insert_eq.
    + by rewrite collection_insert_ne.
Qed.

Lemma lookup_after_deletes docs m k :
  fold_left (λ m d, delete d.1 m) docs m !! k
  = if decide (k ∈ docs.*1) then None else m !! k.
Proof.
  revert m. induction docs as [|d docs IH]; intros m.
  - rewrite decide_False; [done|]. apply not_elem_of_nil.
  - rewrite fmap_cons. cbn [fold_left]. rewrite IH.
    destruct (decide (k ∈ docs.*1)) as [Hin|Hout].
    + rewrite decide_True; [done|]. by apply list_elem_of_further.
    + destruct (decide (k = d.1)) as [->|Hk].
      * rewrite lookup_delete_eq, decide_True; [done|]. apply list_elem_of_here.
      * rewrite lookup_delete_ne by done. rewrite decide_False; [done|].
        by intros [?|?]%elem_of_cons.
Qed.

(** The ids of the snapshot of [where(test)] are those of the documents
    that pass the test. *)
Lemma snapshot_ids m k :
  k ∈ (filter (λ d, test d.2 = true) (map_to_list m)).*1
  ↔ ∃ d, m !! k = Some d ∧ test d = true.
Proof.
  rewrite list_elem_of_fmap. split.
  - intros ([k' d] & -> & [Ht Hd%elem_of_map_to_list]%list_elem_of_filter).
    eauto.
  - intros (d & Hd & Ht). exists (k, d). split; [done|].
    apply list_elem_of_filter. split; [done|]. by apply elem_of_map_to_list.
Qed.

(** Deleting the snapshot leaves exactly the documents that fail the
    test. *)
Lemma delete_snapshot m :
  fold_left (λ m d, delete d.1 m)
    (filter (λ d, test d.2 = true) (map_to_list m)) m
  = without test m.
Proof.
  apply map_eq. intros k. rewrite lookup_after_deletes. unfold without.
  destruct (m !! k) as [d|] eqn:Hk.
  - destruct (test d) eqn:Ht.
    + rewrite decide_True by (apply snapshot_ids; eauto).
      symmetry. apply map_lookup_filter_None. right. intros d' Hd'. simpl.
      rewrite Hk in Hd'. injection Hd' as <-. by rewrite Ht.
    + rewrite decide_False.
      * symmetry. by apply map_lookup_filter_Some.
      * intros (d' & Hd' & Ht')%snapshot_ids. congruence.
  - rewrite decide_False.
    + symmetry. apply map_lookup_filter_None. by left.
    + intros (d' & Hd' & Ht')%snapshot_ids. congruence.
Qed.

(** The size of the snapshot is the number of documents that pass. *)
Lemma snapshot_size m :
  length (filter (λ d, test d.2 = true) (map_to_list m))
  = size (matching test m).
Proof.
  unfold matching. rewrite map_filter_alt, <-length_map_to_list.
  symmetry. apply Permutation_length, map_to_list_to_map.
  apply (sublist_NoDup _ _ (NoDup_fst_map_to_list m)).
  apply fmap_sublist, sublist_filter.
Qed.
End Batch.

Lemma matching_without_size (test : DocumentData → bool) (m : Collection) :
  size m = (size (matching test m) + size (without test m))%nat.
Proof.
  unfold matching, without.
  rewrite <-map_size_disj_union.
  - f_equal. symmetry.
    assert (filter (λ d : string * DocumentData, test d.2 = false) m
            = filter (λ d, ¬ test d.2 = true) m) as ->.
    { apply map_filter_ext. intros k d _. simpl. by destruct (test d). }
    apply map_filter_union_complement.
  - apply map_disjoint_spec. intros k d1 d2.
    intros [E1 H1]%map_lookup_filter_Some [E2 H2]%map_lookup_filter_Some.
    simpl in *. congruence.
Qed.

(** A collection once the snapshot of [where(test)] on [c] is deleted. *)
Lemma purged_collection (c : string) (test : DocumentData → bool) c'
  (db : Firestore) :
  collection c'
    (fold_left apply_delete
       (batch_delete_all c
          (filter (λ d, test d.2 = true) (map_to_list (collection c db))))
       db)
  = if decide (c' = c) then without test (collection c db)
    else collection c' db.
Proof.
  rewrite collection_after_batch.
  destruct (decide (c' = c)); [apply delete_snapshot|done].
Qed.

Lemma count_if_length (test : DocumentData → bool) (docs : QuerySnapshot) :
  count_if test docs = length (filter (λ d, test d.2 = true) docs).
Proof.
  unfold count_if.
  assert (∀ n, fold_left
                 (λ n (doc : string * DocumentData),
                    if test doc.2 then S n else n) docs n
               = (n + length (filter (λ d, test d.2 = true) docs))%nat) as H.
  { induction docs as [|d docs IH]; intros n; [simpl; lia|].
    cbn [fold_left]. rewrite IH, filter_cons.
    destruct (decide (test d.2 = true)) as [->|Ht%not_true_is_false].
    - simpl. lia.
    - by rewrite Ht. }
  apply H.
Qed.

Lemma prop_absent k (o : DocumentData) :
  lookup_prop k o = None → prop k o = VUndefined.
Proof. unfold prop. by intros ->. Qed.

(** *** Documents in id order *)

Lemma string_compare_refl (s : string) : String.compare s s = Eq.
Proof.
  induction s as [|c s IH]; simpl; [done|].
  unfold Ascii.compare. by rewrite N.compare_refl.
Qed.

Lemma string_compare_trans (c : comparison) (s1 s2 s3 : string) :
  String.compare s1 s2 = c → String.compare s2 s3 = c →
  String.compare s1 s3 = c.
Proof.
  revert s2 s3. induction s1 as [|c1 s1 IH]; intros [|c2 s2] [|c3 s3];
    simpl; try congruence.
  unfold Ascii.compare.
  destruct (N.compare_spec (N_of_ascii c1) (N_of_ascii c2)) as [H12|H12|H12];
    destruct (N.compare_spec (N_of_ascii c2) (N_of_ascii c3)) as [H23|H23|H23];
    destruct (N.compare_spec (N_of_ascii c1) (N_of_ascii c3)) as [H13|H13|H13];
    try congruence; try lia; try apply IH.
Qed.

Lemma string_leb_ltb (s1 s2 : string) :
  String.ltb s1 s2 = true ↔ String.leb s1 s2 = true ∧ s1 ≠ s2.
Proof.
  unfold String.ltb, String.leb.
  destruct (String.compare s1 s2) eqn:Hc; split; try done.
  - intros [_ Hne]. by apply String.compare_eq_iff in Hc.
  - intros _. split; [done|]. intros ->. by rewrite string_compare_refl in Hc.
  - by intros [? _].
Qed.

Lemma string_ltb_leb (s1 s2 : string) :
  String.leb s1 s2 = true → String.ltb s2 s1 = false.
Proof.
  unfold String.ltb, String.leb. rewrite (String.compare_antisym s2 s1).
  by destruct (String.compare s1 s2).
Qed.

Lemma by_id_trans : Transitive by_id.
Proof.
  intros a b c. unfold by_id, String.leb.
  destruct (String.compare a.1 b.1) eqn:H1; [| |done];
    destruct (String.compare b.1 c.1) eqn:H2; try done; intros _ _.
  - apply String.compare_eq_iff in H1. by rewrite H1, H2.
  - apply String.compare_eq_iff in H1. by rewrite H1, H2.
  - apply String.compare_eq_iff in H2. by rewrite <-H2, H1.
  - by rewrite (string_compare_trans Lt _ _ _ H1 H2).
Qed.

Lemma by_id_total : Total by_id.
Proof. intros a b. apply String.leb_total. Qed.

Lemma in_id_order_sorted docs : StronglySorted by_id (in_id_order docs).
Proof.
  exact (@StronglySorted_merge_sort _ by_id by_id_dec by_id_trans by_id_total
           docs).
Qed.

Lemma in_id_order_permutation docs : in_id_order docs ≡ₚ docs.
Proof. exact (@merge_sort_Permutation _ by_id by_id_dec docs). Qed.

(** Among documents in id order, with ids that differ, a document is within
    the first [n] exactly when fewer than [n] have a smaller id. *)
Lemma elem_of_take_sorted (l : list (string * DocumentData)) (n : nat)
  (x : string * DocumentData) :
  StronglySorted by_id l → NoDup l.*1 → x ∈ l →
  x ∈ take n l
  ↔ (length (filter (λ d, String.ltb d.1 x.1 = true) l) < n)%nat.
Proof.
  revert n. induction l as [|a l IH]; intros n Hsorted Hids Hx.
  { by apply elem_of_nil in Hx. }
  apply StronglySorted_inv in Hsorted as [Hsorted Hfirst].
  apply NoDup_cons in Hids as [Ha Hids]. rewrite filter_cons.
  apply elem_of_cons in Hx as [->|Hx].
  - assert (filter (λ d : string * DocumentData, String.ltb d.1 a.1 = true) l
            = []) as ->.
    { clear -Hfirst. induction Hfirst as [|d l Hd _ IH]; [done|].
      rewrite filter_cons, decide_False; [exact IH|].
      unfold by_id in Hd. apply string_ltb_leb in Hd. by rewrite Hd. }
    rewrite decide_False.
    2: { unfold String.ltb. by rewrite string_compare_refl. }
    destruct n as [|n]; simpl.
    + split; [by intros ?%elem_of_nil|lia].
    + split; [lia|]. intros _. apply list_elem_of_here.
  - assert (Hne : a.1 ≠ x.1).
    { intros Heq. apply Ha. rewrite Heq. by apply list_elem_of_fmap_2. }
    rewrite decide_True.
    2: { apply string_leb_ltb. split; [|done].
         by apply (proj1 (Forall_forall _ _) Hfirst). }
    destruct n as [|n]; simpl.
    + split; [by intros ?%elem_of_nil|lia].
    + rewrite elem_of_cons, (IH n) by done. split.
      * intros [->|?]; [done|lia].
      * intros ?. right. lia.
Qed.

(** The documents of a collection that pass a test on id and data, counted
    in the collection and in its snapshot in id order. *)
Lemma size_filter_in_id_order (P : string * DocumentData → Prop)
  `{!∀ d, Decision (P d)} (m : Collection) :
  size (filter P m) = length (filter P (in_id_order (map_to_list m))).
Proof.
  rewrite (in_id_order_permutation (map_to_list m)).
  rewrite map_filter_alt, <-length_map_to_list.
  apply Permutation_length, map_to_list_to_map.
  apply (sublist_NoDup _ _ (NoDup_fst_map_to_list m)).
  apply fmap_sublist, sublist_filter.
Qed.

(** C9. A license document without a [valid] field counts as valid.
    [getAllLicenses] reports it, with [valid = true], exactly when it is
    among the first [limit] licenses in id order, that is when fewer than
    [limit] licenses have a smaller key, and never reports it otherwise;
    [getSystemStats] counts it among the active licenses; and
    [purgeInvalidLicenses] keeps it, deleting only documents whose [valid]
    is the boolean [false]. *)
Theorem license_without_valid_is_valid (w : World) (adminUid key : string)
  (license : DocumentData) (limit : nat) :
  stored "licenses" w !! key = Some license →
  lookup_prop "valid" license = None →
  (∃ views,
     getAllLicenses limit w = (Ok views, w) ∧
     (∀ v, v ∈ views → prop "key" v = VStr key → prop "valid" v = VBool true) ∧
     ((∃ v, v ∈ views ∧ prop "key" v = VStr key ∧ prop "valid" v = VBool true)
      ↔ (size (filter (λ d : string * DocumentData,
                         String.ltb d.1 key = true) (stored "licenses" w))
         < limit)%nat)) ∧
  (∃ stats,
     getSystemStats w = (Ok stats, w) ∧
     activeLicenses stats
     = size (matching (λ d, not_false (prop "valid" d)) (stored "licenses" w)) ∧
     matching (λ d, not_false (prop "valid" d)) (stored "licenses" w) !! key
     = Some license) ∧
  (∃ w',
     purgeInvalidLicenses adminUid w
     = (Ok (size (matching (field_is_false "valid") (stored "licenses" w))),
        w') ∧
     stored "licenses" w'
     = without (field_is_false "valid") (stored "licenses" w) ∧
     stored "licenses" w' !! key = Some license ∧
     ∀ k d, stored "licenses" w !! k = Some d →
            stored "licenses" w' !! k = None →
            lookup_prop "valid" d = Some (VBool false)).
Proof.
  intros Hstored Hvalid.
  destruct (stored_Some _ _ _ _ Hstored) as (db & Hdb & Hkey).
  assert (Hlic : stored "licenses" w = collection "licenses" db).
  { unfold stored. by rewrite Hdb. }
  rewrite Hlic. repeat apply conj.
  - set (docs := in_id_order (map_to_list (collection "licenses" db))).
    assert (Hdocs : ∀ k d, (k, d) ∈ docs ↔ collection "licenses" db !! k = Some d).
    { intros k d. unfold docs. rewrite in_id_order_permutation.
      apply elem_of_map_to_list. }
    assert (Hview : ∀ d, (key, d) ∈ docs →
                         prop "valid" (license_view (key, d)) = VBool true).
    { intros d Hd%Hdocs. rewrite Hkey in Hd. injection Hd as <-.
      unfold license_view. simpl. unfold prop at 1. simpl.
      by rewrite (prop_absent _ _ Hvalid). }
    exists (map license_view (take limit docs)).
    split; [|split].
    + unfold getAllLicenses, bind at 1. rewrite (db_is_null_run w db Hdb).
      unfold bind, coll_limit_get, bind. by rewrite (firestore_run w db Hdb).
    + intros v ([k d] & -> & Hin)%list_elem_of_fmap Hk.
      apply elem_of_take in Hin as (i & Hin & _).
      apply list_elem_of_lookup_2 in Hin.
      unfold license_view in Hk. rewrite prop_head in Hk.
      simpl in Hk. injection Hk as ->. by apply Hview.
    + rewrite (size_filter_in_id_order _ (collection "licenses" db)).
      fold docs.
      rewrite <-(elem_of_take_sorted docs limit (key, license)).
      * split.
        -- intros (v & ([k d] & -> & Hin)%list_elem_of_fmap & Hk & _).
           unfold license_view in Hk. rewrite prop_head in Hk.
           simpl in Hk. injection Hk as ->.
           assert (Hd : (key, d) ∈ docs).
           { apply elem_of_take in Hin as (i & Hin & _).
             by apply list_elem_of_lookup_2 in Hin. }
           apply Hdocs in Hd. rewrite Hkey in Hd. by injection Hd as ->.
        -- intros Hin. exists (license_view (key, license)).
           split; [by apply list_elem_of_fmap_2|].
           split; [apply prop_head|]. apply Hview. by apply Hdocs.
      * apply in_id_order_sorted.
      * unfold docs. rewrite in_id_order_permutation.
        apply NoDup_fst_map_to_list.
      * by apply Hdocs.
  - eexists. split; [|split].
    + cbv [getSystemStats bind ret coll_get firestore db_is_null].
      repeat (rewrite Hdb; cbv beta iota zeta). reflexivity.
    + cbn [activeLicenses]. rewrite count_if_length.
      apply (snapshot_size (λ d, not_false (prop "valid" d))).
    + apply map_lookup_filter_Some. split; [done|]. simpl.
      by rewrite (prop_absent _ _ Hvalid).
  - eexists. split; [|split; [|split]].
    + unfold purgeInvalidLicenses, bind at 1. rewrite (db_is_null_run w db Hdb).
      unfold bind at 1, coll_where_get, bind at 1.
      rewrite (firestore_run w db Hdb). unfold ret at 1.
      unfold bind at 1, batch_commit, bind at 1.
      rewrite (firestore_run w db Hdb). unfold put_firestore.
      unfold bind at 1. erewrite logAdminAction_run by reflexivity.
      unfold ret. by rewrite (snapshot_size (field_is_false "valid")).
    + rewrite stored_logged by done.
      rewrite (purged_collection "licenses" (field_is_false "valid")). by rewrite decide_True.
    + rewrite stored_logged by done.
      rewrite (purged_collection "licenses" (field_is_false "valid")). rewrite decide_True by done.
      apply map_lookup_filter_Some. split; [done|]. simpl.
      unfold field_is_false. by rewrite Hvalid.
    + intros k d Hk. rewrite stored_logged by done.
      rewrite (purged_collection "licenses" (field_is_false "valid")). rewrite decide_True by done.
      intros [Hnone|Hfalse]%map_lookup_filter_None; [congruence|].
      specialize (Hfalse d Hk). simpl in Hfalse. unfold field_is_false in Hfalse.
      destruct (lookup_prop "valid" d) as [[| |[|]| | | | | |]|]; done.
Qed.

Lemma license_without_valid_is_valid_witness :
  (∃ views,
     getAllLicenses 100 demo_world = (Ok views, demo_world) ∧
     ∃ v, v ∈ views ∧ prop "key" v = VStr "LIC-3-CCCCCCCCC" ∧
          prop "valid" v = VBool true) ∧
  (∃ stats,
     getSystemStats demo_world = (Ok stats, demo_world) ∧
     activeLicenses stats
     = size (matching (λ d, not_false (prop "valid" d))
               (stored "licenses" demo_world)) ∧
     matching (λ d, not_false (prop "valid" d))
       (stored "licenses" demo_world) !! "LIC-3-CCCCCCCCC"
     = Some [("plan", VStr "Free")]) ∧
  (∃ w',
     purgeInvalidLicenses "root" demo_world
     = (Ok (size (matching (field_is_false "valid")
                    (stored "licenses" demo_world))), w') ∧
     stored "licenses" w'
     = without (field_is_false "valid") (stored "licenses" demo_world) ∧
     stored "licenses" w' !! "LIC-3-CCCCCCCCC" = Some [("plan", VStr "Free")] ∧
     ∀ k d, stored "licenses" demo_world !! k = Some d →
            stored "licenses" w' !! k = None →
            lookup_prop "valid" d = Some (VBool false)).
Proof.
  destruct (license_without_valid_is_valid demo_world "root" "LIC-3-CCCCCCCCC"
              [("plan", VStr "Free")] 100 eq_refl eq_refl)
    as ((views & Hrun & _ & Hlisted) & Hstats & Hpurge).
  split; [|by split].
  exists views. split; [exact Hrun|]. apply Hlisted. vm_compute. lia.
Defined.

(** A limit below the number of licenses cuts the last ones in id order
    off: the license without [valid] is the third of three. *)
Example getAllLicenses_limit :
  (map (prop "key") <$> match (getAllLicenses 2 demo_world).1 with
                        | Ok views => Some views
                        | Throw _ => None
                        end)
  = Some [VStr "LIC-1-AAAAAAAAA"; VStr "LIC-2-BBBBBBBBB"].
Proof. by vm_compute. Qed.

Example demo_stats_and_purge :
  (activeLicenses <$> match (getSystemStats demo_world).1 with
                      | Ok s => Some s
                      | Throw _ => None
                      end) = Some 2%nat ∧
  (purgeInvalidLicenses "root" demo_world).1 = Ok 1%nat.
Proof. by vm_compute. Qed.

(** The date that [clearOldLogs] computes and the timestamp it asks the
    query for: the local time of the clock reading, [daysOld] days earlier,
    read as a local time again; a timestamp when its seconds are within the
    years 1 to 9999. *)
Lemma cutoff_in_range (tza : Z → bool → Z) (now daysOld : Z) :
  let local := now + tza now true - daysOld * msPerDay in
  let cutoff := local - tza local false in
  -62135596800 ≤ cutoff / 1000 ≤ 253402300799 →
  setDate_back tza now daysOld = Some cutoff ∧ Timestamp_range cutoff = true.
Proof.
  intros local cutoff Hrange. unfold setDate_back, TimeClip, Timestamp_range.
  fold local. fold cutoff.
  pose proof (Z.div_mod cutoff 1000 ltac:(lia)) as Hdiv.
  pose proof (Z.mod_pos_bound cutoff 1000 ltac:(lia)) as Hmod.
  replace (Z.abs cutoff <=? 8640000000000000) with true
    by (symmetry; apply Z.leb_le; lia).
  split; [done|]. apply andb_true_iff. split; apply Z.leb_le; lia.
Qed.

Lemma cutoff_out_of_range (tza : Z → bool → Z) (now daysOld : Z) :
  let local := now + tza now true - daysOld * msPerDay in
  let cutoff := local - tza local false in
  ¬ (-62135596800 ≤ cutoff / 1000 ≤ 253402300799) →
  ∀ w, Timestamp_fromDate (setDate_back tza now daysOld) w
       = (Throw (FirebaseError "invalid-argument"), w).
Proof.
  intros local cutoff Hrange w. unfold setDate_back, TimeClip. fold local.
  fold cutoff. destruct (Z.abs cutoff <=? 8640000000000000); [|done].
  unfold Timestamp_fromDate, Timestamp_range.
  destruct (-62135596800 <=? cutoff / 1000) eqn:Hlo;
    destruct (cutoff / 1000 <=? 253402300799) eqn:Hhi; try done.
  apply Z.leb_le in Hlo, Hhi. lia.
Qed.

(** [clearOldLogs] with a database: it throws on a cutoff that no
    timestamp holds, having read the clock and nothing else, and otherwise
    deletes the snapshot of its query, logs and returns its size. *)
Lemma clearOldLogs_run (w : World) (db : Firestore) (adminUid : string)
  (daysOld : Z) :
  adminDb w = Some db →
  let now := Z.of_N (clock w) in
  let local := now + LocalTZA w now true - daysOld * msPerDay in
  let cutoff := local - LocalTZA w local false in
  let snapshot :=
    filter (λ d : string * DocumentData,
              field_before "timestamp" cutoff d.2 = true)
      (map_to_list (collection "admin_logs" db)) in
  let db1 :=
    fold_left apply_delete (batch_delete_all "admin_logs" snapshot) db in
  clearOldLogs adminUid daysOld w
  = if bool_decide (-62135596800 ≤ cutoff / 1000 ≤ 253402300799) then
      (Ok (length snapshot),
       logged adminUid "CLEAR_OLD_LOGS"
         [("daysOld", VNum daysOld);
          ("count", VNum (Z.of_nat (length snapshot)))]
         db1 (with_db db1 (after_tick w)))
    else (Throw (FirebaseError "invalid-argument"), after_tick w).
Proof.
  intros Hdb now local cutoff snapshot db1.
  unfold clearOldLogs, bind at 1. rewrite (db_is_null_run w db Hdb).
  unfold bind at 1, Date_now. unfold bind at 1, Date_setDate_back.
  cbn [LocalTZA after_tick]. fold now.
  destruct (decide (-62135596800 ≤ cutoff / 1000 ≤ 253402300799))
    as [Hrange|Hrange].
  - rewrite bool_decide_eq_true_2 by done.
    destruct (cutoff_in_range (LocalTZA w) now daysOld Hrange) as [-> Hok].
    unfold bind at 1, Timestamp_fromDate. rewrite Hok. unfold ret at 1.
    unfold bind at 1, coll_where_get, bind at 1.
    rewrite (firestore_run (after_tick w) db Hdb). unfold ret at 1.
    unfold bind at 1, batch_commit, bind at 1.
    rewrite (firestore_run (after_tick w) db Hdb). unfold put_firestore.
    unfold bind at 1. fold snapshot db1.
    by rewrite (logAdminAction_run (with_db db1 (after_tick w)) db1 eq_refl).
  - rewrite bool_decide_eq_false_2 by done. unfold bind at 1.
    by rewrite (cutoff_out_of_range (LocalTZA w) now daysOld Hrange).
Qed.

(** C8, as stated, fails.  A cutoff a million days back is a date that no
    [Timestamp] holds: the call throws, deletes nothing and logs nothing.
    And on a host that changed from daylight saving time within the last
    thirty days, the cutoff of [clearOldLogs(30)] is thirty days and one
    hour back: an entry dated thirty days and thirty minutes back is
    older than now minus thirty days, and stays. *)
Lemma clearOldLogs_cutoff_counterexample :
  (clearOldLogs "root" 1000000 demo_world
   = (Throw (FirebaseError "invalid-argument"), after_tick demo_world) ∧
   stored "admin_logs" (after_tick demo_world)
   = stored "admin_logs" demo_world) ∧
  (stored "admin_logs" new_york_world !! "recent"
   = Some (log_entry "root" "BAN_USER" []
             (Z.of_N demo_now - 30 * msPerDay - 1800000)) ∧
   Z.of_N demo_now - 30 * msPerDay - 1800000
   < Z.of_N (clock new_york_world) - 30 * msPerDay ∧
   ∃ w',
     clearOldLogs "root" 30 new_york_world = (Ok 1%nat, w') ∧
     stored "admin_logs" w' !! "recent"
     = Some (log_entry "root" "BAN_USER" []
               (Z.of_N demo_now - 30 * msPerDay - 1800000))).
Proof.
  split; [split; reflexivity|].
  split; [reflexivity|]. split; [reflexivity|].
  assert (Hrun : (clearOldLogs "root" 30 new_york_world).1 = Ok 1%nat)
    by (by vm_compute).
  exists (clearOldLogs "root" 30 new_york_world).2. split.
  - rewrite <-Hrun. apply surjective_pairing.
  - by vm_compute.
Qed.

(** C8, amended.  The cutoff of [clearOldLogs] is the instant [daysOld]
    days before the clock reading at the same local time of day, which is
    the clock reading minus [daysOld] times 24 hours when the host's offset
    to UTC is the same at both.  When that cutoff is a date within the
    years 1 to 9999, [clearOldLogs] deletes exactly the audit entries whose
    timestamp is strictly before it (an entry at that very instant stays),
    returns how many it deleted, and appends one CLEAR_OLD_LOGS entry that
    records [daysOld] and that count.  For any other cutoff it throws,
    having deleted and logged nothing. *)
Theorem clearOldLogs_deletes_strictly_older (w : World) (db : Firestore)
  (adminUid : string) (daysOld : Z) :
  adminDb w = Some db →
  let now := Z.of_N (clock w) in
  let local := now + LocalTZA w now true - daysOld * msPerDay in
  let cutoff := local - LocalTZA w local false in
  let old := field_before "timestamp" cutoff in
  let logs := stored "admin_logs" w in
  let count := size (matching old logs) in
  (LocalTZA w local false = LocalTZA w now true →
   cutoff = now - daysOld * msPerDay) ∧
  (-62135596800 ≤ cutoff / 1000 ≤ 253402300799 →
   ∃ w' id,
     clearOldLogs adminUid daysOld w = (Ok count, w') ∧
     size logs = (count + size (without old logs))%nat ∧
     without old logs !! id = None ∧
     stored "admin_logs" w'
     = <[id := log_entry adminUid "CLEAR_OLD_LOGS"
                 [("daysOld", VNum daysOld); ("count", VNum (Z.of_nat count))]
                 (Z.of_N (clock (after_tick w)))]>
         (without old logs) ∧
     (∀ k e t, logs !! k = Some e →
               lookup_prop "timestamp" e = Some (VTimestamp t) →
               t < cutoff → without old logs !! k = None) ∧
     (∀ k e t, logs !! k = Some e →
               lookup_prop "timestamp" e = Some (VTimestamp t) →
               cutoff ≤ t → stored "admin_logs" w' !! k = Some e)) ∧
  (¬ (-62135596800 ≤ cutoff / 1000 ≤ 253402300799) →
   ∃ w',
     clearOldLogs adminUid daysOld w
     = (Throw (FirebaseError "invalid-argument"), w') ∧
     stored "admin_logs" w' = logs).
Proof.
  intros Hdb now local cutoff old logs count.
  assert (Hlogs : logs = collection "admin_logs" db).
  { unfold logs, stored. by rewrite Hdb. }
  pose proof (clearOldLogs_run w db adminUid daysOld Hdb) as Hrun.
  cbv zeta in Hrun. fold now local cutoff in Hrun.
  split; [unfold cutoff, local; lia|]. split.
  2: { intros Hrange. rewrite bool_decide_eq_false_2 in Hrun by done.
       eexists. split; [exact Hrun|]. unfold stored. simpl. by rewrite Hdb. }
  intros Hrange. rewrite bool_decide_eq_true_2 in Hrun by done.
  fold old in Hrun.
  set (snapshot := filter (λ d : string * DocumentData, old d.2 = true)
                     (map_to_list (collection "admin_logs" db))) in *.
  set (db1 := fold_left apply_delete (batch_delete_all "admin_logs" snapshot) db)
    in *.
  set (w1 := with_db db1 (after_tick w)) in *.
  assert (Hcount : length snapshot = count).
  { unfold snapshot, count. rewrite Hlogs. apply snapshot_size. }
  assert (Hkept : collection "admin_logs" db1 = without old logs).
  { unfold db1, snapshot. rewrite (purged_collection "admin_logs" old).
    rewrite decide_True by done. by rewrite Hlogs. }
  destruct (logged_appends adminUid "CLEAR_OLD_LOGS"
              [("daysOld", VNum daysOld);
               ("count", VNum (Z.of_nat (length snapshot)))] db1 w1
              eq_refl eq_refl) as (id & Hfresh & Hfinal).
  assert (Hw1 : stored "admin_logs" w1 = without old logs) by apply Hkept.
  rewrite Hw1 in Hfresh, Hfinal. rewrite Hcount in Hrun, Hfinal.
  eexists _, id. split; [exact Hrun|].
  split; [apply matching_without_size|].
  split; [exact Hfresh|]. split; [exact Hfinal|]. split.
  - intros k e t Hk Ht Hlt. apply map_lookup_filter_None. right.
    intros e' He'. rewrite Hk in He'. injection He' as <-. simpl.
    unfold old, field_before. rewrite Ht.
    assert ((t <? cutoff) = true) as -> by (apply Z.ltb_lt; lia). done.
  - intros k e t Hk Ht Hge. rewrite Hfinal.
    assert (Hin : without old logs !! k = Some e).
    { apply map_lookup_filter_Some. split; [done|]. simpl.
      unfold old, field_before. rewrite Ht. apply Z.ltb_ge. lia. }
    rewrite lookup_insert_ne; [done|]. intros ->. congruence.
Qed.

Lemma clearOldLogs_deletes_strictly_older_witness :
  (∃ w' id,
     clearOldLogs "root" 30 demo_world = (Ok 1%nat, w') ∧
     stored "admin_logs" w' !! "0"
     ≠ Some (log_entry "root" "BAN_USER" []
               (Z.of_N demo_now - 31 * msPerDay)) ∧
     stored "admin_logs" w' !! "1"
     = Some (log_entry "root" "UNBAN_USER" []
               (Z.of_N demo_now - 30 * msPerDay)) ∧
     stored "admin_logs" w' !! id
     = Some (log_entry "root" "CLEAR_OLD_LOGS"
               [("daysOld", VNum 30); ("count", VNum 1)]
               (Z.of_N demo_now + 2))) ∧
  (∃ w',
     clearOldLogs "root" 1000000 demo_world
     = (Throw (FirebaseError "invalid-argument"), w') ∧
     stored "admin_logs" w' = stored "admin_logs" demo_world).
Proof.
  split.
  - destruct (clearOldLogs_deletes_strictly_older demo_world demo_db "root" 30
                eq_refl) as (_ & Hin & _).
    destruct (Hin ltac:(by vm_compute))
      as (w' & id & Hrun & _ & Hfresh & Hfinal & Hgone & Hkept).
    exists w', id. split; [exact Hrun|]. split; [|split].
    + rewrite Hfinal.
      destruct (decide (id = "0")) as [->|Hid].
      * rewrite lookup_insert_eq. discriminate.
      * rewrite lookup_insert_ne by done.
        rewrite (Hgone "0" _ (Z.of_N demo_now - 31 * msPerDay)
                   eq_refl eq_refl); done.
    + apply (Hkept "1" _ (Z.of_N demo_now - 30 * msPerDay)); [reflexivity..|].
      vm_compute. discriminate.
    + rewrite Hfinal. by rewrite lookup_insert_eq.
  - destruct (clearOldLogs_deletes_strictly_older demo_world demo_db "root"
                1000000 eq_refl) as (_ & _ & Hout).
    apply Hout. vm_compute. intros [Hlo _]. by apply Hlo.
Defined.

(** *** The audit logger *)

Lemma try_catch_report {A} (body : M A) (line : exn → string) (w : World) :
  ∃ w',
    try_catch (body;; ret tt) (λ error, console_error (line error)) w
    = (Ok tt, w').
Proof.
  unfold try_catch, bind. destruct (body w) as [[a|e] w1]; by eexists.
Qed.

(** C7. [logAdminAction] returns normally in every world and for every
    payload, whatever the call that hands the entry to the store does:
    with the database handle [null] it does nothing, and an exception of
    the append is caught and reported on the console.  With the store's
    own [add] it changes no collection but [admin_logs], to which it adds
    at most its one entry.  Hence a command that ends with the audit
    succeeds whenever the mutation before it did, and keeps what that
    mutation stored. *)
Theorem logAdminAction_never_throws (w : World) (adminUid action : string)
  (data : DocumentData) :
  (∀ add : DocumentData → M string,
     ∃ w', logAdminAction_via add adminUid action data w = (Ok tt, w')) ∧
  (∃ w',
     logAdminAction adminUid action data w = (Ok tt, w') ∧
     (∀ c, c ≠ "admin_logs" → stored c w' = stored c w) ∧
     adminAuth w' = adminAuth w ∧
     (stored "admin_logs" w' = stored "admin_logs" w ∨
      ∃ id,
        stored "admin_logs" w !! id = None ∧
        stored "admin_logs" w'
        = <[id := log_entry adminUid action data (Z.of_N (clock w))]>
            (stored "admin_logs" w))) ∧
  (∀ (A : Type) (mutation : M A) (a : A) (w1 : World),
     mutation w = (Ok a, w1) →
     (∀ add : DocumentData → M string,
        ∃ w2,
          (mutation;; logAdminAction_via add adminUid action data) w
          = (Ok tt, w2)) ∧
     ∃ w2,
       (mutation;; logAdminAction adminUid action data) w = (Ok tt, w2) ∧
       ∀ c, c ≠ "admin_logs" → stored c w2 = stored c w1).
Proof.
  assert (Hvia : ∀ add w0, ∃ w',
            logAdminAction_via add adminUid action data w0 = (Ok tt, w')).
  { intros add w0. unfold logAdminAction_via, bind at 1, db_is_null.
    destruct (adminDb w0); [|by eexists].
    unfold bind at 1, Timestamp_now, bind at 1, Date_now, ret at 1.
    apply (try_catch_report
             (add (log_entry adminUid action data (Z.of_N (clock w0))))
             (λ error, "Failed to log admin action: " +:+ exn_text error)). }
  assert (Hlog : ∀ w0, ∃ w',
            logAdminAction adminUid action data w0 = (Ok tt, w') ∧
            (∀ c, c ≠ "admin_logs" → stored c w' = stored c w0) ∧
            adminAuth w' = adminAuth w0 ∧
            (stored "admin_logs" w' = stored "admin_logs" w0 ∨
             ∃ id,
               stored "admin_logs" w0 !! id = None ∧
               stored "admin_logs" w'
               = <[id := log_entry adminUid action data (Z.of_N (clock w0))]>
                   (stored "admin_logs" w0))).
  { intros w0. destruct (adminDb w0) as [db|] eqn:Hdb.
    - exists (logged adminUid action data db w0).
      split; [by apply logAdminAction_run|].
      split; [intros c Hc; by apply stored_logged_frame|].
      split.
      + unfold logged. by destruct (has_undefined_props _).
      + destruct (has_undefined_props
                    (log_entry adminUid action data (Z.of_N (clock w0))))
          eqn:Hv.
        * left. unfold logged. rewrite Hv. unfold stored. simpl.
          by rewrite Hdb.
        * right. by apply logged_appends.
    - exists w0. split; [by apply logAdminAction_null|]. auto. }
  split; [intros add; apply Hvia|]. split; [apply Hlog|].
  intros A mutation a w1 Hm. split.
  - intros add. destruct (Hvia add w1) as (w2 & Hrun).
    exists w2. unfold bind. by rewrite Hm.
  - destruct (Hlog w1) as (w2 & Hrun & Hframe & _).
    exists w2. split; [|exact Hframe].
    unfold bind. by rewrite Hm.
Qed.

(** An audit that fails: without a message, the payload of
    [enableGlobalMaintenance] holds [undefined], the store refuses the
    entry, and the command still succeeds with the flag stored. *)
Lemma logAdminAction_never_throws_witness :
  ∃ w2,
    enableGlobalMaintenance "root" None demo_world = (Ok tt, w2) ∧
    stored "users" w2 = stored "users" demo_world ∧
    stored "admin_logs" w2 = stored "admin_logs" demo_world ∧
    lookup_prop "message" (maintenance_doc w2)
    = Some (VStr "System maintenance in progress").
Proof.
  destruct (logAdminAction_never_throws demo_world "root"
              "ENABLE_GLOBAL_MAINTENANCE" [("message", VUndefined)])
    as (_ & _ & Hcommand).
  destruct (Hcommand unit
              (now ← Timestamp_now;
               doc_set_merge "config" "maintenance"
                 [("isGlobalMaintenance", VBool true);
                  ("message", VStr "System maintenance in progress");
                  ("enabledAt", now);
                  ("enabledBy", VStr "root")])
              tt _ eq_refl) as (_ & w2 & Hrun & Hframe).
  exists w2. split; [exact Hrun|].
  rewrite (Hframe "users") by discriminate. split; [reflexivity|].
  vm_compute in Hrun. injection Hrun as <-. split; reflexivity.
Defined.

(** *** License keys *)

Lemma list_ascii_of_app (a b : string) :
  list_ascii_of_string (a +:+ b)
  = (list_ascii_of_string a ++ list_ascii_of_string b)%list.
Proof. induction a as [|c a IH]; simpl; [done|]. by rewrite IH. Qed.

Lemma substring_prefix (n : nat) (l : list ascii) :
  substring 0 n (string_of_list_ascii l) = string_of_list_ascii (take n l).
Proof.
  revert l. induction n as [|n IH]; intros [|c l]; simpl; try done.
  by rewrite IH.
Qed.

Lemma toUpperCase_of_list (l : list ascii) :
  toUpperCase (string_of_list_ascii l) = string_of_list_ascii (map upper l).
Proof. induction l as [|c l IH]; simpl; [done|]. by rewrite IH. Qed.

(** The suffix is what the first nine fraction digits print as, in upper
    case. *)
Lemma key_suffix_digits (random : list nat) :
  key_suffix random
  = string_of_list_ascii (map (λ d, upper (digit36 d)) (take 9 random)).
Proof.
  unfold key_suffix, toString36, substr. destruct random as [|d random].
  { reflexivity. }
  change (substring 2 9 ("0." +:+ ?s)) with (substring 0 9 s).
  rewrite substring_prefix, toUpperCase_of_list.
  by rewrite <-fmap_take, <-list_fmap_compose.
Qed.

Lemma key_suffix_length (random : list nat) :
  String.length (key_suffix random) = (length random `min` 9)%nat.
Proof.
  rewrite key_suffix_digits.
  assert (∀ l, String.length (string_of_list_ascii l) = length l) as ->.
  { induction l as [|c l IH]; simpl; [done|]. by rewrite IH. }
  rewrite length_map, length_take. lia.
Qed.

Lemma upper_digit36_alnum (d : nat) : is_upper_alnum (upper (digit36 d)) = true.
Proof.
  assert (forallb (λ i, is_upper_alnum (upper (digit36 i))) (seq 0 36) = true)
    as Hall by (by vm_compute).
  rewrite forallb_forall in Hall.
  assert (digit36 d = digit36 (d mod 36)) as ->.
  { unfold digit36. by rewrite Nat.Div0.mod_mod. }
  apply Hall, in_seq. pose proof (Nat.mod_upper_bound d 36). lia.
Qed.

Lemma key_suffix_alnum (random : list nat) :
  forallb is_upper_alnum (list_ascii_of_string (key_suffix random)) = true.
Proof.
  rewrite key_suffix_digits, list_ascii_of_string_of_list_ascii.
  apply forallb_forall. intros c (d & <- & _)%in_map_iff.
  apply upper_digit36_alnum.
Qed.

(** The decimal rendering of a clock reading: digits only, at least one. *)
Lemma pretty_N_go_digits (x : N) (s : string) :
  forallb is_digit (list_ascii_of_string s) = true →
  forallb is_digit (list_ascii_of_string (pretty_N_go x s)) = true
  ∧ (String.length s ≤ String.length (pretty_N_go x s))%nat
  ∧ ((0 < x)%N → (0 < String.length (pretty_N_go x s))%nat).
Proof.
  revert s. induction (N.lt_wf_0 x) as [x _ IH]; intros s Hs.
  assert (x = 0 ∨ 0 < x)%N as [->|Hx] by lia.
  { rewrite pretty_N_go_0. repeat split; [done|lia|lia]. }
  rewrite pretty_N_go_step by done.
  destruct (IH (x `div` 10)%N) with (s := String (pretty_N_char (x `mod` 10)) s)
    as (Hd & Hlen & _).
  - by apply N.div_lt.
  - simpl. rewrite Hs, andb_true_r. unfold pretty_N_char.
    by repeat case_match.
  - simpl in Hlen. repeat split; [done|lia|lia].
Qed.

Lemma pretty_clock_digits (t : N) :
  forallb is_digit (list_ascii_of_string (pretty (Z.of_N t))) = true
  ∧ list_ascii_of_string (pretty (Z.of_N t)) ≠ [].
Proof.
  destruct t as [|p]; [by vm_compute|].
  change (pretty (Z.of_N (N.pos p))) with (pretty_N_go (N.pos p) "").
  destruct (pretty_N_go_digits (N.pos p) "" eq_refl) as (Hd & _ & Hlen).
  split; [done|]. specialize (Hlen ltac:(lia)).
  destruct (pretty_N_go (N.pos p) ""); simpl in *; [lia|done].
Qed.

Lemma span_digits_at_dash (ds rest : list ascii) :
  forallb is_digit ds = true →
  span_digits (ds ++ "-"%char :: rest) = (ds, "-"%char :: rest).
Proof.
  induction ds as [|c ds IH]; simpl; [done|].
  intros [Hc Hds]%andb_true_iff. by rewrite Hc, IH.
Qed.

(** A key made by [make_key] has the shape, with a suffix of whatever
    length the draw gave it. *)
Lemma make_key_shape (lo hi : nat) (t : N) (random : list nat) :
  key_shape lo hi (make_key (Z.of_N t) random)
  = ((lo <=? String.length (key_suffix random))%nat
     && (String.length (key_suffix random) <=? hi)%nat).
Proof.
  destruct (pretty_clock_digits t) as [Hd Hne].
  unfold key_shape, make_key. rewrite !list_ascii_of_app.
  cbn [list_ascii_of_string app].
  rewrite span_digits_at_dash by done.
  destruct (list_ascii_of_string (pretty (Z.of_N t))) as [|c ds]; [done|].
  rewrite key_suffix_alnum.
  assert (∀ s, length (list_ascii_of_string s) = String.length s) as ->; [|done].
  induction s as [|c' s IH]; simpl; [done|]. by rewrite IH.
Qed.

(** Two keys agree only when made from the same reading and the same
    suffix. *)
Lemma split_at_dash (ds1 ds2 r1 r2 : list ascii) :
  forallb is_digit ds1 = true → forallb is_digit ds2 = true →
  (ds1 ++ "-"%char :: r1 = ds2 ++ "-"%char :: r2)%list →
  ds1 = ds2 ∧ r1 = r2.
Proof.
  revert ds2. induction ds1 as [|c ds1 IH]; intros [|c' ds2]; simpl.
  - by intros _ _ [= ->].
  - intros _ [Hc _]%andb_true_iff [= <- _]. by vm_compute in Hc.
  - intros [Hc _]%andb_true_iff _ [= -> _]. by vm_compute in Hc.
  - intros [_ H1]%andb_true_iff [_ H2]%andb_true_iff [= -> Heq].
    destruct (IH ds2 H1 H2 Heq) as [-> ->]. done.
Qed.

Lemma list_ascii_of_string_inj (a b : string) :
  list_ascii_of_string a = list_ascii_of_string b → a = b.
Proof.
  intros H. rewrite <-(string_of_list_ascii_of_string a),
    <-(string_of_list_ascii_of_string b). by rewrite H.
Qed.

Lemma make_key_inj (t1 t2 : N) (r1 r2 : list nat) :
  make_key (Z.of_N t1) r1 = make_key (Z.of_N t2) r2
  ↔ t1 = t2 ∧ key_suffix r1 = key_suffix r2.
Proof.
  split.
  - unfold make_key. intros H%(f_equal list_ascii_of_string).
    rewrite !list_ascii_of_app in H. cbn [list_ascii_of_string app] in H.
    injection H as H.
    apply split_at_dash in H as [Ht Hs]; try apply pretty_clock_digits.
    apply list_ascii_of_string_inj, (inj pretty), (inj Z.of_N) in Ht.
    by apply list_ascii_of_string_inj in Hs.
  - unfold make_key. by intros [-> ->].
Qed.

Section CreateLicense.
Context (adminUid : string) (plan : Plan) (validityDays : Z).

Lemma createLicense_run (w : World) (db : Firestore) :
  adminDb w = Some db →
  ∃ w',
    createLicense adminUid plan validityDays w
    = (Ok (make_key (Z.of_N (clock w)) (hd [] (entropy w))), w') ∧
    is_Some (adminDb w') ∧
    clock w'
    = (clock w + hd 0 (ticks w) + hd 0 (tl (ticks w))
       + hd 0 (tl (tl (ticks w))))%N ∧
    ticks w' = tl (tl (tl (ticks w))) ∧
    entropy w' = tl (entropy w) ∧
    stored "licenses" w' !! make_key (Z.of_N (clock w)) (hd [] (entropy w))
    = Some [("plan", VStr (plan_name plan));
            ("valid", VBool true);
            ("createdAt", VTimestamp (Z.of_N (clock (after_tick w))));
            ("createdBy", VStr adminUid);
            ("validityDays", VNum validityDays)].
Proof.
  intros Hdb. eexists. split.
  { unfold createLicense, bind at 1. rewrite (db_is_null_run w db Hdb).
    unfold bind at 1, Date_now. unfold bind at 1, Math_random.
    unfold bind at 1, Timestamp_now, bind at 1, Date_now, ret at 1.
    unfold bind at 1, doc_set, bind at 1, firestore. cbn [adminDb after_tick after_draw].
    rewrite Hdb. unfold bind at 1, validate.
    cbn [has_undefined_props has_undefined orb]. unfold ret at 1, put_firestore.
    unfold bind at 1. erewrite logAdminAction_run by reflexivity.
    reflexivity. }
  unfold logged.
  replace (has_undefined_props _) with false by reflexivity.
  cbn [adminDb clock ticks entropy with_db after_tick after_draw].
  split; [by eexists|]. split; [done|]. split; [done|]. split; [done|].
  unfold stored. cbn [adminDb with_db].
  rewrite collection_insert_ne by done.
  by rewrite collection_insert_eq, lookup_insert_eq.
Qed.

Lemma createLicenses_keys (n : nat) (w : World) (db : Firestore) :
  adminDb w = Some db →
  ∃ w',
    createLicenses n adminUid plan validityDays w
    = (Ok (map (λ i, make_key (Z.of_N i.1) i.2)
             (key_inputs n (clock w) (ticks w) (entropy w))), w').
Proof.
  revert w db. induction n as [|n IH]; intros w db Hdb.
  { by eexists. }
  destruct (createLicense_run w db Hdb)
    as (w1 & Hrun & [db1 Hdb1] & Hclock & Hticks & Hentropy & _).
  destruct (IH w1 db1 Hdb1) as (w' & Hrest).
  exists w'. cbn [createLicenses key_inputs map]. unfold bind.
  rewrite Hrun, Hrest. by rewrite Hclock, Hticks, Hentropy.
Qed.
End CreateLicense.

Lemma NoDup_map_same_kernel {A B C} (f : A → B) (g : A → C) (l : list A) :
  (∀ x y, f x = f y ↔ g x = g y) → NoDup (map f l) ↔ NoDup (map g l).
Proof.
  intros Hfg.
  assert (∀ x l, f x ∈ map f l ↔ g x ∈ map g l) as Hin.
  { intros x l'. rewrite !list_elem_of_fmap. split.
    - intros (y & Hy & ?). exists y. split; [by apply Hfg|done].
    - intros (y & Hy & ?). exists y. split; [by apply Hfg|done]. }
  induction l as [|x l IH]; simpl.
  - split; constructor.
  - rewrite !NoDup_cons, IH, Hin. done.
Qed.

(** A draw that prints with at least nine fraction digits gives a key of
    the documented format. *)
Lemma make_key_documented (t : N) (random : list nat) :
  (9 ≤ length random)%nat →
  documented_format (make_key (Z.of_N t) random) = true.
Proof.
  intros Hlen. unfold documented_format.
  rewrite make_key_shape, key_suffix_length.
  apply andb_true_iff. split; apply Nat.leb_le; lia.
Qed.

(** C4, as stated, fails: of 1000 successive calls, two that start within
    the same millisecond with draws that agree on their first nine digits
    return the same key, a key of the documented format. *)
Lemma createLicense_keys_counterexample :
  ∃ keys w',
    createLicenses 1000 "root" Pro 30 (busy_world 1000) = (Ok keys, w') ∧
    keys !! 998%nat = Some "LIC-1700000000998-QJ1777777" ∧
    keys !! 999%nat = Some "LIC-1700000000998-QJ1777777" ∧
    documented_format "LIC-1700000000998-QJ1777777" = true ∧
    ¬ NoDup keys.
Proof.
  destruct (createLicenses_keys "root" Pro 30 1000 (busy_world 1000) demo_db
              eq_refl) as (w' & Hrun).
  eexists _, w'. split; [exact Hrun|].
  split; [by vm_compute|]. split; [by vm_compute|]. split; [reflexivity|].
  intros Hdistinct.
  assert (998 = 999)%nat as Hsame; [|discriminate Hsame].
  apply (NoDup_lookup _ 998 999 "LIC-1700000000998-QJ1777777" Hdistinct);
    by vm_compute.
Qed.

(** C4, amended.  [createLicense] returns the key made of [LIC-], the
    decimal clock reading, [-] and a suffix cut from the base-36 rendering
    of a random draw, and stores the license under it; whenever the draws
    print with at least nine fraction digits the keys have the documented
    format, with a suffix of exactly nine characters out of [0-9A-Z].  The
    keys of [n] successive calls are pairwise distinct exactly when no two
    of the calls share both the clock reading and the suffix. *)
Theorem createLicense_key_format (w : World) (db : Firestore)
  (adminUid : string) (plan : Plan) (validityDays : Z) (n : nat) :
  adminDb w = Some db →
  let key := make_key (Z.of_N (clock w)) (hd [] (entropy w)) in
  let inputs := key_inputs n (clock w) (ticks w) (entropy w) in
  let keys := map (λ i, make_key (Z.of_N i.1) i.2) inputs in
  (∃ w', createLicense adminUid plan validityDays w = (Ok key, w') ∧
         is_Some (stored "licenses" w' !! key)) ∧
  (∃ w', createLicenses n adminUid plan validityDays w = (Ok keys, w')) ∧
  ((9 ≤ length (hd [] (entropy w)))%nat → documented_format key = true) ∧
  (Forall (λ i : N * list nat, 9 ≤ length i.2)%nat inputs →
   Forall (λ k, documented_format k = true) keys) ∧
  (NoDup keys ↔ NoDup (map (λ i, (i.1, key_suffix i.2)) inputs)).
Proof.
  intros Hdb key inputs keys.
  split; [|split; [|split; [|split]]].
  - destruct (createLicense_run adminUid plan validityDays w db Hdb)
      as (w' & Hrun & _ & _ & _ & _ & Hdoc).
    exists w'. split; [exact Hrun|]. by eexists.
  - by apply createLicenses_keys with (db := db).
  - apply make_key_documented.
  - intros Hdraws. apply Forall_fmap.
    apply (Forall_impl _ _ _ Hdraws). intros [t random] Hlen.
    by apply make_key_documented.
  - apply NoDup_map_same_kernel. intros [t1 r1] [t2 r2]. simpl.
    rewrite make_key_inj. split.
    + intros [-> Hs]. by rewrite Hs.
    + by intros [= -> Hs].
Qed.

Lemma createLicense_key_format_witness :
  (∃ w', createLicense "root" Pro 30 (after_draw demo_world)
         = (Ok "LIC-1700000000000-K23456789", w') ∧
         is_Some (stored "licenses" w' !! "LIC-1700000000000-K23456789")) ∧
  (∃ w', createLicenses 1 "root" Pro 30 (after_draw demo_world)
         = (Ok ["LIC-1700000000000-K23456789"], w')) ∧
  documented_format "LIC-1700000000000-K23456789" = true ∧
  NoDup ["LIC-1700000000000-K23456789"].
Proof.
  destruct (createLicense_key_format (after_draw demo_world) demo_db "root"
              Pro 30 1 eq_refl) as (Hone & Hkeys & Hformat & _ & Hdistinct).
  split; [exact Hone|]. split; [exact Hkeys|]. split.
  - apply Hformat. vm_compute. lia.
  - apply Hdistinct. vm_compute. apply NoDup_singleton.
Defined.

(** ** Further properties of the service *)

(** *** How every command runs *)

Lemma db_guard {A} (message : string) (body : M A) (w : World) :
  (null ← db_is_null;
   if null then throw (Error message) else body) w
  = match adminDb w with
    | Some _ => body w
    | None => (Throw (Error message), w)
    end.
Proof. unfold bind, db_is_null. by destruct (adminDb w). Qed.

Lemma both_guard {A} (message : string) (body : M A) (w : World) :
  (no_db ← db_is_null;
   no_auth ← auth_is_null;
   if no_db || no_auth then throw (Error message) else body) w
  = match adminDb w, adminAuth w with
    | Some _, Some _ => body w
    | _, _ => (Throw (Error message), w)
    end.
Proof.
  unfold bind, db_is_null, auth_is_null.
  by destruct (adminDb w), (adminAuth w).
Qed.

Section Steps.
Context (w : World) (db : Firestore) (Hdb : adminDb w = Some db).
Context {A : Type}.

Lemma getUser_bind (userId : string) (k : option DocumentData → M A) :
  (user ← getUser userId; k user) w
  = k (assign [("uid", VStr userId)] <$> collection "users" db !! userId) w.
Proof using Hdb.
  unfold bind at 1, getUser. rewrite db_guard, Hdb.
  unfold bind, doc_get, bind. rewrite (firestore_run w db Hdb). unfold ret.
  by destruct (collection "users" db !! userId).
Qed.

Lemma doc_get_bind (c id : string) (k : option DocumentData → M A) :
  (doc ← doc_get c id; k doc) w = k (collection c db !! id) w.
Proof using Hdb.
  unfold bind at 1, doc_get, bind. by rewrite (firestore_run w db Hdb).
Qed.

Lemma doc_update_bind (c id : string) (cur data : DocumentData) (k : M A) :
  collection c db !! id = Some cur → has_undefined_props data = false →
  (doc_update c id data;; k) w = k (stored_as c id (assign cur data) db w).
Proof using Hdb.
  intros Hcur Hv. unfold bind at 1, doc_update, bind.
  rewrite (firestore_run w db Hdb). unfold validate. rewrite Hv.
  unfold ret. by rewrite Hcur.
Qed.

Lemma doc_set_merge_bind (c id : string) (data : DocumentData) (k : M A) :
  has_undefined_props data = false →
  (doc_set_merge c id data;; k) w
  = k (stored_as c id
         (match collection c db !! id with
          | Some cur => merge_props data cur
          | None => data
          end) db w).
Proof using Hdb.
  intros Hv. unfold bind at 1, doc_set_merge, bind.
  rewrite (firestore_run w db Hdb). unfold validate. by rewrite Hv.
Qed.

Lemma doc_delete_bind (c id : string) (k : M A) :
  (doc_delete c id;; k) w
  = k (with_db (<[c := delete id (collection c db)]> db) w).
Proof using Hdb.
  unfold bind at 1, doc_delete, bind. by rewrite (firestore_run w db Hdb).
Qed.
End Steps.

Lemma now_bind {A} (k : value → M A) (w : World) :
  (now ← Timestamp_now; k now) w
  = k (VTimestamp (Z.of_N (clock w))) (after_tick w).
Proof. reflexivity. Qed.

Lemma stored_as_collection_ne c c' id doc (db : Firestore) :
  c' ≠ c →
  collection c' (<[c := <[id := doc]> (collection c db)]> db)
  = collection c' db.
Proof. intros. by apply collection_insert_ne. Qed.

Lemma user_prop (userId k : string) (target : DocumentData) :
  k ≠ "uid" →
  prop k (assign [("uid", VStr userId)] target) = prop k target.
Proof.
  intros Hk. unfold prop. rewrite lookup_assign. simpl.
  rewrite decide_False by done. by destruct (lookup_prop k target).
Qed.

(** The world after the identity provider was asked to drop an account or
    to set its claims: done when it has the account, else a line on the
    console. *)
Lemma try_provider_bind {A} (w : World) (a : Auth) (uid : string)
  (call : M unit) (a' : Auth) (line : exn → string) (k : M A) :
  adminAuth w = Some a →
  call w
  = match accounts a !! uid with
    | Some _ => (Ok tt, with_auth a' w)
    | None => (Throw (FirebaseError "auth/user-not-found"), w)
    end →
  (try_catch call (λ e, console_error (line e));; k) w
  = k (match accounts a !! uid with
       | Some _ => with_auth a' w
       | None => with_report (line (FirebaseError "auth/user-not-found")) w
       end).
Proof.
  intros Hauth Hcall. unfold bind, try_catch. rewrite Hcall.
  by destruct (accounts a !! uid).
Qed.

Lemma auth_deleteUser_run (w : World) (a : Auth) (uid : string) :
  adminAuth w = Some a →
  auth_deleteUser uid w
  = match accounts a !! uid with
    | Some _ =>
        (Ok tt, with_auth (MkAuth (id_tokens a) (delete uid (accounts a))) w)
    | None => (Throw (FirebaseError "auth/user-not-found"), w)
    end.
Proof.
  intros Hauth. unfold auth_deleteUser, bind, auth. rewrite Hauth.
  by destruct (accounts a !! uid).
Qed.

Lemma auth_setCustomUserClaims_run (w : World) (a : Auth) (uid : string)
  (claims : DocumentData) :
  adminAuth w = Some a →
  auth_setCustomUserClaims uid claims w
  = match accounts a !! uid with
    | Some _ =>
        (Ok tt,
         with_auth (MkAuth (id_tokens a) (<[uid := claims]> (accounts a))) w)
    | None => (Throw (FirebaseError "auth/user-not-found"), w)
    end.
Proof.
  intros Hauth. unfold auth_setCustomUserClaims, bind, auth. rewrite Hauth.
  by destruct (accounts a !! uid).
Qed.

Section UserEquations.
Context (w : World) (db : Firestore) (Hdb : adminDb w = Some db).
Context (adminUid userId : string).

Lemma updateUserPlan_eq (plan : Plan) :
  updateUserPlan adminUid userId plan w
  = match collection "users" db !! userId with
    | None => (Throw (Error "User not found"), w)
    | Some target =>
        logAdminAction adminUid "UPDATE_USER_PLAN"
          [("targetUser", VStr userId); ("newPlan", VStr (plan_name plan))]
          (stored_as "users" userId
             (assign target
                [("plan", VStr (plan_name plan));
                 ("messagesLimit", prop (plan_name plan) planLimits)]) db w)
    end.
Proof using Hdb.
  unfold updateUserPlan. rewrite db_guard, Hdb, (getUser_bind w db Hdb).
  destruct (collection "users" db !! userId) as [target|] eqn:Ht; [|done].
  simpl. rewrite (doc_update_bind w db Hdb _ _ target); [done..|].
  by destruct plan.
Qed.

Lemma banUser_eq (reason : string) :
  banUser adminUid userId reason w
  = match collection "users" db !! userId with
    | None => (Throw (Error "User not found"), w)
    | Some target =>
        if truthy (prop "isAdmin" target) then
          (Throw (Error "Cannot ban admin users"), w)
        else
          logAdminAction adminUid "BAN_USER"
            [("targetUser", VStr userId); ("reason", VStr reason)]
            (stored_as "users" userId
               (assign target
                  [("isBanned", VBool true);
                   ("bannedAt", VTimestamp (Z.of_N (clock w)));
                   ("bannedBy", VStr adminUid);
                   ("banReason", VStr reason)]) db (after_tick w))
    end.
Proof using Hdb.
  unfold banUser. rewrite db_guard, Hdb, (getUser_bind w db Hdb).
  destruct (collection "users" db !! userId) as [target|] eqn:Ht; [|done].
  simpl. rewrite user_prop by done.
  destruct (truthy (prop "isAdmin" target)); [done|].
  rewrite now_bind.
  by rewrite (doc_update_bind (after_tick w) db Hdb _ _ target).
Qed.

Lemma unbanUser_eq :
  unbanUser adminUid userId w
  = match collection "users" db !! userId with
    | None => (Throw (Error "User not found"), w)
    | Some target =>
        logAdminAction adminUid "UNBAN_USER" [("targetUser", VStr userId)]
          (stored_as "users" userId
             (assign target
                [("isBanned", VBool false);
                 ("bannedAt", VNull);
                 ("bannedBy", VNull);
                 ("banReason", VNull)]) db w)
    end.
Proof using Hdb.
  unfold unbanUser. rewrite db_guard, Hdb, (getUser_bind w db Hdb).
  destruct (collection "users" db !! userId) as [target|] eqn:Ht; [|done].
  simpl. by rewrite (doc_update_bind w db Hdb _ _ target).
Qed.

Lemma resetUserMessages_eq :
  resetUserMessages adminUid userId w
  = match collection "users" db !! userId with
    | None => (Throw (Error "User not found"), w)
    | Some target =>
        logAdminAction adminUid "RESET_USER_MESSAGES"
          [("targetUser", VStr userId)]
          (stored_as "users" userId
             (assign target
                [("messagesUsed", VNum 0);
                 ("lastMessageReset", VTimestamp (Z.of_N (clock w)))])
             db (after_tick w))
    end.
Proof using Hdb.
  unfold resetUserMessages. rewrite db_guard, Hdb, (getUser_bind w db Hdb).
  destruct (collection "users" db !! userId) as [target|] eqn:Ht; [|done].
  simpl. rewrite now_bind.
  by rewrite (doc_update_bind (after_tick w) db Hdb _ _ target).
Qed.

Context (a : Auth) (Hauth : adminAuth w = Some a).

Lemma deleteUser_eq :
  deleteUser adminUid userId w
  = match collection "users" db !! userId with
    | None => (Throw (Error "User not found"), w)
    | Some target =>
        if truthy (prop "isAdmin" target) then
          (Throw (Error "Cannot delete admin users"), w)
        else
          let w1 :=
            with_db (<["users" := delete userId (collection "users" db)]> db)
              w in
          logAdminAction adminUid "DELETE_USER"
            [("targetUser", VStr userId); ("userEmail", prop "email" target)]
            (match accounts a !! userId with
             | Some _ =>
                 with_auth
                   (MkAuth (id_tokens a) (delete userId (accounts a))) w1
             | None => with_report "User not in Auth, continuing..." w1
             end)
    end.
Proof using Hdb Hauth.
  unfold deleteUser. rewrite both_guard, Hdb, Hauth, (getUser_bind w db Hdb).
  destruct (collection "users" db !! userId) as [target|] eqn:Ht; [|done].
  simpl. rewrite !user_prop by done.
  destruct (truthy (prop "isAdmin" target)); [done|].
  rewrite (doc_delete_bind w db Hdb).
  set (w1 := with_db _ w).
  by rewrite (try_provider_bind w1 a userId _
                (MkAuth (id_tokens a) (delete userId (accounts a)))
                (λ _, "User not in Auth, continuing...") _ Hauth
                (auth_deleteUser_run w1 a userId Hauth)).
Qed.

Lemma promoteUser_eq :
  promoteUser adminUid userId w
  = match collection "users" db !! userId with
    | None => (Throw (Error "User not found"), w)
    | Some target =>
        let w1 :=
          stored_as "users" userId (assign target [("isAdmin", VBool true)])
            db w in
        logAdminAction adminUid "PROMOTE_USER" [("targetUser", VStr userId)]
          (match accounts a !! userId with
           | Some _ =>
               with_auth
                 (MkAuth (id_tokens a)
                    (<[userId := [("admin", VBool true)]]> (accounts a))) w1
           | None =>
               with_report
                 "Could not set custom claims: auth/user-not-found" w1
           end)
    end.
Proof using Hdb Hauth.
  unfold promoteUser. rewrite both_guard, Hdb, Hauth, (getUser_bind w db Hdb).
  destruct (collection "users" db !! userId) as [target|] eqn:Ht; [|done].
  simpl. rewrite (doc_update_bind w db Hdb _ _ target) by done.
  set (w1 := stored_as _ _ _ _ w).
  by rewrite (try_provider_bind w1 a userId _
                (MkAuth (id_tokens a)
                   (<[userId := [("admin", VBool true)]]> (accounts a)))
                (λ e, "Could not set custom claims: " +:+ exn_text e) _ Hauth
                (auth_setCustomUserClaims_run w1 a userId _ Hauth)).
Qed.

Lemma demoteUser_eq :
  demoteUser adminUid userId w
  = match collection "users" db !! userId with
    | None => (Throw (Error "User not found"), w)
    | Some target =>
        let w1 :=
          stored_as "users" userId (assign target [("isAdmin", VBool false)])
            db w in
        logAdminAction adminUid "DEMOTE_USER" [("targetUser", VStr userId)]
          (match accounts a !! userId with
           | Some _ =>
               with_auth
                 (MkAuth (id_tokens a) (<[userId := []]> (accounts a))) w1
           | None =>
               with_report
                 "Could not clear custom claims: auth/user-not-found" w1
           end)
    end.
Proof using Hdb Hauth.
  unfold demoteUser. rewrite both_guard, Hdb, Hauth, (getUser_bind w db Hdb).
  destruct (collection "users" db !! userId) as [target|] eqn:Ht; [|done].
  simpl. rewrite (doc_update_bind w db Hdb _ _ target) by done.
  set (w1 := stored_as _ _ _ _ w).
  by rewrite (try_provider_bind w1 a userId _
                (MkAuth (id_tokens a) (<[userId := []]> (accounts a)))
                (λ e, "Could not clear custom claims: " +:+ exn_text e) _ Hauth
                (auth_setCustomUserClaims_run w1 a userId _ Hauth)).
Qed.
End UserEquations.

Section LicenseEquations.
Context (w : World) (db : Firestore) (Hdb : adminDb w = Some db).
Context (adminUid : string).

Lemma createLicense_eq (plan : Plan) (validityDays : Z) :
  let key := make_key (Z.of_N (clock w)) (hd [] (entropy w)) in
  let doc :=
    [("plan", VStr (plan_name plan));
     ("valid", VBool true);
     ("createdAt", VTimestamp (Z.of_N (clock (after_tick w))));
     ("createdBy", VStr adminUid);
     ("validityDays", VNum validityDays)] in
  let db1 := <["licenses" := <[key := doc]> (collection "licenses" db)]> db in
  createLicense adminUid plan validityDays w
  = (Ok key,
     logged adminUid "CREATE_LICENSE"
       [("licenseKey", VStr key);
        ("plan", VStr (plan_name plan));
        ("validityDays", VNum validityDays)]
       db1 (with_db db1 (after_tick (after_draw (after_tick w))))).
Proof using Hdb.
  intros key doc db1.
  unfold createLicense. rewrite db_guard, Hdb.
  unfold bind at 1, Date_now. unfold bind at 1, Math_random.
  rewrite now_bind.
  unfold bind at 1, doc_set, bind at 1, firestore.
  cbn [adminDb after_tick after_draw]. rewrite Hdb.
  unfold bind at 1, validate.
  cbn [has_undefined_props has_undefined orb]. unfold ret at 1, put_firestore.
  unfold bind at 1. erewrite logAdminAction_run by reflexivity.
  reflexivity.
Qed.

Lemma invalidateLicense_eq (licenseKey : string) :
  invalidateLicense adminUid licenseKey w
  = match collection "licenses" db !! licenseKey with
    | None => (Throw (Error "License not found"), w)
    | Some license =>
        logAdminAction adminUid "INVALIDATE_LICENSE"
          [("licenseKey", VStr licenseKey)]
          (stored_as "licenses" licenseKey
             (assign license [("valid", VBool false)]) db w)
    end.
Proof using Hdb.
  unfold invalidateLicense. rewrite db_guard, Hdb, (doc_get_bind w db Hdb).
  destruct (collection "licenses" db !! licenseKey) as [license|] eqn:Hl;
    [|done].
  by rewrite (doc_update_bind w db Hdb _ _ license).
Qed.

Lemma deleteLicense_eq (licenseKey : string) :
  deleteLicense adminUid licenseKey w
  = match collection "licenses" db !! licenseKey with
    | None => (Throw (Error "License not found"), w)
    | Some _ =>
        logAdminAction adminUid "DELETE_LICENSE"
          [("licenseKey", VStr licenseKey)]
          (with_db
             (<["licenses" := delete licenseKey (collection "licenses" db)]> db)
             w)
    end.
Proof using Hdb.
  unfold deleteLicense. rewrite db_guard, Hdb, (doc_get_bind w db Hdb).
  destruct (collection "licenses" db !! licenseKey) as [license|] eqn:Hl;
    [|done].
  by rewrite (doc_delete_bind w db Hdb).
Qed.

(** Both purges: delete the snapshot of a query, log its size, return
    it. *)
Lemma purge_eq (c action : string) (test : DocumentData → bool)
  (payload : nat → DocumentData) (w0 : World) :
  adminDb w0 = Some db →
  let snapshot :=
    filter (λ d : string * DocumentData, test d.2 = true)
      (map_to_list (collection c db)) in
  let db1 := fold_left apply_delete (batch_delete_all c snapshot) db in
  (snapshot ← coll_where_get c test;
   batch_commit (batch_delete_all c snapshot);;
   logAdminAction adminUid action (payload (length snapshot));;
   ret (length snapshot)) w0
  = (Ok (length snapshot),
     logged adminUid action (payload (length snapshot)) db1 (with_db db1 w0)).
Proof.
  intros H0 snapshot db1.
  unfold bind at 1, coll_where_get, bind at 1.
  rewrite (firestore_run w0 db H0). unfold ret at 1.
  unfold bind at 1, batch_commit, bind at 1.
  rewrite (firestore_run w0 db H0). unfold put_firestore.
  unfold bind at 1. fold snapshot db1.
  by rewrite (logAdminAction_run (with_db db1 w0) db1 eq_refl).
Qed.

Lemma purgeInvalidLicenses_eq :
  let snapshot :=
    filter (λ d : string * DocumentData, field_is_false "valid" d.2 = true)
      (map_to_list (collection "licenses" db)) in
  let db1 := fold_left apply_delete (batch_delete_all "licenses" snapshot) db in
  purgeInvalidLicenses adminUid w
  = (Ok (length snapshot),
     logged adminUid "PURGE_LICENSES"
       [("count", VNum (Z.of_nat (length snapshot)))] db1 (with_db db1 w)).
Proof using Hdb.
  unfold purgeInvalidLicenses. rewrite db_guard, Hdb.
  apply (purge_eq "licenses" "PURGE_LICENSES" (field_is_false "valid")
           (λ n, [("count", VNum (Z.of_nat n))]) w Hdb).
Qed.

Lemma config_object_defined (config : AIConfig) :
  has_undefined_props (config_object config) = false.
Proof. by destruct config as [m [t|t] [k|k] p]. Qed.

Lemma updateAIConfig_eq (config : AIConfig) :
  updateAIConfig adminUid config w
  = logAdminAction adminUid "UPDATE_AI_CONFIG"
      [("config", VObject (config_object config))]
      (stored_as "config" "ai"
         (match collection "config" db !! "ai" with
          | Some cur => merge_props (config_object config) cur
          | None => config_object config
          end) db w).
Proof using Hdb.
  unfold updateAIConfig. rewrite db_guard, Hdb.
  by rewrite (doc_set_merge_bind w db Hdb) by apply config_object_defined.
Qed.
End LicenseEquations.

Section MaintenanceEquations.
Context (w : World) (db : Firestore) (Hdb : adminDb w = Some db).
Context (adminUid : string).

(** After the null check, every maintenance command is a merge into the
    maintenance document followed by the audit. *)
Lemma maintenance_eq (data payload : DocumentData) (action : string)
  (w0 : World) :
  adminDb w0 = Some db → has_undefined_props data = false →
  (doc_set_merge "config" "maintenance" data;;
   logAdminAction adminUid action payload) w0
  = logAdminAction adminUid action payload
      (stored_as "config" "maintenance" (merged_maintenance db data) db w0).
Proof. intros H0 Hv. by rewrite (doc_set_merge_bind w0 db H0). Qed.

Lemma enableGlobalMaintenance_eq (message : option string) :
  enableGlobalMaintenance adminUid message w
  = logAdminAction adminUid "ENABLE_GLOBAL_MAINTENANCE"
      [("message", of_optional message)]
      (stored_as "config" "maintenance"
         (merged_maintenance db
            [("isGlobalMaintenance", VBool true);
             ("message",
              VStr (or_string message "System maintenance in progress"));
             ("enabledAt", VTimestamp (Z.of_N (clock w)));
             ("enabledBy", VStr adminUid)]) db (after_tick w)).
Proof using Hdb.
  unfold enableGlobalMaintenance. rewrite db_guard, Hdb, now_bind.
  by apply maintenance_eq.
Qed.

Lemma disableGlobalMaintenance_eq :
  disableGlobalMaintenance adminUid w
  = logAdminAction adminUid "DISABLE_GLOBAL_MAINTENANCE" []
      (stored_as "config" "maintenance"
         (merged_maintenance db [("isGlobalMaintenance", VBool false)]) db w).
Proof using Hdb.
  unfold disableGlobalMaintenance. rewrite db_guard, Hdb.
  by apply maintenance_eq.
Qed.

Lemma has_undefined_strings (services : list string) :
  has_undefined (VArray (map VStr services)) = false.
Proof. induction services as [|s l IH]; simpl in *; [done|]. exact IH. Qed.

Lemma enablePartialMaintenance_eq (services : list string)
  (message : option string) :
  enablePartialMaintenance adminUid services message w
  = logAdminAction adminUid "ENABLE_PARTIAL_MAINTENANCE"
      [("services", VArray (map VStr services));
       ("message", of_optional message)]
      (stored_as "config" "maintenance"
         (merged_maintenance db
            [("partialServices", VArray (map VStr services));
             ("message",
              VStr (or_string message "Some services are under maintenance"));
             ("enabledAt", VTimestamp (Z.of_N (clock w)));
             ("enabledBy", VStr adminUid)]) db (after_tick w)).
Proof using Hdb.
  unfold enablePartialMaintenance. rewrite db_guard, Hdb, now_bind.
  apply maintenance_eq; [done|].
  unfold has_undefined_props.
  change (has_undefined (VArray (map VStr services)) || false = false).
  by rewrite has_undefined_strings.
Qed.

Lemma disablePartialMaintenance_eq :
  disablePartialMaintenance adminUid w
  = logAdminAction adminUid "DISABLE_PARTIAL_MAINTENANCE" []
      (stored_as "config" "maintenance"
         (merged_maintenance db [("partialServices", VArray [])]) db w).
Proof using Hdb.
  unfold disablePartialMaintenance. rewrite db_guard, Hdb.
  by apply maintenance_eq.
Qed.

Lemma enableIAMaintenance_eq (message : option string) :
  enableIAMaintenance adminUid message w
  = logAdminAction adminUid "ENABLE_IA_MAINTENANCE"
      [("message", of_optional message)]
      (stored_as "config" "maintenance"
         (merged_maintenance db
            [("iaService",
              VObject
                [("enabled", VBool false);
                 ("message",
                  VStr (or_string message "AI service is under maintenance"));
                 ("enabledAt", VTimestamp (Z.of_N (clock w)));
                 ("enabledBy", VStr adminUid)])]) db (after_tick w)).
Proof using Hdb.
  unfold enableIAMaintenance. rewrite db_guard, Hdb, now_bind.
  by apply maintenance_eq.
Qed.

Lemma disableIAMaintenance_eq :
  disableIAMaintenance adminUid w
  = logAdminAction adminUid "DISABLE_IA_MAINTENANCE" []
      (stored_as "config" "maintenance"
         (merged_maintenance db
            [("iaService", VObject [("enabled", VBool true)])]) db w).
Proof using Hdb.
  unfold disableIAMaintenance. rewrite db_guard, Hdb.
  by apply maintenance_eq.
Qed.

Lemma enableLicenseMaintenance_eq (message : option string) :
  enableLicenseMaintenance adminUid message w
  = logAdminAction adminUid "ENABLE_LICENSE_MAINTENANCE"
      [("message", of_optional message)]
      (stored_as "config" "maintenance"
         (merged_maintenance db
            [("licenseService",
              VObject
                [("enabled", VBool false);
                 ("message",
                  VStr (or_string message
                          "License service is under maintenance"));
                 ("enabledAt", VTimestamp (Z.of_N (clock w)));
                 ("enabledBy", VStr adminUid)])]) db (after_tick w)).
Proof using Hdb.
  unfold enableLicenseMaintenance. rewrite db_guard, Hdb, now_bind.
  by apply maintenance_eq.
Qed.

Lemma disableLicenseMaintenance_eq :
  disableLicenseMaintenance adminUid w
  = logAdminAction adminUid "DISABLE_LICENSE_MAINTENANCE" []
      (stored_as "config" "maintenance"
         (merged_maintenance db
            [("licenseService", VObject [("enabled", VBool true)])]) db w).
Proof using Hdb.
  unfold disableLicenseMaintenance. rewrite db_guard, Hdb.
  by apply maintenance_eq.
Qed.

Lemma enablePlannedMaintenance_eq (plannedTime : string)
  (message : option string) :
  enablePlannedMaintenance adminUid plannedTime message w
  = logAdminAction adminUid "ENABLE_PLANNED_MAINTENANCE"
      [("plannedTime", VStr plannedTime); ("message", of_optional message)]
      (stored_as "config" "maintenance"
         (merged_maintenance db
            [("plannedMaintenance",
              VObject
                [("enabled", VBool true);
                 ("scheduledAt", VStr plannedTime);
                 ("message",
                  VStr (or_string message "Planned maintenance scheduled"));
                 ("scheduledBy", VStr adminUid)])]) db w).
Proof using Hdb.
  unfold enablePlannedMaintenance. rewrite db_guard, Hdb.
  by apply maintenance_eq.
Qed.

Lemma disablePlannedMaintenance_eq :
  disablePlannedMaintenance adminUid w
  = logAdminAction adminUid "DISABLE_PLANNED_MAINTENANCE" []
      (stored_as "config" "maintenance"
         (merged_maintenance db
            [("plannedMaintenance", VObject [("enabled", VBool false)])])
         db w).
Proof using Hdb.
  unfold disablePlannedMaintenance. rewrite db_guard, Hdb.
  by apply maintenance_eq.
Qed.
End MaintenanceEquations.

(** Every command either throws one of its errors, having written nothing
    (and not for want of a handle when both are there), or ends in the
    audit, having written to its own collection only. *)
Ltac known_error :=
  unfold command_errors;
  repeat first [apply list_elem_of_here | apply list_elem_of_further].

Ltac throws :=
  left; eexists _, _; split; [reflexivity|]; split; [known_error|];
  do 3 (split; [first [reflexivity|assumption|congruence]|]);
  intros [? ?] [? ?]; first [by split | congruence].

Lemma lookup_merged_maintenance_other (db : Firestore) (data : DocumentData)
  (k : string) :
  k ∉ data.*1 →
  lookup_prop k (merged_maintenance db data)
  = lookup_prop k (default [] (collection "config" db !! "maintenance")).
Proof.
  intros Hk. unfold merged_maintenance.
  destruct (collection "config" db !! "maintenance") as [cur|]; simpl.
  - by apply lookup_merge_props_other.
  - by apply lookup_prop_None.
Qed.

Ltac one_document :=
  first
    [ intros t Ht; discriminate Ht
    | intros t [= <-] id Hid; unfold stored_as, with_db;
      rewrite collection_insert_eq;
      first [ by rewrite lookup_insert_ne | by rewrite lookup_delete_ne ] ].

Ltac own_fields :=
  first
    [ intros k Hk; discriminate Hk
    | intros k _ Hk; unfold stored_as, with_db;
      rewrite collection_insert_eq, lookup_insert_eq;
      apply lookup_merged_maintenance_other; exact Hk ].

Ltac audits :=
  right; eexists _, _, _; split;
  [first [ eapply logAdminAction_run; reflexivity | reflexivity ]|];
  split; [reflexivity|];
  split;
  [ intros coll Hcoll;
    first [ reflexivity
          | by apply stored_as_collection_ne
          | apply collection_insert_ne; congruence ]
  | split; [first [ intros _; reflexivity | discriminate ]|];
    split; [one_document|own_fields] ].

Lemma run_shape (adminUid : string) (c : Command) (w : World) :
  (∃ e w0, run adminUid c w = (Throw e, w0) ∧ e ∈ command_errors ∧
           adminDb w0 = adminDb w ∧ adminAuth w0 = adminAuth w ∧
           console w0 = console w ∧
           (is_Some (adminDb w) → is_Some (adminAuth w) →
            e ≠ Error "Database not initialized" ∧
            e ≠ Error "Firebase not initialized")) ∨
  (∃ db1 w1 payload,
     run adminUid c w
     = (Ok tt, logged adminUid (audit_tag c) payload db1 w1) ∧
     adminDb w1 = Some db1 ∧
     (∀ coll, coll ≠ written_collection c →
              collection coll db1 = stored coll w) ∧
     (calls_provider c = false → adminAuth w1 = adminAuth w) ∧
     (∀ t, written_document c = Some t →
           ∀ id, id ≠ t →
                 collection (written_collection c) db1 !! id
                 = stored (written_collection c) w !! id) ∧
     (∀ k, written_collection c = "config" → k ∉ maintenance_fields c →
           lookup_prop k
             (default [] (collection "config" db1 !! "maintenance"))
           = lookup_prop k (maintenance_doc w))).
Proof.
  destruct (adminDb w) as [db|] eqn:Hdb.
  2: { destruct c; simpl;
         unfold updateUserPlan, banUser, unbanUser, resetUserMessages,
           deleteUser, promoteUser, demoteUser, createLicense,
           invalidateLicense, deleteLicense, updateAIConfig,
           purgeInvalidLicenses,
           clearOldLogs, enableGlobalMaintenance, disableGlobalMaintenance,
           enablePartialMaintenance, disablePartialMaintenance,
           enableIAMaintenance, disableIAMaintenance,
           enableLicenseMaintenance, disableLicenseMaintenance,
           enablePlannedMaintenance, disablePlannedMaintenance;
         first [ rewrite db_guard, Hdb
               | rewrite both_guard, Hdb
               | unfold bind at 1; rewrite db_guard, Hdb ];
         throws. }
  assert (Hstored : ∀ coll, stored coll w = collection coll db).
  { intros coll. unfold stored. by rewrite Hdb. }
  unfold maintenance_doc. setoid_rewrite Hstored.
  destruct c; simpl.
  - rewrite (updateUserPlan_eq w db Hdb).
    destruct (collection "users" db !! userId); [audits|throws].
  - rewrite (banUser_eq w db Hdb).
    destruct (collection "users" db !! userId) as [target|]; [|throws].
    destruct (truthy (prop "isAdmin" target)); [throws|audits].
  - rewrite (unbanUser_eq w db Hdb).
    destruct (collection "users" db !! userId); [audits|throws].
  - rewrite (resetUserMessages_eq w db Hdb).
    destruct (collection "users" db !! userId); [audits|throws].
  - destruct (adminAuth w) as [a|] eqn:Hauth.
    2: { unfold deleteUser. rewrite both_guard, Hdb, Hauth. throws. }
    rewrite (deleteUser_eq w db Hdb _ _ a Hauth).
    destruct (collection "users" db !! userId) as [target|]; [|throws].
    destruct (truthy (prop "isAdmin" target)); [throws|].
    cbv zeta. destruct (accounts a !! userId); audits.
  - destruct (adminAuth w) as [a|] eqn:Hauth.
    2: { unfold promoteUser. rewrite both_guard, Hdb, Hauth. throws. }
    rewrite (promoteUser_eq w db Hdb _ _ a Hauth).
    destruct (collection "users" db !! userId) as [target|]; [|throws].
    cbv zeta. destruct (accounts a !! userId); audits.
  - destruct (adminAuth w) as [a|] eqn:Hauth.
    2: { unfold demoteUser. rewrite both_guard, Hdb, Hauth. throws. }
    rewrite (demoteUser_eq w db Hdb _ _ a Hauth).
    destruct (collection "users" db !! userId) as [target|]; [|throws].
    cbv zeta. destruct (accounts a !! userId); audits.
  - unfold bind. rewrite (createLicense_eq w db Hdb). cbv zeta. audits.
  - rewrite (invalidateLicense_eq w db Hdb).
    destruct (collection "licenses" db !! licenseKey); [audits|throws].
  - rewrite (deleteLicense_eq w db Hdb).
    destruct (collection "licenses" db !! licenseKey); [audits|throws].
  - rewrite (updateAIConfig_eq w db Hdb).
    right. eexists _, _, _.
    split; [eapply logAdminAction_run; reflexivity|].
    split; [reflexivity|].
    split; [intros coll Hcoll; by apply stored_as_collection_ne|].
    split; [done|]. split.
    + intros t [= <-] id Hid. unfold stored_as, with_db.
      rewrite collection_insert_eq. by rewrite lookup_insert_ne.
    + intros k _ _. unfold stored_as, with_db.
      rewrite collection_insert_eq. by rewrite lookup_insert_ne.
  - unfold bind. rewrite (purgeInvalidLicenses_eq w db Hdb). cbv zeta.
    right. eexists _, _, _. split; [reflexivity|]. split; [reflexivity|].
    split; [|done]. intros coll Hcoll.
    rewrite (purged_collection "licenses"). by rewrite decide_False.
  - unfold bind. rewrite (clearOldLogs_run w db adminUid daysOld Hdb).
    cbv zeta. destruct (bool_decide _); [|throws].
    right. eexists _, _, _. split; [reflexivity|]. split; [reflexivity|].
    split; [|done]. intros coll Hcoll.
    rewrite (purged_collection "admin_logs"). by rewrite decide_False.
  - rewrite (enableGlobalMaintenance_eq w db Hdb). audits.
  - rewrite (disableGlobalMaintenance_eq w db Hdb). audits.
  - rewrite (enablePartialMaintenance_eq w db Hdb). audits.
  - rewrite (disablePartialMaintenance_eq w db Hdb). audits.
  - rewrite (enableIAMaintenance_eq w db Hdb). audits.
  - rewrite (disableIAMaintenance_eq w db Hdb). audits.
  - rewrite (enableLicenseMaintenance_eq w db Hdb). audits.
  - rewrite (disableLicenseMaintenance_eq w db Hdb). audits.
  - rewrite (enablePlannedMaintenance_eq w db Hdb). audits.
  - rewrite (disablePlannedMaintenance_eq w db Hdb). audits.
Qed.

Lemma logged_db adminUid action payload (db1 : Firestore) (w1 : World) :
  adminDb w1 = Some db1 →
  ∃ db2,
    adminDb (logged adminUid action payload db1 w1) = Some db2 ∧
    ∀ coll, coll ≠ "admin_logs" → collection coll db2 = collection coll db1.
Proof.
  intros H1. unfold logged. destruct (has_undefined_props _).
  - exists db1. by split.
  - eexists. split; [reflexivity|]. intros coll Hcoll.
    by apply collection_insert_ne.
Qed.

Lemma adminAuth_logged adminUid action payload (db1 : Firestore) (w1 : World) :
  adminAuth (logged adminUid action payload db1 w1) = adminAuth w1.
Proof. unfold logged. by destruct (has_undefined_props _). Qed.

(** X1. A command addressed to a document id that throws has written
    nothing: the store, the identity provider and the console are as they
    were, and the error is one of the six that the commands raise
    themselves, or the client's refusal of the cutoff of [clearOldLogs]. *)
Theorem failed_command_changes_nothing (adminUid : string) (c : Command)
  (w w' : World) (e : exn) :
  (∀ id, written_document c = Some id → document_id id = true) →
  run adminUid c w = (Throw e, w') →
  adminDb w' = adminDb w ∧ adminAuth w' = adminAuth w ∧
  console w' = console w ∧ e ∈ command_errors.
Proof.
  intros _.
  destruct (run_shape adminUid c w)
    as [(e0 & w0 & -> & He0 & Hdb & Hauth & Hconsole & _)|(?&?&?& -> &_)].
  - by intros [= <- <-].
  - discriminate.
Qed.

Lemma failed_command_changes_nothing_witness :
  (adminDb demo_world = adminDb demo_world ∧
   adminAuth demo_world = adminAuth demo_world ∧
   console demo_world = console demo_world ∧
   Error "Cannot ban admin users" ∈ command_errors) ∧
  (adminDb (after_tick demo_world) = adminDb demo_world ∧
   adminAuth (after_tick demo_world) = adminAuth demo_world ∧
   console (after_tick demo_world) = console demo_world ∧
   FirebaseError "invalid-argument" ∈ command_errors).
Proof.
  split.
  - apply (failed_command_changes_nothing "root" (BanUser "root" "spam")
             demo_world demo_world (Error "Cannot ban admin users")).
    + by intros id [= <-].
    + reflexivity.
  - apply (failed_command_changes_nothing "root" (ClearOldLogs 1000000)
             demo_world (after_tick demo_world)
             (FirebaseError "invalid-argument")).
    + intros id Hid. discriminate Hid.
    + reflexivity.
Defined.

(** X2. A command that succeeds leaves every collection other than its own
    and [admin_logs] as it was, and only the three commands that call the
    identity provider can change what the provider holds. *)
Theorem command_writes_its_own_collection (adminUid : string) (c : Command)
  (w w' : World) :
  run adminUid c w = (Ok tt, w') →
  (∀ coll, coll ≠ written_collection c → coll ≠ "admin_logs" →
           stored coll w' = stored coll w) ∧
  (calls_provider c = false → adminAuth w' = adminAuth w).
Proof.
  destruct (run_shape adminUid c w)
    as [(e0 & w0 & -> & He0)|(db1 & w1 & payload & -> & H1 & Hframe & Hauth & _)];
    [discriminate|].
  intros [= <-]. split.
  - intros coll Hc Hlogs. rewrite stored_logged by done. by apply Hframe.
  - intros Hc. rewrite adminAuth_logged. by apply Hauth.
Qed.

Lemma command_writes_its_own_collection_witness :
  let w' := (run "root" (BanUser "u1" "spam") demo_world).2 in
  (∀ coll, coll ≠ "users" → coll ≠ "admin_logs" →
           stored coll w' = stored coll demo_world) ∧
  (false = false → adminAuth w' = adminAuth demo_world).
Proof.
  apply (command_writes_its_own_collection "root" (BanUser "u1" "spam")
           demo_world).
  by vm_compute.
Defined.

(** X3. A command other than [clearOldLogs] that succeeds adds at most one
    document to [admin_logs] and changes none: either the log is as it was
    (the store refused the entry), or it holds one new entry, which names
    the acting admin and carries the audit tag of the command. *)
Theorem command_audit_entry (adminUid : string) (c : Command) (w w' : World) :
  run adminUid c w = (Ok tt, w') →
  written_collection c ≠ "admin_logs" →
  stored "admin_logs" w' = stored "admin_logs" w ∨
  ∃ id payload t,
    stored "admin_logs" w !! id = None ∧
    stored "admin_logs" w'
    = <[id := log_entry adminUid (audit_tag c) payload t]>
        (stored "admin_logs" w).
Proof.
  destruct (run_shape adminUid c w)
    as [(e0 & w0 & -> & He0)|(db1 & w1 & payload & -> & H1 & Hframe & _)];
    [discriminate|].
  intros [= <-] Hc.
  assert (Hlogs : stored "admin_logs" w1 = stored "admin_logs" w).
  { unfold stored at 1. rewrite H1. apply Hframe. congruence. }
  destruct (has_undefined_props
              (log_entry adminUid (audit_tag c) payload (Z.of_N (clock w1))))
    eqn:Hv.
  - left. unfold logged. rewrite Hv. rewrite <-Hlogs.
    unfold stored. simpl. by rewrite H1.
  - right. destruct (logged_appends adminUid (audit_tag c) payload db1 w1 H1 Hv)
      as (id & Hfresh & Hnew).
    exists id, payload, (Z.of_N (clock w1)). by rewrite <-Hlogs.
Qed.

Lemma command_audit_entry_witness :
  let c := InvalidateLicense "LIC-1-AAAAAAAAA" in
  let w' := (run "root" c demo_world).2 in
  stored "admin_logs" w' = stored "admin_logs" demo_world ∨
  ∃ id payload t,
    stored "admin_logs" demo_world !! id = None ∧
    stored "admin_logs" w'
    = <[id := log_entry "root" "INVALIDATE_LICENSE" payload t]>
        (stored "admin_logs" demo_world).
Proof.
  apply (command_audit_entry "root" (InvalidateLicense "LIC-1-AAAAAAAAA")
           demo_world).
  - by vm_compute.
  - discriminate.
Defined.

(** X4. A command whose argument names its document (a user, a license
    key; the maintenance document for the maintenance commands) leaves
    every other document of that collection as it was. *)
Theorem command_writes_one_document (adminUid : string) (c : Command)
  (w w' : World) (target : string) :
  run adminUid c w = (Ok tt, w') →
  written_document c = Some target →
  ∀ id, id ≠ target →
        stored (written_collection c) w' !! id
        = stored (written_collection c) w !! id.
Proof.
  destruct (run_shape adminUid c w)
    as [(e0 & w0 & -> & He0)|(db1 & w1 & payload & -> & H1 & _ & _ & Hdoc & _)];
    [discriminate|].
  intros [= <-] Htarget id Hid.
  rewrite stored_logged; [by apply (Hdoc target)|done|].
  by destruct c.
Qed.

Lemma command_writes_one_document_witness :
  let w' := (run "root" (DeleteUser "u1") demo_world).2 in
  stored "users" w' !! "root" = stored "users" demo_world !! "root".
Proof.
  apply (command_writes_one_document "root" (DeleteUser "u1") demo_world _
           "u1").
  - by vm_compute.
  - reflexivity.
  - discriminate.
Defined.

(** X5. A maintenance command changes no top-level field of the
    maintenance document beyond the ones it passes to [set]: the global and
    the partial switch share [message], [enabledAt] and [enabledBy], and
    each sub-service command keeps to its own field. *)
Theorem maintenance_command_keeps_other_fields (adminUid : string)
  (c : Command) (w w' : World) :
  run adminUid c w = (Ok tt, w') →
  written_collection c = "config" →
  ∀ k, k ∉ maintenance_fields c →
       lookup_prop k (maintenance_doc w') = lookup_prop k (maintenance_doc w).
Proof.
  destruct (run_shape adminUid c w)
    as [(e0 & w0 & -> & He0)|(db1 & w1 & payload & -> & H1 & _ & _ & _ & Hfields)];
    [discriminate|].
  intros [= <-] Hconfig k Hk.
  unfold maintenance_doc at 1. rewrite stored_logged by done.
  by apply Hfields.
Qed.

Lemma maintenance_command_keeps_other_fields_witness :
  let c := EnablePartialMaintenance ["chat"; "billing"] (Some "Partly down") in
  let w' := (run "root" c demo_world).2 in
  lookup_prop "isGlobalMaintenance" (maintenance_doc w')
  = lookup_prop "isGlobalMaintenance" (maintenance_doc demo_world).
Proof.
  apply (maintenance_command_keeps_other_fields "root"
           (EnablePartialMaintenance ["chat"; "billing"] (Some "Partly down"))
           demo_world).
  - by vm_compute.
  - reflexivity.
  - not_among.
Defined.

(** *** The guard and the user commands *)

(** X6. With both handles set, a valid credential and a subject whose
    user record has [isAdmin] set, [verifyAdmin] returns the subject's uid
    and writes nothing, no audit entry either. *)
Theorem verifyAdmin_accepts_admin (w : World) (a : Auth)
  (idToken uid : string) (user : DocumentData) :
  adminAuth w = Some a →
  id_tokens a !! idToken = Some uid →
  stored "users" w !! uid = Some user →
  truthy (prop "isAdmin" user) = true →
  verifyAdmin idToken w = (Ok uid, w).
Proof.
  intros Hauth Htoken (db & Hdb & Huser)%stored_Some Hadmin.
  by rewrite (verifyAdmin_run w db a Hdb Hauth idToken uid Htoken),
    Huser, Hadmin.
Qed.

Lemma verifyAdmin_accepts_admin_witness :
  verifyAdmin "token-root" demo_world = (Ok "root", demo_world).
Proof.
  apply (verifyAdmin_accepts_admin demo_world demo_auth "token-root" "root"
           [("email", VStr "root@example.org"); ("isAdmin", VBool true)]);
    reflexivity.
Defined.

(** X7. [verifyAdmin] fails without a trace before it knows the subject:
    when [isAdminInitialized] is false it throws "Firebase Admin SDK not
    initialized", and when the provider rejects the token that rejection
    propagates; in both cases the world is unchanged, so no audit entry is
    written. *)
Theorem verifyAdmin_fails_without_trace (w : World) (idToken : string) :
  (isAdminInitialized w = (Ok false, w) →
   verifyAdmin idToken w
   = (Throw (Error "Firebase Admin SDK not initialized"), w)) ∧
  (∀ a, isAdminInitialized w = (Ok true, w) →
        adminAuth w = Some a → id_tokens a !! idToken = None →
        ∃ e, verifyAdmin idToken w = (Throw e, w) ∧
             e ≠ Error "Unauthorized: Not an admin").
Proof.
  unfold isAdminInitialized, verifyAdmin, bind, auth_is_null, db_is_null.
  split.
  - by destruct (adminDb w), (adminAuth w).
  - intros a Hinit Hauth Htoken. rewrite Hauth in *.
    destruct (adminDb w); [|done]. simpl.
    unfold verifyIdToken, bind, auth. rewrite Hauth, Htoken.
    by eexists.
Qed.

Lemma verifyAdmin_fails_without_trace_witness :
  verifyAdmin "token-root" (MkWorld (Some demo_db) None demo_now [] [] [] utc)
  = (Throw (Error "Firebase Admin SDK not initialized"),
     MkWorld (Some demo_db) None demo_now [] [] [] utc)
  ∧ ∃ e, verifyAdmin "forged" demo_world = (Throw e, demo_world) ∧
         e ≠ Error "Unauthorized: Not an admin".
Proof.
  split.
  - by apply (verifyAdmin_fails_without_trace
                (MkWorld (Some demo_db) None demo_now [] [] [] utc) "token-root").
  - by apply (verifyAdmin_fails_without_trace demo_world "forged")
      with (a := demo_auth).
Defined.

(** Runs the audit that follows an update of one document and reads the
    document back. *)
Ltac after_update :=
  eexists _, _; split; [eapply logAdminAction_run; reflexivity|];
  rewrite stored_logged by done;
  unfold stored_as, with_db;
  rewrite collection_insert_eq, lookup_insert_eq;
  split; [reflexivity|].

(** X8. [unbanUser] on an existing user, banned or not, succeeds and
    leaves [isBanned = false] and [bannedAt], [bannedBy], [banReason] all
    [null]; every other field is kept.  (So a second call changes nothing
    a reader can see.) *)
Theorem unbanUser_clears_ban (w : World) (adminUid userId : string)
  (target : DocumentData) :
  stored "users" w !! userId = Some target →
  ∃ w' cleared,
    unbanUser adminUid userId w = (Ok tt, w') ∧
    stored "users" w' !! userId = Some cleared ∧
    prop "isBanned" cleared = VBool false ∧
    prop "bannedAt" cleared = VNull ∧
    prop "bannedBy" cleared = VNull ∧
    prop "banReason" cleared = VNull ∧
    ∀ k, k ∉ ["isBanned"; "bannedAt"; "bannedBy"; "banReason"] →
         lookup_prop k cleared = lookup_prop k target.
Proof.
  intros (db & Hdb & Htarget)%stored_Some.
  rewrite (unbanUser_eq w db Hdb), Htarget.
  after_update.
  repeat split; try (unfold prop; by rewrite lookup_assign).
  intros k Hk. by rewrite lookup_assign, lookup_prop_None.
Qed.

Lemma unbanUser_clears_ban_witness :
  ∃ w' cleared,
    unbanUser "root" "u1" demo_world = (Ok tt, w') ∧
    stored "users" w' !! "u1" = Some cleared ∧
    prop "isBanned" cleared = VBool false ∧
    prop "bannedAt" cleared = VNull ∧
    prop "bannedBy" cleared = VNull ∧
    prop "banReason" cleared = VNull ∧
    ∀ k, k ∉ ["isBanned"; "bannedAt"; "bannedBy"; "banReason"] →
         lookup_prop k cleared
         = lookup_prop k
             [("email", VStr "u1@example.org"); ("plan", VStr "Free");
              ("isAdmin", VBool false); ("messagesLimit", VNum 10)].
Proof.
  apply (unbanUser_clears_ban demo_world "root" "u1"
           [("email", VStr "u1@example.org"); ("plan", VStr "Free");
            ("isAdmin", VBool false); ("messagesLimit", VNum 10)]).
  reflexivity.
Defined.

(** X9. Banning a user who is not an admin and then unbanning them gives
    back every field the user had, with [isBanned = false] and the three
    ban fields [null]. *)
Theorem ban_then_unban (w : World) (admin1 admin2 userId reason : string)
  (target : DocumentData) :
  stored "users" w !! userId = Some target →
  truthy (prop "isAdmin" target) = false →
  ∃ w' restored,
    (banUser admin1 userId reason;; unbanUser admin2 userId) w = (Ok tt, w') ∧
    stored "users" w' !! userId = Some restored ∧
    prop "isBanned" restored = VBool false ∧
    prop "bannedAt" restored = VNull ∧
    prop "bannedBy" restored = VNull ∧
    prop "banReason" restored = VNull ∧
    ∀ k, k ∉ ["isBanned"; "bannedAt"; "bannedBy"; "banReason"] →
         lookup_prop k restored = lookup_prop k target.
Proof.
  intros (db & Hdb & Htarget)%stored_Some Hadmin.
  unfold bind. rewrite (banUser_eq w db Hdb), Htarget, Hadmin.
  erewrite logAdminAction_run by reflexivity.
  match goal with
  | |- context [logged ?u ?a ?p ?d ?w0] =>
      destruct (logged_db u a p d w0 eq_refl) as (db2 & Hdb2 & Hsame);
      set (w1 := logged u a p d w0) in *
  end.
  rewrite (unbanUser_eq w1 db2 Hdb2), Hsame by done.
  rewrite collection_insert_eq, lookup_insert_eq.
  after_update.
  repeat split; try (unfold prop; by rewrite lookup_assign).
  intros k Hk. rewrite lookup_assign, lookup_prop_None by done.
  by rewrite lookup_assign, lookup_prop_None.
Qed.

Lemma ban_then_unban_witness :
  ∃ w' restored,
    (banUser "root" "u1" "spam";; unbanUser "root" "u1") demo_world
    = (Ok tt, w') ∧
    stored "users" w' !! "u1" = Some restored ∧
    prop "isBanned" restored = VBool false ∧
    prop "bannedAt" restored = VNull ∧
    prop "bannedBy" restored = VNull ∧
    prop "banReason" restored = VNull ∧
    ∀ k, k ∉ ["isBanned"; "bannedAt"; "bannedBy"; "banReason"] →
         lookup_prop k restored
         = lookup_prop k
             [("email", VStr "u1@example.org"); ("plan", VStr "Free");
              ("isAdmin", VBool false); ("messagesLimit", VNum 10)].
Proof.
  apply (ban_then_unban demo_world "root" "root" "u1" "spam"
           [("email", VStr "u1@example.org"); ("plan", VStr "Free");
            ("isAdmin", VBool false); ("messagesLimit", VNum 10)]);
    reflexivity.
Defined.

(** X10. [resetUserMessages] on an existing user sets [messagesUsed] to 0
    and [lastMessageReset] to the time of the call, and keeps the plan, the
    limit and every other field. *)
Theorem resetUserMessages_resets_counter (w : World)
  (adminUid userId : string) (target : DocumentData) :
  stored "users" w !! userId = Some target →
  ∃ w' reset,
    resetUserMessages adminUid userId w = (Ok tt, w') ∧
    stored "users" w' !! userId = Some reset ∧
    prop "messagesUsed" reset = VNum 0 ∧
    prop "lastMessageReset" reset = VTimestamp (Z.of_N (clock w)) ∧
    ∀ k, k ∉ ["messagesUsed"; "lastMessageReset"] →
         lookup_prop k reset = lookup_prop k target.
Proof.
  intros (db & Hdb & Htarget)%stored_Some.
  rewrite (resetUserMessages_eq w db Hdb), Htarget.
  after_update.
  repeat split; try (unfold prop; by rewrite lookup_assign).
  intros k Hk. by rewrite lookup_assign, lookup_prop_None.
Qed.

Lemma resetUserMessages_resets_counter_witness :
  ∃ w' reset,
    resetUserMessages "root" "u1" demo_world = (Ok tt, w') ∧
    stored "users" w' !! "u1" = Some reset ∧
    prop "messagesUsed" reset = VNum 0 ∧
    prop "lastMessageReset" reset = VTimestamp 1700000000000 ∧
    ∀ k, k ∉ ["messagesUsed"; "lastMessageReset"] →
         lookup_prop k reset
         = lookup_prop k
             [("email", VStr "u1@example.org"); ("plan", VStr "Free");
              ("isAdmin", VBool false); ("messagesLimit", VNum 10)].
Proof.
  apply (resetUserMessages_resets_counter demo_world "root" "u1"
           [("email", VStr "u1@example.org"); ("plan", VStr "Free");
            ("isAdmin", VBool false); ("messagesLimit", VNum 10)]).
  reflexivity.
Defined.

(** X11. With the handles set, each of the seven user commands answers a
    document id that has no user record with "User not found" and changes
    nothing. *)
Theorem user_commands_need_the_user (w : World) (db : Firestore) (a : Auth)
  (adminUid userId reason : string) (plan : Plan) :
  adminDb w = Some db → adminAuth w = Some a →
  document_id userId = true →
  stored "users" w !! userId = None →
  Forall (λ command : M unit, command w = (Throw (Error "User not found"), w))
    [updateUserPlan adminUid userId plan;
     banUser adminUid userId reason;
     unbanUser adminUid userId;
     resetUserMessages adminUid userId;
     deleteUser adminUid userId;
     promoteUser adminUid userId;
     demoteUser adminUid userId].
Proof.
  intros Hdb Hauth _ Hnone. unfold stored in Hnone. rewrite Hdb in Hnone.
  repeat constructor.
  - by rewrite (updateUserPlan_eq w db Hdb), Hnone.
  - by rewrite (banUser_eq w db Hdb), Hnone.
  - by rewrite (unbanUser_eq w db Hdb), Hnone.
  - by rewrite (resetUserMessages_eq w db Hdb), Hnone.
  - by rewrite (deleteUser_eq w db Hdb _ _ a Hauth), Hnone.
  - by rewrite (promoteUser_eq w db Hdb _ _ a Hauth), Hnone.
  - by rewrite (demoteUser_eq w db Hdb _ _ a Hauth), Hnone.
Qed.

Lemma user_commands_need_the_user_witness :
  Forall (λ command : M unit,
            command demo_world = (Throw (Error "User not found"), demo_world))
    [updateUserPlan "root" "ghost" Pro;
     banUser "root" "ghost" "spam";
     unbanUser "root" "ghost";
     resetUserMessages "root" "ghost";
     deleteUser "root" "ghost";
     promoteUser "root" "ghost";
     demoteUser "root" "ghost"].
Proof.
  apply (user_commands_need_the_user demo_world demo_db demo_auth "root"
           "ghost" "spam" Pro); reflexivity.
Defined.

(** Closes [k ∉ [name]] from [k ≠ name]. *)
Ltac not_among_ne :=
  cbn; apply not_elem_of_cons; split; [assumption|apply not_elem_of_nil].

(** X12. [deleteUser] refuses a user whose [isAdmin] is set, with "Cannot
    delete admin users" and no change.  Any other existing user is removed
    from [users], and the provider's account of that uid is gone afterwards
    whether or not there was one: a missing account does not fail the
    command. *)
Theorem deleteUser_removes_user (w : World) (a : Auth)
  (adminUid userId : string) (target : DocumentData) :
  adminAuth w = Some a →
  stored "users" w !! userId = Some target →
  if truthy (prop "isAdmin" target) then
    deleteUser adminUid userId w
    = (Throw (Error "Cannot delete admin users"), w)
  else
    ∃ w' a',
      deleteUser adminUid userId w = (Ok tt, w') ∧
      stored "users" w' = delete userId (stored "users" w) ∧
      adminAuth w' = Some a' ∧
      id_tokens a' = id_tokens a ∧
      accounts a' = delete userId (accounts a).
Proof.
  intros Hauth Hstored.
  destruct (stored_Some _ _ _ _ Hstored) as (db & Hdb & Htarget).
  rewrite (deleteUser_eq w db Hdb _ _ a Hauth), Htarget.
  destruct (truthy (prop "isAdmin" target)); [reflexivity|].
  cbv zeta.
  assert (Husers : stored "users" w = collection "users" db).
  { unfold stored. by rewrite Hdb. }
  rewrite Husers.
  destruct (accounts a !! userId) as [claims|] eqn:Hacc.
  - eexists _, _. split; [eapply logAdminAction_run; reflexivity|].
    rewrite stored_logged by done. rewrite collection_insert_eq.
    rewrite adminAuth_logged. by repeat split.
  - eexists _, a. split; [eapply logAdminAction_run; reflexivity|].
    rewrite stored_logged by done. rewrite collection_insert_eq.
    rewrite adminAuth_logged. repeat split; [done|].
    symmetry. by apply delete_id.
Qed.

Lemma deleteUser_removes_user_witness :
  deleteUser "root" "root" demo_world
  = (Throw (Error "Cannot delete admin users"), demo_world)
  ∧ ∃ w' a',
      deleteUser "root" "u1" demo_world = (Ok tt, w') ∧
      stored "users" w' = delete "u1" (stored "users" demo_world) ∧
      adminAuth w' = Some a' ∧
      id_tokens a' = id_tokens demo_auth ∧
      accounts a' = delete "u1" (accounts demo_auth).
Proof.
  split.
  - apply (deleteUser_removes_user demo_world demo_auth "root" "root"
             [("email", VStr "root@example.org"); ("isAdmin", VBool true)]);
      reflexivity.
  - apply (deleteUser_removes_user demo_world demo_auth "root" "u1"
             [("email", VStr "u1@example.org"); ("plan", VStr "Free");
              ("isAdmin", VBool false); ("messagesLimit", VNum 10)]);
      reflexivity.
Defined.

(** X13. [promoteUser] and [demoteUser] on an existing user set [isAdmin]
    to [true] and to [false] and keep every other field.  The provider's
    claims of that uid become [{admin: true}] and [{}] when it has the
    account; when it has none the command succeeds all the same and the
    provider is left as it was. *)
Theorem promote_and_demote_set_isAdmin (w : World) (a : Auth)
  (adminUid userId : string) (target : DocumentData) :
  adminAuth w = Some a →
  stored "users" w !! userId = Some target →
  (∃ w' promoted a',
     promoteUser adminUid userId w = (Ok tt, w') ∧
     stored "users" w' !! userId = Some promoted ∧
     prop "isAdmin" promoted = VBool true ∧
     (∀ k, k ≠ "isAdmin" → lookup_prop k promoted = lookup_prop k target) ∧
     adminAuth w' = Some a' ∧
     id_tokens a' = id_tokens a ∧
     accounts a'
     = match accounts a !! userId with
       | Some _ => <[userId := [("admin", VBool true)]]> (accounts a)
       | None => accounts a
       end) ∧
  (∃ w' demoted a',
     demoteUser adminUid userId w = (Ok tt, w') ∧
     stored "users" w' !! userId = Some demoted ∧
     prop "isAdmin" demoted = VBool false ∧
     (∀ k, k ≠ "isAdmin" → lookup_prop k demoted = lookup_prop k target) ∧
     adminAuth w' = Some a' ∧
     id_tokens a' = id_tokens a ∧
     accounts a'
     = match accounts a !! userId with
       | Some _ => <[userId := []]> (accounts a)
       | None => accounts a
       end).
Proof.
  intros Hauth Hstored.
  destruct (stored_Some _ _ _ _ Hstored) as (db & Hdb & Htarget).
  split.
  - rewrite (promoteUser_eq w db Hdb _ _ a Hauth), Htarget. cbv zeta.
    destruct (accounts a !! userId) as [claims|] eqn:Hacc.
    + eexists _, _, _. split; [eapply logAdminAction_run; reflexivity|].
      rewrite stored_logged by done. rewrite adminAuth_logged.
      unfold stored_as, with_db, with_auth. cbn [adminDb adminAuth].
      rewrite collection_insert_eq, lookup_insert_eq.
      split; [reflexivity|]. split; [unfold prop; by rewrite lookup_assign|].
      split; [|by repeat split].
      intros k Hk. by rewrite lookup_assign, lookup_prop_None by not_among_ne.
    + eexists _, _, a. split; [eapply logAdminAction_run; reflexivity|].
      rewrite stored_logged by done. rewrite adminAuth_logged.
      unfold stored_as, with_db, with_report. cbn [adminDb adminAuth].
      rewrite collection_insert_eq, lookup_insert_eq.
      split; [reflexivity|]. split; [unfold prop; by rewrite lookup_assign|].
      split; [|by repeat split].
      intros k Hk. by rewrite lookup_assign, lookup_prop_None by not_among_ne.
  - rewrite (demoteUser_eq w db Hdb _ _ a Hauth), Htarget. cbv zeta.
    destruct (accounts a !! userId) as [claims|] eqn:Hacc.
    + eexists _, _, _. split; [eapply logAdminAction_run; reflexivity|].
      rewrite stored_logged by done. rewrite adminAuth_logged.
      unfold stored_as, with_db, with_auth. cbn [adminDb adminAuth].
      rewrite collection_insert_eq, lookup_insert_eq.
      split; [reflexivity|]. split; [unfold prop; by rewrite lookup_assign|].
      split; [|by repeat split].
      intros k Hk. by rewrite lookup_assign, lookup_prop_None by not_among_ne.
    + eexists _, _, a. split; [eapply logAdminAction_run; reflexivity|].
      rewrite stored_logged by done. rewrite adminAuth_logged.
      unfold stored_as, with_db, with_report. cbn [adminDb adminAuth].
      rewrite collection_insert_eq, lookup_insert_eq.
      split; [reflexivity|]. split; [unfold prop; by rewrite lookup_assign|].
      split; [|by repeat split].
      intros k Hk. by rewrite lookup_assign, lookup_prop_None by not_among_ne.
Qed.

Lemma promote_and_demote_set_isAdmin_witness :
  (∃ w' promoted a',
     promoteUser "root" "u1" provider_world = (Ok tt, w') ∧
     stored "users" w' !! "u1" = Some promoted ∧
     prop "isAdmin" promoted = VBool true ∧
     (∀ k, k ≠ "isAdmin" →
           lookup_prop k promoted
           = lookup_prop k
               [("email", VStr "u1@example.org"); ("plan", VStr "Free");
                ("isAdmin", VBool false); ("messagesLimit", VNum 10)]) ∧
     adminAuth w' = Some a' ∧
     id_tokens a' = id_tokens demo_auth ∧
     accounts a' = <["u1" := [("admin", VBool true)]]> {[ "u1" := [] ]}) ∧
  (∃ w' demoted a',
     demoteUser "root" "root" demo_world = (Ok tt, w') ∧
     stored "users" w' !! "root" = Some demoted ∧
     prop "isAdmin" demoted = VBool false ∧
     (∀ k, k ≠ "isAdmin" →
           lookup_prop k demoted
           = lookup_prop k
               [("email", VStr "root@example.org"); ("isAdmin", VBool true)]) ∧
     adminAuth w' = Some a' ∧
     id_tokens a' = id_tokens demo_auth ∧
     accounts a' = ∅).
Proof.
  split.
  - exact (proj1 (promote_and_demote_set_isAdmin provider_world
             (MkAuth (id_tokens demo_auth) {[ "u1" := [] ]}) "root" "u1"
             [("email", VStr "u1@example.org"); ("plan", VStr "Free");
              ("isAdmin", VBool false); ("messagesLimit", VNum 10)]
             eq_refl eq_refl)).
  - exact (proj2 (promote_and_demote_set_isAdmin demo_world demo_auth
             "root" "root"
             [("email", VStr "root@example.org"); ("isAdmin", VBool true)]
             eq_refl eq_refl)).
Defined.

(** What a successful [promoteUser] or [demoteUser] started from and left
    behind. *)
Lemma isAdmin_switch_inv (switch : string → string → M unit) (flag : bool)
  (adminUid userId : string) (w w1 : World) :
  switch = promoteUser ∧ flag = true ∨ switch = demoteUser ∧ flag = false →
  switch adminUid userId w = (Ok tt, w1) →
  ∃ db1 a1 target,
    adminDb w1 = Some db1 ∧ adminAuth w1 = Some a1 ∧
    id_tokens <$> adminAuth w = Some (id_tokens a1) ∧
    collection "users" db1 !! userId
    = Some (assign target [("isAdmin", VBool flag)]).
Proof.
  intros Hswitch.
  destruct (adminDb w) as [db|] eqn:Hdb.
  2: { destruct Hswitch as [[-> ->]|[-> ->]];
         unfold promoteUser, demoteUser; by rewrite both_guard, Hdb. }
  destruct (adminAuth w) as [a|] eqn:Hauth.
  2: { destruct Hswitch as [[-> ->]|[-> ->]];
         unfold promoteUser, demoteUser; by rewrite both_guard, Hdb, Hauth. }
  assert (Hend : ∀ tag payload doc w0,
            adminDb w0 = Some (<["users" := <[userId := doc]>
                                   (collection "users" db)]> db) →
            (∃ a1, adminAuth w0 = Some a1 ∧ id_tokens a1 = id_tokens a) →
            logAdminAction adminUid tag payload w0 = (Ok tt, w1) →
            ∃ db1 a1,
              adminDb w1 = Some db1 ∧ adminAuth w1 = Some a1 ∧
              Some (id_tokens a) = Some (id_tokens a1) ∧
              collection "users" db1 !! userId = Some doc).
  { intros tag payload doc w0 H0 (a1 & Ha1 & Htok) Hlog.
    rewrite (logAdminAction_run w0 _ H0) in Hlog. injection Hlog as <-.
    destruct (logged_db adminUid tag payload _ w0 H0) as (db2 & Hdb2 & Hsame).
    exists db2, a1. rewrite adminAuth_logged, Hsame by done.
    rewrite collection_insert_eq, lookup_insert_eq, Htok. done. }
  destruct Hswitch as [[-> ->]|[-> ->]].
  - rewrite (promoteUser_eq w db Hdb _ _ a Hauth).
    destruct (collection "users" db !! userId) as [target|]; [|done].
    cbv zeta. intros Hlog.
    destruct (accounts a !! userId);
      (eapply Hend in Hlog as (db1 & a1 & ? & ? & ? & ?);
       [exists db1, a1, target; done|reflexivity|by eexists]).
  - rewrite (demoteUser_eq w db Hdb _ _ a Hauth).
    destruct (collection "users" db !! userId) as [target|]; [|done].
    cbv zeta. intros Hlog.
    destruct (accounts a !! userId);
      (eapply Hend in Hlog as (db1 & a1 & ? & ? & ? & ?);
       [exists db1, a1, target; done|reflexivity|by eexists]).
Qed.

Lemma isAdmin_after_switch (target : DocumentData) (flag : bool) :
  truthy (prop "isAdmin" (assign target [("isAdmin", VBool flag)])) = flag.
Proof. unfold prop. by rewrite lookup_assign. Qed.

(** X14. Once [promoteUser] has succeeded for a user, the service treats
    them as an admin: [banUser] and [deleteUser] refuse them, and
    [verifyAdmin] accepts their valid credential. *)
Theorem promoted_user_is_protected (w w1 : World)
  (admin1 admin2 userId reason : string) :
  promoteUser admin1 userId w = (Ok tt, w1) →
  banUser admin2 userId reason w1
  = (Throw (Error "Cannot ban admin users"), w1) ∧
  deleteUser admin2 userId w1
  = (Throw (Error "Cannot delete admin users"), w1) ∧
  ∀ a1 idToken,
    adminAuth w1 = Some a1 → id_tokens a1 !! idToken = Some userId →
    verifyAdmin idToken w1 = (Ok userId, w1).
Proof.
  intros (db1 & a1 & target & Hdb1 & Hauth1 & _ & Huser)%
    (isAdmin_switch_inv promoteUser true); [|by left].
  split; [|split].
  - by rewrite (banUser_eq w1 db1 Hdb1), Huser, isAdmin_after_switch.
  - by rewrite (deleteUser_eq w1 db1 Hdb1 _ _ a1 Hauth1), Huser,
      isAdmin_after_switch.
  - intros a idToken Ha Htoken.
    by rewrite (verifyAdmin_run w1 db1 a Hdb1 Ha idToken userId Htoken),
      Huser, isAdmin_after_switch.
Qed.

Lemma promoted_user_is_protected_witness :
  let w1 := (promoteUser "root" "u1" demo_world).2 in
  banUser "root" "u1" "spam" w1 = (Throw (Error "Cannot ban admin users"), w1) ∧
  deleteUser "root" "u1" w1
  = (Throw (Error "Cannot delete admin users"), w1) ∧
  ∀ a1 idToken,
    adminAuth w1 = Some a1 → id_tokens a1 !! idToken = Some "u1" →
    verifyAdmin idToken w1 = (Ok "u1", w1).
Proof.
  apply (promoted_user_is_protected demo_world _ "root" "root" "u1" "spam").
  by vm_compute.
Defined.

(** X15. Once [demoteUser] has succeeded for a user, [verifyAdmin] turns
    their valid credential down with "Unauthorized: Not an admin", and
    [banUser] no longer refuses them. *)
Theorem demoted_user_loses_access (w w1 : World)
  (admin1 admin2 userId reason : string) :
  demoteUser admin1 userId w = (Ok tt, w1) →
  (∃ w2, banUser admin2 userId reason w1 = (Ok tt, w2)) ∧
  ∀ a1 idToken,
    adminAuth w1 = Some a1 → id_tokens a1 !! idToken = Some userId →
    ∃ w2,
      verifyAdmin idToken w1
      = (Throw (Error "Unauthorized: Not an admin"), w2).
Proof.
  intros (db1 & a1 & target & Hdb1 & Hauth1 & _ & Huser)%
    (isAdmin_switch_inv demoteUser false); [|by right].
  split.
  - rewrite (banUser_eq w1 db1 Hdb1), Huser, isAdmin_after_switch.
    eexists. eapply logAdminAction_run. reflexivity.
  - intros a idToken Ha Htoken.
    rewrite (verifyAdmin_run w1 db1 a Hdb1 Ha idToken userId Htoken),
      Huser, isAdmin_after_switch.
    by eexists.
Qed.

Lemma demoted_user_loses_access_witness :
  let w1 := (demoteUser "root" "root" demo_world).2 in
  (∃ w2, banUser "root" "root" "spam" w1 = (Ok tt, w2)) ∧
  ∀ a1 idToken,
    adminAuth w1 = Some a1 → id_tokens a1 !! idToken = Some "root" →
    ∃ w2,
      verifyAdmin idToken w1
      = (Throw (Error "Unauthorized: Not an admin"), w2).
Proof.
  apply (demoted_user_loses_access demo_world _ "root" "root" "root" "spam").
  by vm_compute.
Defined.

(** *** Licenses *)

(** X16. [invalidateLicense] answers a key that is a document id and has
    no license with "License not found" and changes nothing; for a stored
    license it sets [valid] to [false], keeps the document and every other
    field of it. *)
Theorem invalidateLicense_clears_valid (w : World) (db : Firestore)
  (adminUid licenseKey : string) :
  adminDb w = Some db →
  match stored "licenses" w !! licenseKey with
  | None =>
      document_id licenseKey = true →
      invalidateLicense adminUid licenseKey w
      = (Throw (Error "License not found"), w)
  | Some license =>
      ∃ w' invalid,
        invalidateLicense adminUid licenseKey w = (Ok tt, w') ∧
        stored "licenses" w' !! licenseKey = Some invalid ∧
        prop "valid" invalid = VBool false ∧
        ∀ k, k ≠ "valid" → lookup_prop k invalid = lookup_prop k license
  end.
Proof.
  intros Hdb. unfold stored at 1. rewrite Hdb.
  rewrite (invalidateLicense_eq w db Hdb).
  destruct (collection "licenses" db !! licenseKey) as [license|]; [|done].
  after_update. split; [unfold prop; by rewrite lookup_assign|].
  intros k Hk. by rewrite lookup_assign, lookup_prop_None by not_among_ne.
Qed.

Lemma invalidateLicense_clears_valid_witness :
  invalidateLicense "root" "LIC-9-ZZZZZZZZZ" demo_world
  = (Throw (Error "License not found"), demo_world)
  ∧ ∃ w' invalid,
      invalidateLicense "root" "LIC-3-CCCCCCCCC" demo_world = (Ok tt, w') ∧
      stored "licenses" w' !! "LIC-3-CCCCCCCCC" = Some invalid ∧
      prop "valid" invalid = VBool false ∧
      ∀ k, k ≠ "valid" →
           lookup_prop k invalid = lookup_prop k [("plan", VStr "Free")].
Proof.
  split.
  - exact (invalidateLicense_clears_valid demo_world demo_db "root"
             "LIC-9-ZZZZZZZZZ" eq_refl eq_refl).
  - exact (invalidateLicense_clears_valid demo_world demo_db "root"
             "LIC-3-CCCCCCCCC" eq_refl).
Defined.

(** X17. [deleteLicense] answers a key that is a document id and has no
    license with "License not found" and changes nothing; a stored license
    is removed whether it is still valid or not, and no other license is
    touched. *)
Theorem deleteLicense_removes_any_license (w : World) (db : Firestore)
  (adminUid licenseKey : string) :
  adminDb w = Some db →
  match stored "licenses" w !! licenseKey with
  | None =>
      document_id licenseKey = true →
      deleteLicense adminUid licenseKey w
      = (Throw (Error "License not found"), w)
  | Some _ =>
      ∃ w',
        deleteLicense adminUid licenseKey w = (Ok tt, w') ∧
        stored "licenses" w' = delete licenseKey (stored "licenses" w)
  end.
Proof.
  intros Hdb. unfold stored. rewrite Hdb.
  rewrite (deleteLicense_eq w db Hdb).
  destruct (collection "licenses" db !! licenseKey) as [license|]; [|done].
  eexists. split; [eapply logAdminAction_run; reflexivity|].
  fold (stored "licenses"
          (logged adminUid "DELETE_LICENSE" [("licenseKey", VStr licenseKey)]
             (<["licenses" := delete licenseKey (collection "licenses" db)]> db)
             (with_db
                (<["licenses" :=
                     delete licenseKey (collection "licenses" db)]> db) w))).
  rewrite stored_logged by done. by rewrite collection_insert_eq.
Qed.

Lemma deleteLicense_removes_any_license_witness :
  deleteLicense "root" "LIC-9-ZZZZZZZZZ" demo_world
  = (Throw (Error "License not found"), demo_world)
  ∧ ∃ w',
      deleteLicense "root" "LIC-1-AAAAAAAAA" demo_world = (Ok tt, w') ∧
      stored "licenses" w'
      = delete "LIC-1-AAAAAAAAA" (stored "licenses" demo_world).
Proof.
  split.
  - exact (deleteLicense_removes_any_license demo_world demo_db "root"
             "LIC-9-ZZZZZZZZZ" eq_refl eq_refl).
  - exact (deleteLicense_removes_any_license demo_world demo_db "root"
             "LIC-1-AAAAAAAAA" eq_refl).
Defined.

(** The licenses once [purgeInvalidLicenses] has run against [db]. *)
Lemma purge_run (w : World) (db : Firestore) (adminUid : string) :
  adminDb w = Some db →
  ∃ w',
    purgeInvalidLicenses adminUid w
    = (Ok (size (matching (field_is_false "valid") (collection "licenses" db))),
       w') ∧
    stored "licenses" w'
    = without (field_is_false "valid") (collection "licenses" db).
Proof.
  intros Hdb. rewrite (purgeInvalidLicenses_eq w db Hdb). cbv zeta.
  eexists. split.
  { by rewrite (snapshot_size (field_is_false "valid")). }
  rewrite stored_logged by done.
  rewrite (purged_collection "licenses" (field_is_false "valid")).
  by rewrite decide_True.
Qed.

Lemma matching_without (test : DocumentData → bool) (m : Collection) :
  matching test (without test m) = ∅ ∧
  without test (without test m) = without test m.
Proof.
  unfold matching, without. split.
  - apply map_empty. intros k. apply map_lookup_filter_None. right.
    intros d Hd Htest. apply map_lookup_filter_Some in Hd as [_ Hd].
    simpl in *. congruence.
  - apply map_eq. intros k. apply option_eq. intros d.
    rewrite !map_lookup_filter_Some. tauto.
Qed.

(** X18. [purgeInvalidLicenses] is idempotent: run again right after a
    purge it finds nothing, returns 0 and leaves the licenses as the first
    run left them. *)
Theorem purge_twice (w w1 : World) (admin1 admin2 : string) (n : nat) :
  purgeInvalidLicenses admin1 w = (Ok n, w1) →
  ∃ w2,
    purgeInvalidLicenses admin2 w1 = (Ok 0%nat, w2) ∧
    stored "licenses" w2 = stored "licenses" w1.
Proof.
  intros Hfirst.
  destruct (adminDb w) as [db|] eqn:Hdb.
  2: { unfold purgeInvalidLicenses in Hfirst.
       by rewrite db_guard, Hdb in Hfirst. }
  rewrite (purgeInvalidLicenses_eq w db Hdb) in Hfirst. cbv zeta in Hfirst.
  injection Hfirst as _ <-.
  match goal with
  | |- context [logged ?u ?t ?p ?d ?w0] =>
      destruct (logged_db u t p d w0 eq_refl) as (db2 & Hdb2 & Hsame);
      set (w1 := logged u t p d w0) in *
  end.
  destruct (purge_run w1 db2 admin2 Hdb2) as (w2 & Hrun & Hlic).
  assert (Hpurged : collection "licenses" db2
                    = without (field_is_false "valid")
                        (collection "licenses" db)).
  { rewrite Hsame by done.
    rewrite (purged_collection "licenses" (field_is_false "valid")).
    by rewrite decide_True. }
  rewrite Hpurged in Hrun, Hlic.
  destruct (matching_without (field_is_false "valid")
              (collection "licenses" db)) as [Hnone Hsame'].
  rewrite Hnone, map_size_empty in Hrun. rewrite Hsame' in Hlic.
  exists w2. split; [exact Hrun|].
  rewrite Hlic. unfold stored. by rewrite Hdb2.
Qed.

Lemma purge_twice_witness :
  let w1 := (purgeInvalidLicenses "root" demo_world).2 in
  ∃ w2,
    purgeInvalidLicenses "root" w1 = (Ok 0%nat, w2) ∧
    stored "licenses" w2 = stored "licenses" w1.
Proof.
  apply (purge_twice demo_world _ "root" "root" 1).
  by vm_compute.
Defined.

(** The world after an audited write is again a world with a database,
    whose collections other than [admin_logs] are those just written. *)
Lemma purge_after_audit adminUid action payload (db1 : Firestore)
  (w1 : World) (admin2 : string) :
  adminDb w1 = Some db1 →
  ∃ w2,
    purgeInvalidLicenses admin2 (logged adminUid action payload db1 w1)
    = (Ok (size (matching (field_is_false "valid")
                   (collection "licenses" db1))), w2) ∧
    stored "licenses" w2
    = without (field_is_false "valid") (collection "licenses" db1).
Proof.
  intros H1.
  destruct (logged_db adminUid action payload db1 w1 H1)
    as (db2 & Hdb2 & Hsame).
  destruct (purge_run _ db2 admin2 Hdb2) as (w2 & Hrun & Hlic).
  rewrite Hsame in Hrun, Hlic by done. by exists w2.
Qed.

(** X19. Invalidating a stored license and then purging removes that
    license: the purge reports at least one deletion, the key is gone, and
    the other licenses fare as under a purge alone. *)
Theorem invalidate_then_purge (w : World) (admin1 admin2 licenseKey : string)
  (license : DocumentData) :
  stored "licenses" w !! licenseKey = Some license →
  ∃ w1 w2 n,
    invalidateLicense admin1 licenseKey w = (Ok tt, w1) ∧
    purgeInvalidLicenses admin2 w1 = (Ok n, w2) ∧
    (1 ≤ n)%nat ∧
    stored "licenses" w2 !! licenseKey = None ∧
    ∀ k, k ≠ licenseKey →
         stored "licenses" w2 !! k
         = without (field_is_false "valid") (stored "licenses" w) !! k.
Proof.
  intros Hstored.
  destruct (stored_Some _ _ _ _ Hstored) as (db & Hdb & Hl).
  rewrite (invalidateLicense_eq w db Hdb), Hl.
  set (invalid := assign license [("valid", VBool false)]).
  set (w0 := stored_as "licenses" licenseKey invalid db w).
  assert (Hinvalid : field_is_false "valid" invalid = true).
  { unfold field_is_false, invalid. by rewrite lookup_assign. }
  destruct (purge_after_audit admin1 "INVALIDATE_LICENSE"
              [("licenseKey", VStr licenseKey)] _ w0 admin2 eq_refl)
    as (w2 & Hrun & Hlic).
  rewrite collection_insert_eq in Hrun, Hlic.
  eexists _, w2, _. split; [by apply (logAdminAction_run w0)|].
  split; [exact Hrun|]. split; [|split].
  - assert (size (matching (field_is_false "valid")
                    (<[licenseKey := invalid]> (collection "licenses" db)))
            ≠ 0)%nat; [|lia].
    apply map_size_ne_0_lookup. exists licenseKey, invalid.
    apply map_lookup_filter_Some. by rewrite lookup_insert_eq.
  - rewrite Hlic. apply map_lookup_filter_None. right.
    intros d. rewrite lookup_insert_eq. intros [= <-]. simpl. congruence.
  - intros k Hk. rewrite Hlic. unfold without, stored. rewrite Hdb.
    by rewrite !map_lookup_filter, lookup_insert_ne.
Qed.

Lemma invalidate_then_purge_witness :
  ∃ w1 w2 n,
    invalidateLicense "root" "LIC-1-AAAAAAAAA" demo_world = (Ok tt, w1) ∧
    purgeInvalidLicenses "root" w1 = (Ok n, w2) ∧
    (1 ≤ n)%nat ∧
    stored "licenses" w2 !! "LIC-1-AAAAAAAAA" = None ∧
    ∀ k, k ≠ "LIC-1-AAAAAAAAA" →
         stored "licenses" w2 !! k
         = without (field_is_false "valid") (stored "licenses" demo_world)
             !! k.
Proof.
  eapply (invalidate_then_purge demo_world "root" "root" "LIC-1-AAAAAAAAA").
  by vm_compute.
Defined.

(** X20. [createLicense] stores the new license under the key it returns,
    replacing whatever that key held and touching no other license; the
    license names its plan, its validity and its creator, is valid and
    unused, and so a purge that follows keeps it. *)
Theorem createLicense_stores_valid_license (w : World) (db : Firestore)
  (adminUid admin2 : string) (plan : Plan) (validityDays : Z) :
  adminDb w = Some db →
  ∃ key license w',
    createLicense adminUid plan validityDays w = (Ok key, w') ∧
    stored "licenses" w' = <[key := license]> (stored "licenses" w) ∧
    prop "plan" license = VStr (plan_name plan) ∧
    prop "valid" license = VBool true ∧
    prop "createdBy" license = VStr adminUid ∧
    prop "validityDays" license = VNum validityDays ∧
    lookup_prop "usedBy" license = None ∧
    ∃ n w2,
      purgeInvalidLicenses admin2 w' = (Ok n, w2) ∧
      stored "licenses" w2 !! key = Some license.
Proof.
  intros Hdb. rewrite (createLicense_eq w db Hdb). cbv zeta.
  match goal with
  | |- context [logged ?u ?t ?p ?d ?w0] =>
      destruct (purge_after_audit u t p d w0 admin2 eq_refl)
        as (w2 & Hrun & Hlic)
  end.
  rewrite collection_insert_eq in Hrun, Hlic.
  eexists _, _, _. split; [reflexivity|].
  rewrite stored_logged, collection_insert_eq by done.
  split; [unfold stored; by rewrite Hdb|].
  do 5 (split; [reflexivity|]).
  eexists _, w2. split; [exact Hrun|].
  rewrite Hlic. apply map_lookup_filter_Some.
  by rewrite lookup_insert_eq.
Qed.

Lemma createLicense_stores_valid_license_witness :
  ∃ key license w',
    createLicense "root" Pro 30 demo_world = (Ok key, w') ∧
    stored "licenses" w' = <[key := license]> (stored "licenses" demo_world) ∧
    prop "plan" license = VStr (plan_name Pro) ∧
    prop "valid" license = VBool true ∧
    prop "createdBy" license = VStr "root" ∧
    prop "validityDays" license = VNum 30 ∧
    lookup_prop "usedBy" license = None ∧
    ∃ n w2,
      purgeInvalidLicenses "root" w' = (Ok n, w2) ∧
      stored "licenses" w2 !! key = Some license.
Proof.
  exact (createLicense_stores_valid_license demo_world demo_db "root" "root"
           Pro 30 eq_refl).
Defined.

(** *** The list of banned users and the statistics *)

Lemma getBannedUsers_run (w : World) (db : Firestore) :
  adminDb w = Some db →
  getBannedUsers w
  = (Ok (map banned_view
           (filter (λ d, field_is_true "isBanned" d.2 = true)
              (map_to_list (collection "users" db)))), w).
Proof.
  intros Hdb. unfold getBannedUsers. rewrite db_guard, Hdb.
  unfold bind, coll_where_get, bind, firestore. by rewrite Hdb.
Qed.

Lemma field_is_true_lookup (field : string) (d : DocumentData) :
  field_is_true field d = true ↔ lookup_prop field d = Some (VBool true).
Proof.
  unfold field_is_true.
  destruct (lookup_prop field d) as [[| |[]| | | | | |]|]; split; congruence.
Qed.

(** What [getBannedUsers] lists, by user. *)
Lemma getBannedUsers_lists (w : World) (db : Firestore) :
  adminDb w = Some db →
  ∃ views,
    getBannedUsers w = (Ok views, w) ∧
    length views
    = size (matching (field_is_true "isBanned") (collection "users" db)) ∧
    ∀ view,
      view ∈ views ↔
      ∃ id d, collection "users" db !! id = Some d ∧
              lookup_prop "isBanned" d = Some (VBool true) ∧
              view = banned_view (id, d).
Proof.
  intros Hdb. eexists. split; [by apply getBannedUsers_run|]. split.
  { rewrite length_map. apply (snapshot_size (field_is_true "isBanned")). }
  intros view. rewrite list_elem_of_fmap. split.
  - intros ([id d] & -> & [Hd Hin%elem_of_map_to_list]%list_elem_of_filter).
    exists id, d. by rewrite <-field_is_true_lookup.
  - intros (id & d & Hin & Hd & ->). exists (id, d). split; [done|].
    apply list_elem_of_filter. split; [by apply field_is_true_lookup|].
    by apply elem_of_map_to_list.
Qed.

Lemma banned_view_uid (id : string) (d : DocumentData) :
  prop "uid" (banned_view (id, d)) = VStr id.
Proof. reflexivity. Qed.

(** X21. With a database, [getBannedUsers] changes nothing and lists one
    entry for each user whose [isBanned] is the boolean [true], and nothing
    else; a user whose [isBanned] is absent, [false] or some other value is
    not listed. *)
Theorem getBannedUsers_lists_banned (w : World) (db : Firestore) :
  adminDb w = Some db →
  ∃ views,
    getBannedUsers w = (Ok views, w) ∧
    length views = size (matching (field_is_true "isBanned") (stored "users" w)) ∧
    ∀ view,
      view ∈ views ↔
      ∃ id d, stored "users" w !! id = Some d ∧
              lookup_prop "isBanned" d = Some (VBool true) ∧
              view = banned_view (id, d).
Proof.
  intros Hdb. unfold stored. rewrite Hdb. by apply getBannedUsers_lists.
Qed.

Lemma getBannedUsers_lists_banned_witness :
  ∃ views,
    getBannedUsers demo_world = (Ok views, demo_world) ∧
    length views
    = size (matching (field_is_true "isBanned") (stored "users" demo_world)) ∧
    ∀ view,
      view ∈ views ↔
      ∃ id d, stored "users" demo_world !! id = Some d ∧
              lookup_prop "isBanned" d = Some (VBool true) ∧
              view = banned_view (id, d).
Proof.
  exact (getBannedUsers_lists_banned demo_world demo_db eq_refl).
Defined.

(** The list of banned users after one user document was rewritten and
    the audit ran. *)
Lemma getBannedUsers_after_update adminUid action payload (w w0 : World)
  (db : Firestore) (userId : string) (doc : DocumentData) :
  adminDb w = Some db →
  ∃ before views,
    getBannedUsers w = (Ok before, w) ∧
    getBannedUsers
      (logged adminUid action payload
         (<["users" := <[userId := doc]> (collection "users" db)]> db)
         (stored_as "users" userId doc db w0))
    = (Ok views,
       logged adminUid action payload
         (<["users" := <[userId := doc]> (collection "users" db)]> db)
         (stored_as "users" userId doc db w0)) ∧
    ∀ view,
      view ∈ views ↔
      (lookup_prop "isBanned" doc = Some (VBool true) ∧
       view = banned_view (userId, doc)) ∨
      (view ∈ before ∧ prop "uid" view ≠ VStr userId).
Proof.
  intros Hdb.
  destruct (getBannedUsers_lists w db Hdb) as (before & Hbefore & _ & Hin).
  destruct (logged_db adminUid action payload
              (<["users" := <[userId := doc]> (collection "users" db)]> db)
              (stored_as "users" userId doc db w0) eq_refl)
    as (db2 & Hdb2 & Hsame).
  destruct (getBannedUsers_lists _ db2 Hdb2) as (views & Hviews & _ & Hin').
  exists before, views. split; [done|]. split; [done|].
  intros view. rewrite Hin', Hin, Hsame, collection_insert_eq by done.
  split.
  - intros (id & d & Hd & Hbanned & ->).
    destruct (decide (id = userId)) as [->|Hid].
    + rewrite lookup_insert_eq in Hd. injection Hd as <-. by left.
    + rewrite lookup_insert_ne in Hd by done. right. split; [by eauto|].
      rewrite banned_view_uid. congruence.
  - intros [[Hbanned ->]|[(id & d & Hd & Hbanned & ->) Hid]].
    + exists userId, doc. by rewrite lookup_insert_eq.
    + exists id, d. rewrite banned_view_uid in Hid.
      rewrite lookup_insert_ne by congruence. done.
Qed.

(** X22. Once [banUser] has banned a user, [getBannedUsers] lists that
    user with the reason, the banning admin and the time of the ban, next
    to the entries of the other users it listed before. *)
Theorem banned_user_is_listed (w : World) (adminUid userId reason : string)
  (target : DocumentData) :
  stored "users" w !! userId = Some target →
  truthy (prop "isAdmin" target) = false →
  ∃ w' before views entry,
    banUser adminUid userId reason w = (Ok tt, w') ∧
    getBannedUsers w = (Ok before, w) ∧
    getBannedUsers w' = (Ok views, w') ∧
    (∀ view, view ∈ views ↔
             view = entry ∨ (view ∈ before ∧ prop "uid" view ≠ VStr userId)) ∧
    entry = [("uid", VStr userId);
             ("email", prop "email" target);
             ("displayName", prop "displayName" target);
             ("bannedAt", VTimestamp (Z.of_N (clock w)));
             ("bannedBy", VStr adminUid);
             ("banReason", VStr reason)].
Proof.
  intros (db & Hdb & Htarget)%stored_Some Hadmin.
  rewrite (banUser_eq w db Hdb), Htarget, Hadmin.
  erewrite logAdminAction_run by reflexivity.
  set (banned := assign target _).
  destruct (getBannedUsers_after_update adminUid "BAN_USER"
              [("targetUser", VStr userId); ("reason", VStr reason)]
              w (after_tick w) db userId banned Hdb)
    as (before & views & Hbefore & Hviews & Hin).
  eexists _, before, views, (banned_view (userId, banned)).
  split; [reflexivity|]. split; [done|]. split; [exact Hviews|]. split.
  - intros view. rewrite Hin. unfold banned at 1.
    rewrite lookup_assign. simpl. tauto.
  - unfold banned_view, banned, prop. cbn [fst snd].
    by rewrite !lookup_assign.
Qed.

Lemma banned_user_is_listed_witness :
  ∃ w' before views entry,
    banUser "root" "u1" "spam" demo_world = (Ok tt, w') ∧
    getBannedUsers demo_world = (Ok before, demo_world) ∧
    getBannedUsers w' = (Ok views, w') ∧
    (∀ view, view ∈ views ↔
             view = entry ∨ (view ∈ before ∧ prop "uid" view ≠ VStr "u1")) ∧
    entry = [("uid", VStr "u1");
             ("email", VStr "u1@example.org");
             ("displayName", VUndefined);
             ("bannedAt", VTimestamp (Z.of_N (clock demo_world)));
             ("bannedBy", VStr "root");
             ("banReason", VStr "spam")].
Proof.
  apply (banned_user_is_listed demo_world "root" "u1" "spam"
           [("email", VStr "u1@example.org"); ("plan", VStr "Free");
            ("isAdmin", VBool false); ("messagesLimit", VNum 10)]);
    reflexivity.
Defined.

(** X23. Once [unbanUser] has run for a user, [getBannedUsers] no longer
    lists that user and lists the others exactly as before. *)
Theorem unbanned_user_is_not_listed (w : World) (adminUid userId : string)
  (target : DocumentData) :
  stored "users" w !! userId = Some target →
  ∃ w' before views,
    unbanUser adminUid userId w = (Ok tt, w') ∧
    getBannedUsers w = (Ok before, w) ∧
    getBannedUsers w' = (Ok views, w') ∧
    ∀ view, view ∈ views ↔ view ∈ before ∧ prop "uid" view ≠ VStr userId.
Proof.
  intros (db & Hdb & Htarget)%stored_Some.
  rewrite (unbanUser_eq w db Hdb), Htarget.
  erewrite logAdminAction_run by reflexivity.
  set (cleared := assign target _).
  destruct (getBannedUsers_after_update adminUid "UNBAN_USER"
              [("targetUser", VStr userId)] w w db userId cleared Hdb)
    as (before & views & Hbefore & Hviews & Hin).
  eexists _, before, views.
  split; [reflexivity|]. split; [done|]. split; [exact Hviews|].
  intros view. rewrite Hin. unfold cleared at 1.
  rewrite lookup_assign. simpl. split; [|tauto].
  by intros [[[=] _]|?].
Qed.

Lemma unbanned_user_is_not_listed_witness :
  let banned := (banUser "root" "u1" "spam" demo_world).2 in
  ∃ w' before views,
    unbanUser "root" "u1" banned = (Ok tt, w') ∧
    getBannedUsers banned = (Ok before, banned) ∧
    getBannedUsers w' = (Ok views, w') ∧
    ∀ view, view ∈ views ↔ view ∈ before ∧ prop "uid" view ≠ VStr "u1".
Proof.
  eapply (unbanned_user_is_not_listed _ "root" "u1").
  by vm_compute.
Defined.

Lemma getSystemStats_run (w : World) (db : Firestore) :
  adminDb w = Some db →
  getSystemStats w
  = (Ok (MkSystemStats
           (length (map_to_list (collection "users" db)))
           (count_if (λ data, truthy (prop "isAdmin" data))
              (map_to_list (collection "users" db)))
           (count_if (λ data, truthy (prop "isBanned" data))
              (map_to_list (collection "users" db)))
           (count_if (λ data, not_false (prop "valid" data))
              (map_to_list (collection "licenses" db)))
           "Optimal" 99.95%Q 45 2.5%Q 100), w).
Proof.
  intros Hdb. unfold getSystemStats. rewrite db_guard, Hdb.
  unfold bind, coll_get, bind, firestore, ret.
  by repeat (rewrite Hdb; cbn beta iota).
Qed.

Lemma count_if_le (test : DocumentData → bool) (docs : QuerySnapshot) :
  (count_if test docs ≤ length docs)%nat.
Proof. rewrite count_if_length. apply length_filter. Qed.

Lemma count_if_covers (test1 test2 : DocumentData → bool)
  (docs : QuerySnapshot) :
  (∀ d, test1 d = true → test2 d = true) →
  (length (filter (λ d, test1 d.2 = true) docs) ≤ count_if test2 docs)%nat.
Proof.
  intros Himp. rewrite count_if_length.
  induction docs as [|d docs IH]; [done|].
  rewrite !filter_cons.
  destruct (decide (test1 d.2 = true)) as [H1|H1].
  - rewrite decide_True by auto. simpl. lia.
  - destruct (decide (test2 d.2 = true)); simpl; lia.
Qed.

Lemma active_and_invalid (docs : QuerySnapshot) :
  (count_if (λ data, not_false (prop "valid" data)) docs
   + length (filter (λ d, field_is_false "valid" d.2 = true) docs)
   = length docs)%nat.
Proof.
  rewrite count_if_length.
  induction docs as [|d docs IH]; [done|].
  rewrite !filter_cons.
  assert (Hd : not_false (prop "valid" d.2)
               = negb (field_is_false "valid" d.2)).
  { unfold field_is_false, prop.
    by destruct (lookup_prop "valid" d.2) as [[| |[]| | | | | |]|]. }
  destruct (field_is_false "valid" d.2) eqn:Hfalse; simpl in Hd.
  - rewrite decide_False, decide_True by congruence. simpl. lia.
  - rewrite decide_True, decide_False by congruence. simpl. lia.
Qed.

(** X24. With a database, [getSystemStats] changes nothing; [totalUsers]
    is the number of user documents and bounds [totalAdmins] and
    [bannedUsers]; [bannedUsers] is at least the length of the list that
    [getBannedUsers] returns; and [activeLicenses] counts exactly the
    licenses that [purgeInvalidLicenses] would not delete. *)
Theorem getSystemStats_counts (w : World) (db : Firestore)
  (adminUid : string) :
  adminDb w = Some db →
  ∃ stats banned purged w',
    getSystemStats w = (Ok stats, w) ∧
    getBannedUsers w = (Ok banned, w) ∧
    purgeInvalidLicenses adminUid w = (Ok purged, w') ∧
    totalUsers stats = size (stored "users" w) ∧
    (totalAdmins stats ≤ totalUsers stats)%nat ∧
    (length banned ≤ bannedUsers stats)%nat ∧
    (bannedUsers stats ≤ totalUsers stats)%nat ∧
    (activeLicenses stats + purged)%nat = size (stored "licenses" w).
Proof.
  intros Hdb.
  eexists _, _, _, _. split; [by apply getSystemStats_run|].
  split; [by apply getBannedUsers_run|].
  split; [by apply (purgeInvalidLicenses_eq w db Hdb)|].
  cbv zeta. cbn [totalUsers totalAdmins bannedUsers activeLicenses].
  unfold stored. rewrite Hdb.
  split; [apply length_map_to_list|].
  split; [apply count_if_le|].
  split.
  { rewrite length_map.
    apply (count_if_covers (field_is_true "isBanned")
             (λ data, truthy (prop "isBanned" data))).
    intros d Hd%field_is_true_lookup. unfold prop. by rewrite Hd. }
  split; [apply count_if_le|].
  rewrite <-length_map_to_list. apply active_and_invalid.
Qed.

Lemma getSystemStats_counts_witness :
  ∃ stats banned purged w',
    getSystemStats demo_world = (Ok stats, demo_world) ∧
    getBannedUsers demo_world = (Ok banned, demo_world) ∧
    purgeInvalidLicenses "root" demo_world = (Ok purged, w') ∧
    totalUsers stats = size (stored "users" demo_world) ∧
    (totalAdmins stats ≤ totalUsers stats)%nat ∧
    (length banned ≤ bannedUsers stats)%nat ∧
    (bannedUsers stats ≤ totalUsers stats)%nat ∧
    (activeLicenses stats + purged)%nat = size (stored "licenses" demo_world).
Proof.
  exact (getSystemStats_counts demo_world demo_db "root" eq_refl).
Defined.

(** *** The maintenance document *)

Lemma merge_value_scalar (new old : value) :
  (∀ o, new ≠ VObject o) → merge_value new old = new.
Proof. intros Hnew. destruct new; try reflexivity. by destruct (Hnew props). Qed.

(** [set(data, {merge: true})] field by field, for data whose keys are
    distinct. *)
Lemma lookup_merge_props (k : string) (upd cur : DocumentData) :
  NoDup upd.*1 →
  lookup_prop k (merge_props upd cur)
  = match lookup_prop k upd with
    | Some v => Some (match lookup_prop k cur with
                      | Some old => merge_value v old
                      | None => v
                      end)
    | None => lookup_prop k cur
    end.
Proof.
  revert cur. induction upd as [|[k' v] upd IH]; intros cur Hupd; [done|].
  apply NoDup_cons in Hupd as [Hk' Hupd]. cbn [merge_props lookup_prop].
  rewrite IH by done. rewrite lookup_set_prop.
  destruct (decide (k = k')) as [->|Hk]; [|done].
  by rewrite (lookup_prop_None k' upd).
Qed.

Lemma lookup_merged_maintenance (db : Firestore) (data : DocumentData)
  (k : string) :
  NoDup data.*1 →
  lookup_prop k (merged_maintenance db data)
  = match lookup_prop k data with
    | Some v =>
        Some (match lookup_prop k
                      (default [] (collection "config" db !! "maintenance"))
              with
              | Some old => merge_value v old
              | None => v
              end)
    | None =>
        lookup_prop k (default [] (collection "config" db !! "maintenance"))
    end.
Proof.
  intros Hdata. unfold merged_maintenance.
  destruct (collection "config" db !! "maintenance") as [cur|]; simpl.
  - by apply lookup_merge_props.
  - by destruct (lookup_prop k data).
Qed.

(** A top-level field that is not a map replaces the stored one. *)
Lemma merged_top (db : Firestore) (data : DocumentData) (k : string)
  (v : value) :
  NoDup data.*1 → lookup_prop k data = Some v → (∀ o, v ≠ VObject o) →
  lookup_prop k (merged_maintenance db data) = Some v.
Proof.
  intros Hdata Hk Hv. rewrite lookup_merged_maintenance, Hk by done.
  cbn beta iota.
  destruct (lookup_prop k (default _ _)); [|done].
  by rewrite merge_value_scalar.
Qed.

(** A map under [service] is merged into the stored one: its own fields
    replace the stored ones, the other stored fields stay. *)
Lemma merged_nested (db : Firestore) (service : string)
  (upd : DocumentData) (k : string) :
  NoDup upd.*1 → (∀ j v o, lookup_prop j upd = Some v → v ≠ VObject o) →
  nested_prop k (prop service (merged_maintenance db [(service, VObject upd)]))
  = match lookup_prop k upd with
    | Some v => Some v
    | None =>
        nested_prop k
          (prop service
             (default [] (collection "config" db !! "maintenance")))
    end.
Proof.
  intros Hupd Hscalar. unfold prop.
  rewrite lookup_merged_maintenance
    by (apply NoDup_singleton).
  cbn [lookup_prop]. rewrite decide_True by done. cbn [default from_option id].
  destruct (lookup_prop service _) as [old|]; cbn [default from_option id].
  - destruct old; try (cbn [merge_value nested_prop];
                       by destruct (lookup_prop k upd)).
    rewrite merge_value_object. cbn [nested_prop].
    rewrite lookup_merge_props by done.
    destruct (lookup_prop k upd) as [v|] eqn:Hk; [|done].
    destruct (lookup_prop k props); [|done].
    rewrite merge_value_scalar; [done|]. intros o. by eapply Hscalar.
  - cbn [nested_prop]. by destruct (lookup_prop k upd).
Qed.

Lemma getMaintenanceStatus_run (w : World) (db : Firestore) :
  adminDb w = Some db →
  getMaintenanceStatus w
  = (Ok (match collection "config" db !! "maintenance" with
         | Some data => data
         | None => [("isGlobalMaintenance", VBool false);
                    ("partialServices", VArray []);
                    ("plannedMaintenance", VNull)]
         end), w).
Proof.
  intros Hdb. unfold getMaintenanceStatus.
  rewrite db_guard, Hdb, (doc_get_bind w db Hdb).
  by destruct (collection "config" db !! "maintenance").
Qed.

(** The audit that ends a maintenance command, and what
    [getMaintenanceStatus] reads afterwards. *)
Lemma audited_maintenance adminUid action payload (db : Firestore)
  (w0 : World) (doc : DocumentData) :
  ∃ w' db',
    logAdminAction adminUid action payload
      (stored_as "config" "maintenance" doc db w0) = (Ok tt, w') ∧
    adminDb w' = Some db' ∧
    collection "config" db' !! "maintenance" = Some doc ∧
    maintenance_doc w' = doc ∧
    getMaintenanceStatus w' = (Ok doc, w').
Proof.
  destruct (logged_db adminUid action payload
              (<["config" := <["maintenance" := doc]>
                               (collection "config" db)]> db)
              (stored_as "config" "maintenance" doc db w0) eq_refl)
    as (db' & Hdb' & Hsame).
  assert (Hdoc : collection "config" db' !! "maintenance" = Some doc).
  { rewrite Hsame, collection_insert_eq by done. apply lookup_insert_eq. }
  eexists _, db'. split; [eapply logAdminAction_run; reflexivity|].
  split; [exact Hdb'|]. split; [exact Hdoc|]. split.
  - unfold maintenance_doc, stored. by rewrite Hdb', Hdoc.
  - rewrite (getMaintenanceStatus_run _ db' Hdb'). by rewrite Hdoc.
Qed.

Ltac distinct_keys := apply (bool_decide_unpack _); by vm_compute.

(** Reads a top-level field that the command has just merged in. *)
Ltac merged_scalar :=
  unfold prop; erewrite merged_top;
  [reflexivity|distinct_keys|reflexivity|intros o; discriminate].

(** X25. After [enableGlobalMaintenance], [getMaintenanceStatus] reports
    the switch on, with the message (a default when none or an empty one
    was given), the time and the admin; after [disableGlobalMaintenance] it
    reports the switch off and every other field, the message included, as
    the enabling call left it. *)
Theorem global_maintenance_round_trip (w : World) (db : Firestore)
  (admin1 admin2 : string) (message : option string) :
  adminDb w = Some db →
  ∃ w1 w2 on off,
    enableGlobalMaintenance admin1 message w = (Ok tt, w1) ∧
    getMaintenanceStatus w1 = (Ok on, w1) ∧
    prop "isGlobalMaintenance" on = VBool true ∧
    prop "message" on
    = VStr (or_string message "System maintenance in progress") ∧
    prop "enabledAt" on = VTimestamp (Z.of_N (clock w)) ∧
    prop "enabledBy" on = VStr admin1 ∧
    disableGlobalMaintenance admin2 w1 = (Ok tt, w2) ∧
    getMaintenanceStatus w2 = (Ok off, w2) ∧
    prop "isGlobalMaintenance" off = VBool false ∧
    ∀ k, k ≠ "isGlobalMaintenance" → lookup_prop k off = lookup_prop k on.
Proof.
  intros Hdb. rewrite (enableGlobalMaintenance_eq w db Hdb).
  set (on := merged_maintenance db _).
  destruct (audited_maintenance admin1 "ENABLE_GLOBAL_MAINTENANCE"
              [("message", of_optional message)] db (after_tick w) on)
    as (w1 & db1 & Hrun1 & Hdb1 & Hdoc1 & _ & Hstatus1).
  set (off := merged_maintenance db1 [("isGlobalMaintenance", VBool false)]).
  destruct (audited_maintenance admin2 "DISABLE_GLOBAL_MAINTENANCE" []
              db1 w1 off)
    as (w2 & db2 & Hrun2 & Hdb2 & Hdoc2 & _ & Hstatus2).
  exists w1, w2, on, off.
  split; [exact Hrun1|]. split; [exact Hstatus1|].
  do 4 (split; [unfold on; merged_scalar|]).
  split; [by rewrite (disableGlobalMaintenance_eq w1 db1 Hdb1)|].
  split; [exact Hstatus2|].
  split; [unfold off; merged_scalar|].
  intros k Hk. unfold off.
  rewrite lookup_merged_maintenance_other by not_among_ne.
  by rewrite Hdoc1.
Qed.

Lemma global_maintenance_round_trip_witness :
  ∃ w1 w2 on off,
    enableGlobalMaintenance "root" (Some "") demo_world = (Ok tt, w1) ∧
    getMaintenanceStatus w1 = (Ok on, w1) ∧
    prop "isGlobalMaintenance" on = VBool true ∧
    prop "message" on = VStr "System maintenance in progress" ∧
    prop "enabledAt" on = VTimestamp (Z.of_N (clock demo_world)) ∧
    prop "enabledBy" on = VStr "root" ∧
    disableGlobalMaintenance "root" w1 = (Ok tt, w2) ∧
    getMaintenanceStatus w2 = (Ok off, w2) ∧
    prop "isGlobalMaintenance" off = VBool false ∧
    ∀ k, k ≠ "isGlobalMaintenance" → lookup_prop k off = lookup_prop k on.
Proof.
  exact (global_maintenance_round_trip demo_world demo_db "root" "root"
           (Some "") eq_refl).
Defined.

(** The entry that [logAdminAction] hands to the store holds [undefined]
    exactly when its [data] does, or when [data.ipAddress] is a value that
    does. *)
Lemma has_undefined_entry (adminUid action : string) (data : DocumentData)
  (now : Z) :
  has_undefined_props (log_entry adminUid action data now)
  = has_undefined_props data
    || has_undefined (js_or (prop "ipAddress" data) (VStr "unknown")).
Proof.
  unfold has_undefined_props, log_entry.
  change (has_undefined (VStr adminUid)
          || (has_undefined (VStr action)
              || (has_undefined (VObject data)
                  || (has_undefined (VTimestamp now)
                      || (has_undefined
                            (js_or (prop "ipAddress" data) (VStr "unknown"))
                          || false))))
          = has_undefined (VObject data)
            || has_undefined (js_or (prop "ipAddress" data) (VStr "unknown"))).
  cbn [has_undefined orb]. by rewrite orb_false_r.
Qed.

(** The audit of a maintenance command that takes a message: skipped
    without one, written with one. *)
Lemma optional_message_audit adminUid action (more : DocumentData)
  (message : option string) (db : Firestore) (doc : DocumentData)
  (w w0 : World) :
  adminDb w = Some db →
  adminDb w0 = Some db → console w0 = console w →
  has_undefined_props more = false →
  prop "ipAddress" (more ++ [("message", of_optional message)])%list = VUndefined →
  ∃ w',
    logAdminAction adminUid action
      (more ++ [("message", of_optional message)])%list
      (stored_as "config" "maintenance" doc db w0) = (Ok tt, w') ∧
    match message with
    | None =>
        stored "admin_logs" w' = stored "admin_logs" w ∧
        ∃ line, console w' = (console w ++ [line])%list
    | Some _ =>
        size (stored "admin_logs" w') = S (size (stored "admin_logs" w)) ∧
        console w' = console w
    end.
Proof.
  intros Hdb Hdb0 Hconsole Hmore Hip.
  eexists. split; [eapply logAdminAction_run; reflexivity|].
  assert (Hlogs : stored "admin_logs"
                    (stored_as "config" "maintenance" doc db w0)
                  = stored "admin_logs" w).
  { unfold stored, stored_as, with_db. cbn [adminDb]. rewrite Hdb.
    by apply collection_insert_ne. }
  assert (Hpayload : has_undefined_props
                       (more ++ [("message", of_optional message)])%list
                     = match message with None => true | Some _ => false end).
  { unfold has_undefined_props in *. clear Hip.
    induction more as [|[k v] more IH].
    - by destruct message.
    - change (has_undefined v || has_undefined (VObject more) = false)
        in Hmore.
      apply orb_false_iff in Hmore as [Hv Hmore'].
      change (has_undefined v
              || has_undefined
                   (VObject (more ++ [("message", of_optional message)])%list)
              = match message with None => true | Some _ => false end).
      by rewrite Hv, IH. }
  destruct message as [m|].
  - edestruct (logged_appends adminUid action
                 (more ++ [("message", of_optional (Some m))])%list
                 (<["config" := <["maintenance" := doc]>
                                  (collection "config" db)]> db)
                 (stored_as "config" "maintenance" doc db w0) eq_refl)
      as (id & Hid & Hnew).
    { by rewrite has_undefined_entry, Hpayload, Hip. }
    split.
    + rewrite Hnew, map_size_insert_None by done. by rewrite Hlogs.
    + unfold logged. rewrite has_undefined_entry, Hpayload, Hip. exact Hconsole.
  - unfold logged. rewrite has_undefined_entry, Hpayload.
    cbn [orb]. split; [exact Hlogs|].
    eexists. cbn [console with_report after_tick stored_as with_db].
    by rewrite Hconsole.
Qed.

(** X26. The five commands that take an optional message pass it on to
    the audit as given: without a message the payload holds [undefined],
    the store refuses the entry, and the command succeeds with the audit
    log as it was and one more line on the console; with a message the log
    gains one entry and the console stays as it was. *)
Theorem maintenance_audit_needs_message (w : World) (db : Firestore)
  (adminUid plannedTime : string) (services : list string)
  (message : option string) (c : Command) :
  adminDb w = Some db →
  c ∈ [EnableGlobalMaintenance message;
       EnablePartialMaintenance services message;
       EnableIAMaintenance message;
       EnableLicenseMaintenance message;
       EnablePlannedMaintenance plannedTime message] →
  ∃ w',
    run adminUid c w = (Ok tt, w') ∧
    match message with
    | None =>
        stored "admin_logs" w' = stored "admin_logs" w ∧
        ∃ line, console w' = (console w ++ [line])%list
    | Some _ =>
        size (stored "admin_logs" w') = S (size (stored "admin_logs" w)) ∧
        console w' = console w
    end.
Proof.
  intros Hdb Hc.
  repeat (apply elem_of_cons in Hc as [->|Hc]); [..|by apply elem_of_nil in Hc];
    cbn [run].
  - rewrite (enableGlobalMaintenance_eq w db Hdb).
    by apply (optional_message_audit adminUid _ [] message db _ w).
  - rewrite (enablePartialMaintenance_eq w db Hdb).
    apply (optional_message_audit adminUid _
             [("services", VArray (map VStr services))] message db _ w);
      try done.
    unfold has_undefined_props.
    change (has_undefined (VArray (map VStr services)) || false = false).
    by rewrite has_undefined_strings.
  - rewrite (enableIAMaintenance_eq w db Hdb).
    by apply (optional_message_audit adminUid _ [] message db _ w).
  - rewrite (enableLicenseMaintenance_eq w db Hdb).
    by apply (optional_message_audit adminUid _ [] message db _ w).
  - rewrite (enablePlannedMaintenance_eq w db Hdb).
    by apply (optional_message_audit adminUid _
                [("plannedTime", VStr plannedTime)] message db _ w).
Qed.

Lemma maintenance_audit_needs_message_witness :
  (∃ w',
     run "root" (EnableIAMaintenance None) demo_world = (Ok tt, w') ∧
     stored "admin_logs" w' = stored "admin_logs" demo_world ∧
     ∃ line, console w' = (console demo_world ++ [line])%list) ∧
  (∃ w',
     run "root" (EnableIAMaintenance (Some "Model upgrade")) demo_world
     = (Ok tt, w') ∧
     size (stored "admin_logs" w') = S (size (stored "admin_logs" demo_world)) ∧
     console w' = console demo_world).
Proof.
  split.
  - apply (maintenance_audit_needs_message demo_world demo_db "root"
             "2024-01-01T00:00:00Z" ["chat"] None (EnableIAMaintenance None)
             eq_refl).
    do 2 apply list_elem_of_further. apply list_elem_of_here.
  - apply (maintenance_audit_needs_message demo_world demo_db "root"
             "2024-01-01T00:00:00Z" ["chat"] (Some "Model upgrade")
             (EnableIAMaintenance (Some "Model upgrade")) eq_refl).
    do 2 apply list_elem_of_further. apply list_elem_of_here.
Defined.

(** A command that merges one map under [service] into the maintenance
    document: what [getMaintenanceStatus] reads under [service]
    afterwards. *)
Lemma switched_service adminUid action payload (service : string)
  (upd : DocumentData) (w w0 : World) (db : Firestore) :
  adminDb w = Some db → NoDup upd.*1 →
  (∀ j v o, lookup_prop j upd = Some v → v ≠ VObject o) →
  ∃ w' status,
    logAdminAction adminUid action payload
      (stored_as "config" "maintenance"
         (merged_maintenance db [(service, VObject upd)]) db w0)
    = (Ok tt, w') ∧
    getMaintenanceStatus w' = (Ok status, w') ∧
    maintenance_doc w' = status ∧
    ∀ k, nested_prop k (prop service status)
         = match lookup_prop k upd with
           | Some v => Some v
           | None => nested_prop k (prop service (maintenance_doc w))
           end.
Proof.
  intros Hdb Hupd Hscalar.
  destruct (audited_maintenance adminUid action payload db w0
              (merged_maintenance db [(service, VObject upd)]))
    as (w' & db' & Hrun & _ & _ & Hdoc & Hstatus).
  eexists w', _. split; [exact Hrun|]. split; [exact Hstatus|].
  split; [exact Hdoc|]. intros k.
  rewrite merged_nested by done.
  unfold maintenance_doc, stored. by rewrite Hdb.
Qed.

Ltac scalar_fields :=
  intros j v o Hj;
  repeat (cbn [lookup_prop] in Hj;
          destruct (decide _) in Hj; [by injection Hj as <-|]);
  discriminate Hj.

Lemma disabled_service adminUid action (service : string) (b : bool)
  (w : World) (db : Firestore) :
  adminDb w = Some db →
  ∃ w',
    logAdminAction adminUid action []
      (stored_as "config" "maintenance"
         (merged_maintenance db [(service, VObject [("enabled", VBool b)])])
         db w)
    = (Ok tt, w') ∧
    nested_prop "enabled" (prop service (maintenance_doc w'))
    = Some (VBool b) ∧
    ∀ k, k ≠ "enabled" →
         nested_prop k (prop service (maintenance_doc w'))
         = nested_prop k (prop service (maintenance_doc w)).
Proof.
  intros Hdb.
  destruct (switched_service adminUid action [] service
              [("enabled", VBool b)] w w db Hdb)
    as (w' & status & Hrun & _ & Hdoc & Hnested);
    [apply NoDup_singleton|scalar_fields|].
  exists w'. split; [exact Hrun|]. rewrite Hdoc. split.
  - by rewrite Hnested.
  - intros k Hk. rewrite Hnested. cbn [lookup_prop].
    by rewrite decide_False.
Qed.

(** X27. Switching the maintenance of the AI service, of the license
    service or the planned maintenance off rewrites the nested [enabled]
    flag only ([true] for the two services, [false] for the planned
    maintenance): the message and the other details stored next to the flag
    stay. *)
Theorem disabling_keeps_service_details (w : World) (db : Firestore)
  (adminUid : string) :
  adminDb w = Some db →
  (∃ w',
     disableIAMaintenance adminUid w = (Ok tt, w') ∧
     nested_prop "enabled" (prop "iaService" (maintenance_doc w'))
     = Some (VBool true) ∧
     ∀ k, k ≠ "enabled" →
          nested_prop k (prop "iaService" (maintenance_doc w'))
          = nested_prop k (prop "iaService" (maintenance_doc w))) ∧
  (∃ w',
     disableLicenseMaintenance adminUid w = (Ok tt, w') ∧
     nested_prop "enabled" (prop "licenseService" (maintenance_doc w'))
     = Some (VBool true) ∧
     ∀ k, k ≠ "enabled" →
          nested_prop k (prop "licenseService" (maintenance_doc w'))
          = nested_prop k (prop "licenseService" (maintenance_doc w))) ∧
  (∃ w',
     disablePlannedMaintenance adminUid w = (Ok tt, w') ∧
     nested_prop "enabled" (prop "plannedMaintenance" (maintenance_doc w'))
     = Some (VBool false) ∧
     ∀ k, k ≠ "enabled" →
          nested_prop k (prop "plannedMaintenance" (maintenance_doc w'))
          = nested_prop k (prop "plannedMaintenance" (maintenance_doc w))).
Proof.
  intros Hdb. split; [|split].
  - rewrite (disableIAMaintenance_eq w db Hdb). by apply disabled_service.
  - rewrite (disableLicenseMaintenance_eq w db Hdb). by apply disabled_service.
  - rewrite (disablePlannedMaintenance_eq w db Hdb). by apply disabled_service.
Qed.

Lemma disabling_keeps_service_details_witness :
  let w := (enablePlannedMaintenance "root" "2024-01-01T00:00:00Z" None
              demo_world).2 in
  ∃ w',
    disablePlannedMaintenance "root" w = (Ok tt, w') ∧
    nested_prop "enabled" (prop "plannedMaintenance" (maintenance_doc w'))
    = Some (VBool false) ∧
    ∀ k, k ≠ "enabled" →
         nested_prop k (prop "plannedMaintenance" (maintenance_doc w'))
         = nested_prop k (prop "plannedMaintenance" (maintenance_doc w)).
Proof.
  eapply (disabling_keeps_service_details _ _ "root").
  by vm_compute.
Defined.

(** Runs a command that merges a map of plain values under a service and
    reads the details back from the status. *)
Ltac records_details Hdb :=
  match goal with
  | |- context [logAdminAction ?a ?t ?p
                  (stored_as _ _
                     (merged_maintenance ?db [(?s, VObject ?upd)]) _ ?w0)] =>
      let w' := fresh "w'" in
      let status := fresh "status" in
      let Hrun := fresh "Hrun" in
      let Hstatus := fresh "Hstatus" in
      let Hnested := fresh "Hnested" in
      destruct (switched_service a t p s upd _ w0 db Hdb)
        as (w' & status & Hrun & Hstatus & _ & Hnested);
      [distinct_keys|scalar_fields|];
      exists w', status; split; [exact Hrun|];
      split; [exact Hstatus|]; by rewrite !Hnested
  end.

(** X28. Switching the maintenance of a service on, or planning a
    maintenance, stores the details under the service:
    [getMaintenanceStatus] then reports the flag, the message (a default
    when none or an empty one was given) and the admin, with the time of the
    call for a service and the planned time for a planned maintenance. *)
Theorem enabling_records_service_details (w : World) (db : Firestore)
  (adminUid plannedTime : string) (message : option string) :
  adminDb w = Some db →
  (∃ w' status,
     enableIAMaintenance adminUid message w = (Ok tt, w') ∧
     getMaintenanceStatus w' = (Ok status, w') ∧
     nested_prop "enabled" (prop "iaService" status) = Some (VBool false) ∧
     nested_prop "message" (prop "iaService" status)
     = Some (VStr (or_string message "AI service is under maintenance")) ∧
     nested_prop "enabledAt" (prop "iaService" status)
     = Some (VTimestamp (Z.of_N (clock w))) ∧
     nested_prop "enabledBy" (prop "iaService" status)
     = Some (VStr adminUid)) ∧
  (∃ w' status,
     enableLicenseMaintenance adminUid message w = (Ok tt, w') ∧
     getMaintenanceStatus w' = (Ok status, w') ∧
     nested_prop "enabled" (prop "licenseService" status)
     = Some (VBool false) ∧
     nested_prop "message" (prop "licenseService" status)
     = Some (VStr (or_string message
                     "License service is under maintenance")) ∧
     nested_prop "enabledAt" (prop "licenseService" status)
     = Some (VTimestamp (Z.of_N (clock w))) ∧
     nested_prop "enabledBy" (prop "licenseService" status)
     = Some (VStr adminUid)) ∧
  (∃ w' status,
     enablePlannedMaintenance adminUid plannedTime message w = (Ok tt, w') ∧
     getMaintenanceStatus w' = (Ok status, w') ∧
     nested_prop "enabled" (prop "plannedMaintenance" status)
     = Some (VBool true) ∧
     nested_prop "scheduledAt" (prop "plannedMaintenance" status)
     = Some (VStr plannedTime) ∧
     nested_prop "message" (prop "plannedMaintenance" status)
     = Some (VStr (or_string message "Planned maintenance scheduled")) ∧
     nested_prop "scheduledBy" (prop "plannedMaintenance" status)
     = Some (VStr adminUid)).
Proof.
  intros Hdb. split; [|split].
  - rewrite (enableIAMaintenance_eq w db Hdb). records_details Hdb.
  - rewrite (enableLicenseMaintenance_eq w db Hdb). records_details Hdb.
  - rewrite (enablePlannedMaintenance_eq w db Hdb). records_details Hdb.
Qed.

Lemma enabling_records_service_details_witness :
  ∃ w' status,
    enablePlannedMaintenance "root" "2024-01-01T00:00:00Z" None demo_world
    = (Ok tt, w') ∧
    getMaintenanceStatus w' = (Ok status, w') ∧
    nested_prop "enabled" (prop "plannedMaintenance" status)
    = Some (VBool true) ∧
    nested_prop "scheduledAt" (prop "plannedMaintenance" status)
    = Some (VStr "2024-01-01T00:00:00Z") ∧
    nested_prop "message" (prop "plannedMaintenance" status)
    = Some (VStr "Planned maintenance scheduled") ∧
    nested_prop "scheduledBy" (prop "plannedMaintenance" status)
    = Some (VStr "root").
Proof.
  exact (proj2 (proj2 (enabling_records_service_details demo_world demo_db
                         "root" "2024-01-01T00:00:00Z" None eq_refl))).
Defined.

(** X29. The global and the partial switch share the fields [message],
    [enabledAt] and [enabledBy]: after [enableGlobalMaintenance] and then
    [enablePartialMaintenance], the status still has the global switch on
    and lists the services, but its message and its admin are those of the
    partial call. *)
Theorem partial_overwrites_global_message (w : World) (db : Firestore)
  (admin1 admin2 : string) (message1 message2 : option string)
  (services : list string) :
  adminDb w = Some db →
  ∃ w' status,
    (enableGlobalMaintenance admin1 message1;;
     enablePartialMaintenance admin2 services message2) w = (Ok tt, w') ∧
    getMaintenanceStatus w' = (Ok status, w') ∧
    prop "isGlobalMaintenance" status = VBool true ∧
    prop "partialServices" status = VArray (map VStr services) ∧
    prop "message" status
    = VStr (or_string message2 "Some services are under maintenance") ∧
    prop "enabledBy" status = VStr admin2.
Proof.
  intros Hdb. unfold bind. rewrite (enableGlobalMaintenance_eq w db Hdb).
  set (on := merged_maintenance db _).
  destruct (audited_maintenance admin1 "ENABLE_GLOBAL_MAINTENANCE"
              [("message", of_optional message1)] db (after_tick w) on)
    as (w1 & db1 & Hrun1 & Hdb1 & Hdoc1 & _ & _).
  rewrite Hrun1, (enablePartialMaintenance_eq w1 db1 Hdb1).
  set (status := merged_maintenance db1 _).
  destruct (audited_maintenance admin2 "ENABLE_PARTIAL_MAINTENANCE"
              [("services", VArray (map VStr services));
               ("message", of_optional message2)] db1 (after_tick w1) status)
    as (w2 & db2 & Hrun2 & _ & _ & _ & Hstatus2).
  exists w2, status. split; [exact Hrun2|]. split; [exact Hstatus2|].
  split.
  { unfold prop, status.
    rewrite lookup_merged_maintenance_other by not_among.
    rewrite Hdoc1. cbn [default from_option id]. unfold on.
    erewrite merged_top;
      [reflexivity|distinct_keys|reflexivity|intros o; discriminate]. }
  do 2 (split; [unfold status; merged_scalar|]).
  unfold status; merged_scalar.
Qed.

Lemma partial_overwrites_global_message_witness :
  ∃ w' status,
    (enableGlobalMaintenance "root" (Some "Back soon");;
     enablePartialMaintenance "admin2" ["chat"] None) demo_world
    = (Ok tt, w') ∧
    getMaintenanceStatus w' = (Ok status, w') ∧
    prop "isGlobalMaintenance" status = VBool true ∧
    prop "partialServices" status = VArray (map VStr ["chat"]) ∧
    prop "message" status = VStr "Some services are under maintenance" ∧
    prop "enabledBy" status = VStr "admin2".
Proof.
  exact (partial_overwrites_global_message demo_world demo_db "root" "admin2"
           (Some "Back soon") None ["chat"] eq_refl).
Defined.

Lemma getAIConfig_run (w : World) (db : Firestore) :
  adminDb w = Some db →
  ∃ config, getAIConfig w = (Ok config, w).
Proof.
  intros Hdb. unfold getAIConfig.
  rewrite db_guard, Hdb, (doc_get_bind w db Hdb).
  destruct (collection "config" db !! "ai"); by eexists.
Qed.

(** X30. When [isAdminInitialized] answers [true], no call fails for want
    of a handle: a command that throws does not throw "Database not
    initialized" or "Firebase not initialized", [verifyAdmin] does not throw
    "Firebase Admin SDK not initialized", and the queries ([getUser] for a
    document id) return a result and leave the world as it was. *)
Theorem initialized_service_passes_guards (w : World) :
  isAdminInitialized w = (Ok true, w) →
  (∀ adminUid c e w',
     run adminUid c w = (Throw e, w') →
     e ≠ Error "Database not initialized" ∧
     e ≠ Error "Firebase not initialized") ∧
  (∀ idToken e w',
     verifyAdmin idToken w = (Throw e, w') →
     e ≠ Error "Firebase Admin SDK not initialized") ∧
  (∀ userId, document_id userId = true →
             ∃ user, getUser userId w = (Ok user, w)) ∧
  (∀ limit, ∃ licenses, getAllLicenses limit w = (Ok licenses, w)) ∧
  (∃ config, getAIConfig w = (Ok config, w)) ∧
  (∃ stats, getSystemStats w = (Ok stats, w)) ∧
  (∃ banned, getBannedUsers w = (Ok banned, w)) ∧
  (∃ status, getMaintenanceStatus w = (Ok status, w)).
Proof.
  unfold isAdminInitialized.
  destruct (adminDb w) as [db|] eqn:Hdb; [|done].
  destruct (adminAuth w) as [a|] eqn:Hauth; [|done].
  intros _.
  split; [|split; [|split; [|split; [|split; [|split; [|split]]]]]].
  - intros adminUid c e w' Hrun.
    destruct (run_shape adminUid c w)
      as [(e0 & w0 & Hthrow & _ & _ & _ & _ & Hguard)|(?&?&?& Hok &_)].
    + rewrite Hthrow in Hrun. injection Hrun as <- _.
      apply Hguard; [by rewrite Hdb|by rewrite Hauth].
    + rewrite Hok in Hrun. discriminate Hrun.
  - intros idToken e w'.
    destruct (id_tokens a !! idToken) as [uid|] eqn:Htoken.
    + rewrite (verifyAdmin_run w db a Hdb Hauth idToken uid Htoken).
      destruct (collection "users" db !! uid) as [user|];
        [destruct (truthy (prop "isAdmin" user))|];
        by intros [= <- _].
    + unfold verifyAdmin, bind, auth_is_null, db_is_null.
      rewrite Hauth, Hdb. simpl.
      unfold verifyIdToken, bind, auth. rewrite Hauth, Htoken.
      by intros [= <- _].
  - intros userId _. unfold getUser. rewrite db_guard, Hdb.
    rewrite (doc_get_bind w db Hdb).
    destruct (collection "users" db !! userId); by eexists.
  - intros limit. unfold getAllLicenses. rewrite db_guard, Hdb.
    unfold bind, coll_limit_get, bind, firestore. rewrite Hdb. by eexists.
  - by apply getAIConfig_run with (db := db).
  - eexists. by apply getSystemStats_run.
  - eexists. by apply getBannedUsers_run.
  - eexists. by apply getMaintenanceStatus_run.
Qed.

Lemma initialized_service_passes_guards_witness :
  (∀ adminUid c e w',
     run adminUid c demo_world = (Throw e, w') →
     e ≠ Error "Database not initialized" ∧
     e ≠ Error "Firebase not initialized") ∧
  (∀ idToken e w',
     verifyAdmin idToken demo_world = (Throw e, w') →
     e ≠ Error "Firebase Admin SDK not initialized") ∧
  (∀ userId, document_id userId = true →
             ∃ user, getUser userId demo_world = (Ok user, demo_world)) ∧
  (∀ limit, ∃ licenses,
     getAllLicenses limit demo_world = (Ok licenses, demo_world)) ∧
  (∃ config, getAIConfig demo_world = (Ok config, demo_world)) ∧
  (∃ stats, getSystemStats demo_world = (Ok stats, demo_world)) ∧
  (∃ banned, getBannedUsers demo_world = (Ok banned, demo_world)) ∧
  (∃ status, getMaintenanceStatus demo_world = (Ok status, demo_world)).
Proof.
  exact (initialized_service_passes_guards demo_world eq_refl).
Defined.
